(** * GoalFlow-AI: the plan-synthesis agents and the reflection agent

    A shallow embedding of the JavaScript agents (goal analyzer, task
    decomposer, priority scorer, scheduler, reflector) and of the
    orchestrator that sequences them, followed by the properties of the
    specification that were checked against them.

    Conventions of the embedding

    - A JavaScript number is an exact rational ([Q]); the three special
      values appear only where the code can produce them ([number]).
      Sums and comparisons are therefore exact; [toFixed] rounds the exact
      value (half away from zero).
    - A string is a [string] of bytes; [length], [substring], [\s], [\w],
      [\d] and case folding are those of ASCII text.
    - A value produced by [JSON.parse] is a [JSON]; [undefined] is [None]
      of [option JSON].
    - [try]/[catch] is an explicit [option] or [result]: [None] is a raised
      [TypeError] that the enclosing [catch] handles.
    - The generation backend, [JSON.parse] and the clock are the
      environment: the outcome of each generation call is an argument of
      the stage that makes it, and the rest is a [Runtime]. *)

From Stdlib Require Import ZArith QArith Qabs Qround Lqa Lia.
From Stdlib Require Import Bool List String Ascii DecimalString.
From Stdlib Require Import Permutation Sorted.
From stdpp Require Import base list strings.

Local Open Scope string_scope.
Local Open Scope Z_scope.
#[local] Set Warnings "-register-all".

(** ** JavaScript values and primitives *)

Module JS.

(** What a [try] block evaluates to: a value, or the message of the error
    that was thrown. *)
Inductive result (A : Type) : Type :=
| Ok (a : A)
| Thrown (message : string).
Arguments Ok {A} a.
Arguments Thrown {A} message.

(** The outcome of one [callHuggingFace] call: the text of the first
    successful response, or the error thrown once every model and attempt
    has failed. *)
Inductive Generation : Type :=
| Responds (text : string)
| Fails (message : string).

Inductive JSON : Type :=
| JNull
| JBool (b : bool)
| JNum (q : Q)
| JStr (s : string)
| JArr (items : list JSON)
| JObj (fields : list (string * JSON)).

(** A number that may be one of the special values. *)
Inductive number : Type :=
| Finite (q : Q)
| PosInfinity
| NegInfinity
| NaN.

(** [ToBoolean]. *)
Definition truthy (v : option JSON) : bool :=
  match v with
  | None => false
  | Some JNull => false
  | Some (JBool b) => b
  | Some (JNum q) => negb (Qeq_bool q 0)
  | Some (JStr s) => negb (String.eqb s "")
  | Some (JArr _) => true
  | Some (JObj _) => true
  end.

(** [a || b] on values, with a default that is always defined. *)
Definition or_else (v : option JSON) (d : JSON) : JSON :=
  match v with
  | Some x => if truthy v then x else d
  | None => d
  end.

(** Own-property lookup in a parsed object: the last binding of a
    repeated key is the one [JSON.parse] keeps. *)
Fixpoint lookup_field (k : string) (fields : list (string * JSON)) : option JSON :=
  match fields with
  | [] => None
  | (k', v) :: rest =>
      match lookup_field k rest with
      | Some w => Some w
      | None => if String.eqb k k' then Some v else None
      end
  end.

(** [v.k] for a data property [k]: a [TypeError] on [null], the field of an
    object, [undefined] on every other value. *)
Definition get (v : JSON) (k : string) : option (option JSON) :=
  match v with
  | JNull => None
  | JObj fields => Some (lookup_field k fields)
  | _ => Some None
  end.

(** [v?.k]. *)
Definition get_opt (v : option JSON) (k : string) : option JSON :=
  match v with
  | None | Some JNull => None
  | Some (JObj fields) => lookup_field k fields
  | Some _ => None
  end.

(** *** Characters and strings *)

Definition chars (s : string) : list ascii := list_ascii_of_string s.
Definition text (l : list ascii) : string := string_of_list_ascii l.

Definition code (c : ascii) : nat := nat_of_ascii c.

Definition is_space (c : ascii) : bool :=
  let n := code c in
  (Nat.eqb n 32 || (Nat.leb 9 n && Nat.leb n 13))%bool.

Definition is_digit (c : ascii) : bool :=
  let n := code c in (Nat.leb 48 n && Nat.leb n 57)%bool.

Definition is_upper (c : ascii) : bool :=
  let n := code c in (Nat.leb 65 n && Nat.leb n 90)%bool.

Definition is_lower (c : ascii) : bool :=
  let n := code c in (Nat.leb 97 n && Nat.leb n 122)%bool.

(** [\w]. *)
Definition is_word (c : ascii) : bool :=
  (is_digit c || is_upper c || is_lower c || Nat.eqb (code c) 95)%bool.

Definition lower (c : ascii) : ascii :=
  if is_upper c then ascii_of_nat (code c + 32) else c.

Definition toLowerCase (s : string) : string := text (List.map lower (chars s)).

Fixpoint dropWhile {A} (p : A -> bool) (l : list A) : list A :=
  match l with
  | [] => []
  | x :: rest => if p x then dropWhile p rest else l
  end.

Definition trimStart (l : list ascii) : list ascii := dropWhile is_space l.
Definition trimEnd (l : list ascii) : list ascii := rev (dropWhile is_space (rev l)).

Definition trim (s : string) : string := text (trimEnd (trimStart (chars s))).

Fixpoint starts_with (p l : list ascii) : bool :=
  match p, l with
  | [], _ => true
  | _ :: _, [] => false
  | a :: p', b :: l' => (Ascii.eqb a b && starts_with p' l')%bool
  end.

(** [s.includes(k)]. *)
Fixpoint includes_chars (k l : list ascii) : bool :=
  (starts_with k l ||
   match l with
   | [] => false
   | _ :: rest => includes_chars k rest
   end)%bool.

Definition includes (s k : string) : bool := includes_chars (chars k) (chars s).

Definition newline : ascii := ascii_of_nat 10.

Definition drop_newline (l : list ascii) : list ascii :=
  match l with
  | c :: rest => if Ascii.eqb c newline then rest else l
  | [] => []
  end.

(** [s.replace(/<fence>\n?/g, '')]: every occurrence of [fence], with the
    newline that may follow it, is removed, scanning left to right. *)
Fixpoint remove_fence (fuel : nat) (fence l : list ascii) : list ascii :=
  match fuel with
  | O => l
  | S fuel' =>
      match l with
      | [] => []
      | c :: rest =>
          if starts_with fence l
          then remove_fence fuel' fence (drop_newline (skipn (List.length fence) l))
          else c :: remove_fence fuel' fence rest
      end
  end.

Definition backticks : string := "```".

(** The cleaning every [parseResponse] starts with:
    [trim], drop [```json\n?], drop [```\n?], [trim]. *)
Definition cleanResponse (response : string) : string :=
  let l := chars (trim response) in
  let l := remove_fence (S (List.length l)) (chars (backticks ++ "json")) l in
  let l := remove_fence (S (List.length l)) (chars backticks) l in
  trim (text l).

(** *** Regular expressions, by derivatives

    [test] is [RegExp.prototype.test] for an expression without anchors:
    some substring of the subject matches. *)

Inductive regex : Type :=
| Never
| Eps
| Sym (p : ascii -> bool)
| Cat (a b : regex)
| Alt (a b : regex)
| Star (a : regex).

Fixpoint nullable (r : regex) : bool :=
  match r with
  | Never => false
  | Eps => true
  | Sym _ => false
  | Cat a b => (nullable a && nullable b)%bool
  | Alt a b => (nullable a || nullable b)%bool
  | Star _ => true
  end.

Definition cat (a b : regex) : regex :=
  match a, b with
  | Never, _ => Never
  | _, Never => Never
  | Eps, _ => b
  | _, _ => Cat a b
  end.

Definition alt (a b : regex) : regex :=
  match a, b with
  | Never, _ => b
  | _, Never => a
  | _, _ => Alt a b
  end.

Fixpoint deriv (c : ascii) (r : regex) : regex :=
  match r with
  | Never => Never
  | Eps => Never
  | Sym p => if p c then Eps else Never
  | Cat a b => alt (cat (deriv c a) b) (if nullable a then deriv c b else Never)
  | Alt a b => alt (deriv c a) (deriv c b)
  | Star a => cat (deriv c a) (Star a)
  end.

Fixpoint matches (r : regex) (l : list ascii) : bool :=
  match l with
  | [] => nullable r
  | c :: rest => matches (deriv c r) rest
  end.

Definition any : regex := Star (Sym (fun _ => true)).
Definition plus (r : regex) : regex := Cat r (Star r).

(** A literal under the [i] flag. *)
Fixpoint lit_chars (l : list ascii) : regex :=
  match l with
  | [] => Eps
  | c :: rest => Cat (Sym (fun d => Ascii.eqb (lower d) (lower c))) (lit_chars rest)
  end.
Definition lit (s : string) : regex := lit_chars (chars s).

Definition test (r : regex) (s : string) : bool :=
  matches (Cat any (Cat r any)) (chars s).

(** *** Numbers *)

(** [a < b] *)
Definition Qlt_bool (a b : Q) : bool := negb (Qle_bool b a).

Definition render_Z (z : Z) : string := NilZero.string_of_int (Z.to_int z).
Definition render_nat (n : nat) : string := render_Z (Z.of_nat n).

(** [Math.round]: the nearest integer, halves upwards. *)
Definition Math_round (q : Q) : Z := Qfloor (q + (1 # 2)).

Definition Math_floor (q : Q) : Z := Qfloor q.

(** Truncation toward zero. *)
Definition truncate (q : Q) : Z :=
  if Qle_bool 0 q then Qfloor q else - Qfloor (- q).

(** [x % 1]: the fractional part, with the sign of [x]. *)
Definition frac (q : Q) : Q := (q - inject_Z (truncate q))%Q.

(** The number of tenths [x.toFixed(1)] prints, without its sign. *)
Definition tenths (q : Q) : Z := Qfloor (Qabs q * 10 + (1 # 2)).

(** [x.toFixed(1)], for [x] below 1e21 in magnitude. *)
Definition toFixed1 (x : number) : string :=
  match x with
  | NaN => "NaN"
  | PosInfinity => "Infinity"
  | NegInfinity => "-Infinity"
  | Finite q =>
      let n := tenths q in
      (if Qle_bool 0 q then "" else "-") ++
      render_Z (n / 10) ++ "." ++ render_Z (n mod 10)
  end.

(** [parseFloat(x.toFixed(1))] for a finite [x]: [x] rounded to one
    decimal. *)
Definition roundTenth (q : Q) : Q :=
  if Qle_bool 0 q then (tenths q # 10)%Q else (- (tenths q # 10))%Q.

(** [a / n] for a finite [a] and an array length [n]. *)
Definition divide (a : Q) (n : nat) : number :=
  match n with
  | O => if Qeq_bool a 0 then NaN
         else if Qle_bool 0 a then PosInfinity else NegInfinity
  | S _ => Finite (a / inject_Z (Z.of_nat n))%Q
  end.

Definition digit_value (c : ascii) : Z := Z.of_nat (code c) - 48.

Definition hex_value (c : ascii) : option Z :=
  if is_digit c then Some (digit_value c)
  else let n := code (lower c) in
       if (Nat.leb 97 n && Nat.leb n 102)%bool then Some (Z.of_nat n - 87) else None.

Fixpoint span {A} (p : A -> bool) (l : list A) : list A * list A :=
  match l with
  | [] => ([], [])
  | x :: rest =>
      if p x then let (a, b) := span p rest in (x :: a, b) else ([], l)
  end.

Definition decimal_value (ds : list ascii) : Z :=
  fold_left (fun acc c => acc * 10 + digit_value c) ds 0.

Definition hexadecimal_value (ds : list ascii) : Z :=
  fold_left (fun acc c => acc * 16 + match hex_value c with Some v => v | None => 0 end) ds 0.

Definition is_hex (c : ascii) : bool :=
  match hex_value c with Some _ => true | None => false end.

(** An optional sign: the sign read and the rest. *)
Definition read_sign (l : list ascii) : bool * list ascii :=
  match l with
  | c :: rest =>
      if Ascii.eqb c "-" then (true, rest)
      else if Ascii.eqb c "+" then (false, rest)
      else (false, l)
  | [] => (false, [])
  end.

Definition signed (negative : bool) (q : Q) : Q := if negative then (- q)%Q else q.

(** [parseInt(s)] on a string, radix not given: leading white space, a
    sign, then hexadecimal digits after [0x] or decimal digits; [None] is
    [NaN]. *)
Definition decimal_prefix (negative : bool) (l : list ascii) : option Z :=
  match fst (span is_digit l) with
  | [] => None
  | ds => Some (if negative then - decimal_value ds else decimal_value ds)
  end.

Definition parseInt_string (s : string) : option Z :=
  let (negative, l) := read_sign (trimStart (chars s)) in
  match l with
  | z :: x :: rest =>
      if (Ascii.eqb z "0" && Ascii.eqb (lower x) "x")%bool then
        match fst (span is_hex rest) with
        | [] => None
        | ds => Some (if negative then - hexadecimal_value ds else hexadecimal_value ds)
        end
      else decimal_prefix negative l
  | _ => decimal_prefix negative l
  end.

Definition pow10 (e : Z) : Q :=
  if 0 <=? e then inject_Z (10 ^ e) else (1 / inject_Z (10 ^ (- e)))%Q.

(** The exponent part [e[+-]ddd], counted only when a digit follows. *)
Definition read_exponent (l : list ascii) : Z :=
  match l with
  | e :: rest =>
      if Ascii.eqb (lower e) "e" then
        let (negative, rest') := read_sign rest in
        match fst (span is_digit rest') with
        | [] => 0
        | ds => if negative then - decimal_value ds else decimal_value ds
        end
      else 0
  | [] => 0
  end.

(** [parseFloat(s)] on a string: leading white space, a sign, then
    [Infinity] or the longest decimal literal. *)
Definition parseFloat_string (s : string) : number :=
  let (negative, l) := read_sign (trimStart (chars s)) in
  if starts_with (chars "Infinity") l then
    (if negative then NegInfinity else PosInfinity)
  else
    let (whole, after) := span is_digit l in
    let (fraction, after') :=
      match after with
      | dot :: rest =>
          if Ascii.eqb dot "." then span is_digit rest else ([], after)
      | [] => ([], after)
      end in
    match whole, fraction with
    | [], [] => NaN
    | _, _ =>
        let mantissa : Q :=
          (inject_Z (decimal_value (whole ++ fraction))
           * pow10 (- Z.of_nat (List.length fraction)))%Q in
        Finite (signed negative (mantissa * pow10 (read_exponent after'))%Q)
    end.

(** The first digit of a positive integer, and the first significant
    digit of a rational between 0 and 1. *)
Fixpoint leading_digit (fuel : nat) (n : Z) : Z :=
  match fuel with
  | O => n
  | S fuel' => if n <? 10 then n else leading_digit fuel' (n / 10)
  end.

Fixpoint leading_decimal (fuel : nat) (q : Q) : Z :=
  match fuel with
  | O => 0
  | S fuel' => if Qle_bool 1 q then Qfloor q else leading_decimal fuel' (q * 10)
  end.

(** [parseInt(x)] on a number [x]: [x] is printed and the integer its text
    starts with is read. From 1e-6 up to 1e21 the text is positional, and
    the result is [x] truncated; outside, the text is a digit followed by
    a fraction and an exponent, and the result is that digit. *)
Definition parseInt_number (q : Q) : Z :=
  let a := Qabs q in
  let magnitude :=
    if Qle_bool (inject_Z (10 ^ 21)) a
    then leading_digit (S (Z.to_nat (Z.log2 (Qfloor a)))) (Qfloor a)
    else if (Qlt_bool 0 a && Qlt_bool a (1 # 1000000))%bool
    then leading_decimal (S (Z.to_nat (Z.log2 (Zpos (Qden a))))) a
    else Qfloor a in
  if Qle_bool 0 q then magnitude else - magnitude.

(** [parseInt(v)] and [parseFloat(v)] on a parsed value: the value is
    first printed ([ToString]) and the text is read. A printed number
    reads back as itself with [parseFloat]; an array prints its items
    separated by commas, so only its first item is read; [null], booleans
    and objects print as words. *)
Fixpoint read_value {A} (num : Q -> A) (str : string -> A) (nan : A) (x : JSON) : A :=
  match x with
  | JNum q => num q
  | JStr s => str s
  | JArr (y :: _) => read_value num str nan y
  | _ => nan
  end.

Definition parseInt (v : option JSON) : option Z :=
  match v with
  | Some x => read_value (fun q => Some (parseInt_number q)) parseInt_string None x
  | None => None
  end.

Definition parseFloat (v : option JSON) : number :=
  match v with
  | Some x => read_value Finite parseFloat_string NaN x
  | None => NaN
  end.

(** [r.test(v)] for a parsed value [v] and an expression [r] whose matches
    are made of letters, digits and white space and contain a letter: the
    value is printed first; a printed number, boolean or object has no
    such match, and in a printed array a match lies inside one item. *)
Fixpoint test_value (r : regex) (v : JSON) : bool :=
  match v with
  | JStr s => test r s
  | JArr items => existsb (test_value r) items
  | _ => false
  end.

(** [l.map(f)] where [f] may throw: the first [None] aborts. *)
Fixpoint map_try {A B} (f : nat -> A -> option B) (index : nat) (l : list A) : option (list B) :=
  match l with
  | [] => Some []
  | x :: rest =>
      match f index x with
      | None => None
      | Some y =>
          match map_try f (S index) rest with
          | None => None
          | Some ys => Some (y :: ys)
          end
      end
  end.

Fixpoint mapi {A B} (f : nat -> A -> B) (index : nat) (l : list A) : list B :=
  match l with
  | [] => []
  | x :: rest => f index x :: mapi f (S index) rest
  end.

(** What the agents take from their environment besides the generation
    backend. Time stamps ([createdAt], [analyzedAt], [scoredAt],
    [generatedAt], ...) are left out of the records below. *)
Record Runtime : Type := {
  JSON_parse : string -> option JSON;   (* [None]: a [SyntaxError] *)
  Date_now : Z;                         (* [Date.now()] *)
  today : string;                       (* [new Date().toISOString().split('T')[0]] *)
  addDays : string -> nat -> string     (* the ISO date so many days after a date *)
}.

End JS.


Import JS.

(** ** Goal analysis *)

Module GoalAnalyzerAgent.

Record GoalDescriptor : Type := {
  originalGoal : string;
  parsedDeadline : JSON;
  subject : JSON;
  complexity : string;
  recommendedApproach : JSON;
  note : option string
}.

Definition valid : list string := ["low"; "medium"; "high"].

Definition member (s : string) (l : list string) : bool := existsb (String.eqb s) l.

(** [complexity?.toLowerCase()] is [undefined] on [undefined] and [null],
    throws on a value that is not a string. *)
Definition validateComplexity (complexity : option JSON) : option string :=
  match complexity with
  | None | Some JNull => Some "medium"
  | Some (JStr s) =>
      let normalized := toLowerCase s in
      Some (if member normalized valid then normalized else "medium")
  | Some _ => None
  end.

(** [/(\d+\s*(day|week|month|year)|deadline|by\s+\w+)/i] *)
Definition deadline_pattern : regex :=
  Alt (Cat (plus (Sym is_digit))
           (Cat (Star (Sym is_space))
                (Alt (lit "day") (Alt (lit "week") (Alt (lit "month") (lit "year"))))))
      (Alt (lit "deadline")
           (Cat (lit "by") (Cat (plus (Sym is_space)) (plus (Sym is_word))))).

(** The number of maximal runs of white space in a text. *)
Fixpoint space_runs (in_run : bool) (l : list ascii) : nat :=
  match l with
  | [] => O
  | c :: rest =>
      if is_space c
      then ((if in_run then 0 else 1) + space_runs true rest)%nat
      else space_runs false rest
  end.

(** [goalText.split(/\s+/).length] *)
Definition wordCount (goalText : string) : nat := S (space_runs false (chars goalText)).

Definition substring_0_50 (s : string) : string := text (firstn 50 (chars s)).

Definition createFallbackAnalysis (goalText : string) : GoalDescriptor :=
  let hasDeadline := test deadline_pattern goalText in
  let wc := wordCount goalText in
  {| originalGoal := goalText;
     parsedDeadline := JStr (if hasDeadline then "deadline mentioned" else "not specified");
     subject := JStr (substring_0_50 goalText ++
                      (if Nat.ltb 50 (String.length goalText) then "..." else ""));
     complexity := if Nat.ltb 20 wc then "high" else if Nat.ltb 10 wc then "medium" else "low";
     recommendedApproach :=
       JStr "Break goal into smaller, manageable tasks and set milestones";
     note := Some "Fallback analysis used due to parsing error" |}.

Fixpoint index_of (c : ascii) (l : list ascii) : option nat :=
  match l with
  | [] => None
  | d :: rest =>
      if Ascii.eqb c d then Some O
      else match index_of c rest with Some i => Some (S i) | None => None end
  end.

Fixpoint last_index_of (c : ascii) (l : list ascii) : option nat :=
  match l with
  | [] => None
  | d :: rest =>
      match last_index_of c rest with
      | Some i => Some (S i)
      | None => if Ascii.eqb c d then Some O else None
      end
  end.

(** [cleaned.match(/\{[\s\S]*\}/)]: from the first opening brace to the
    last closing brace after it. *)
Definition match_object (cleaned : string) : option string :=
  let l := chars cleaned in
  match index_of "{" l with
  | None => None
  | Some i =>
      match last_index_of "}" (skipn i l) with
      | None => None
      | Some j => Some (text (firstn (S j) (skipn i l)))
      end
  end.

(** [cleaned.slice(firstBrace, lastBrace + 1)] under the guard
    [firstBrace !== -1 && lastBrace !== -1 && lastBrace > firstBrace]. *)
Definition slice_braces (cleaned : string) : option string :=
  let l := chars cleaned in
  match index_of "{" l, last_index_of "}" l with
  | Some i, Some j =>
      if Nat.ltb i j then Some (text (firstn (S j - i) (skipn i l))) else None
  | _, _ => None
  end.

Section Agent.
Context (rt : Runtime).

(** The three parsing attempts of [parseResponse]; [None] when the last
    one tried throws. *)
Definition parse_attempts (cleaned : string) : option JSON :=
  match JSON_parse rt cleaned with
  | Some parsed => Some parsed
  | None =>
      match match_object cleaned with
      | None => None
      | Some candidate =>
          match JSON_parse rt candidate with
          | Some parsed => Some parsed
          | None =>
              match slice_braces cleaned with
              | Some sliced => JSON_parse rt sliced
              | None => None
              end
          end
      end
  end.

(** The body of the [try] block after parsing. *)
Definition validated (parsed : JSON) (originalGoal : string) : option GoalDescriptor :=
  match get parsed "parsedDeadline", get parsed "subject",
        get parsed "complexity", get parsed "recommendedApproach" with
  | Some deadline, Some subj, Some cx, Some approach =>
      match validateComplexity cx with
      | Some c =>
          Some {| originalGoal := originalGoal;
                  parsedDeadline := or_else deadline (JStr "not specified");
                  subject := or_else subj (JStr "General task");
                  complexity := c;
                  recommendedApproach := or_else approach (JStr "Break down into smaller tasks");
                  note := None |}
      | None => None
      end
  | _, _, _, _ => None
  end.

Definition parseResponse (response originalGoal : string) : GoalDescriptor :=
  match parse_attempts (cleanResponse response) with
  | Some parsed =>
      match validated parsed originalGoal with
      | Some descriptor => descriptor
      | None => createFallbackAnalysis originalGoal
      end
  | None => createFallbackAnalysis originalGoal
  end.

Definition analyzeGoal (generation : Generation) (goalText : string) : result GoalDescriptor :=
  match generation with
  | Responds response => Ok (parseResponse response goalText)
  | Fails message => Thrown ("Failed to analyze goal: " ++ message)
  end.

End Agent.

End GoalAnalyzerAgent.

(** ** Task decomposition *)

Module TaskDecomposerAgent.
Import GoalAnalyzerAgent.

Record Task : Type := {
  id : string;
  description : JSON;
  estimatedHours : Q;
  priority : string;
  order : JSON;
  status : string;
  goalReference : string;
  note : option string;
  priorityScore : option Z;        (* unset until the tasks are scored *)
  scoreReasoning : option JSON
}.

Definition validateHours (hours : option JSON) : Q :=
  match parseFloat hours with
  | NaN => 2%Q
  | NegInfinity => 2%Q
  | PosInfinity => 40%Q
  | Finite num =>
      if Qle_bool num 0 then 2%Q
      else if Qlt_bool 40 num then 40%Q
      else (inject_Z (Math_round (num * 2)) / 2)%Q
  end.

Definition validatePriority (priority : option JSON) : option string :=
  match priority with
  | None | Some JNull => Some "medium"
  | Some (JStr s) =>
      let normalized := toLowerCase s in
      Some (if member normalized ["high"; "medium"; "low"] then normalized else "medium")
  | Some _ => None
  end.

Section Agent.
Context (rt : Runtime).

Definition task_id (index : nat) : string :=
  "task_" ++ render_Z (Date_now rt) ++ "_" ++ render_nat index.

Definition createFallbackTasks (analyzedGoal : GoalDescriptor) : list Task :=
  let goal := originalGoal analyzedGoal in
  let cx := complexity analyzedGoal in
  let taskCount := if String.eqb cx "high" then 5%nat
                   else if String.eqb cx "medium" then 4%nat else 3%nat in
  let baseHours : Q := if String.eqb cx "high" then 3%Q
                       else if String.eqb cx "medium" then 2%Q else (3 # 2)%Q in
  List.map (fun i : nat =>
         {| id := task_id i;
            description := JStr ("Step " ++ render_nat (i + 1) ++ ": Work on " ++ goal);
            estimatedHours := (baseHours + inject_Z (Z.of_nat i) * (1 # 2))%Q;
            priority := if Nat.ltb i 2 then "high" else "medium";
            order := JNum (inject_Z (Z.of_nat (i + 1)));
            status := "pending";
            goalReference := goal;
            note := Some "Auto-generated fallback task";
            priorityScore := None;
            scoreReasoning := None |})
      (seq 0 taskCount).

(** One step of [tasks.map((task, index) => ...)]. *)
Definition enhance (analyzedGoal : GoalDescriptor) (index : nat) (task : JSON) : option Task :=
  match get task "description", get task "estimatedHours",
        get task "priority", get task "order" with
  | Some d, Some h, Some p, Some o =>
      match validatePriority p with
      | Some p' =>
          Some {| id := task_id index;
                  description := or_else d (JStr ("Task " ++ render_nat (index + 1)));
                  estimatedHours := validateHours h;
                  priority := p';
                  order := or_else o (JNum (inject_Z (Z.of_nat (index + 1))));
                  status := "pending";
                  goalReference := originalGoal analyzedGoal;
                  note := None;
                  priorityScore := None;
                  scoreReasoning := None |}
      | None => None
      end
  | _, _, _, _ => None
  end.

Definition parseResponse (response : string) (analyzedGoal : GoalDescriptor) : list Task :=
  match JSON_parse rt (cleanResponse response) with
  | Some (JArr tasks) =>
      match map_try (enhance analyzedGoal) 0 tasks with
      | Some enhanced => enhanced
      | None => createFallbackTasks analyzedGoal
      end
  | _ => createFallbackTasks analyzedGoal
  end.

Definition decompose (generation : Generation) (analyzedGoal : GoalDescriptor)
  : result (list Task) :=
  match generation with
  | Responds response => Ok (parseResponse response analyzedGoal)
  | Fails message => Thrown ("Failed to decompose tasks: " ++ message)
  end.

End Agent.

(** [calculateTotalTime] *)
Definition calculateTotalTime (tasks : list Task) : Q :=
  fold_left (fun sum task => (sum + estimatedHours task)%Q) tasks 0%Q.

End TaskDecomposerAgent.

(** ** Priority scoring *)

Module PriorityScorerAgent.
Import TaskDecomposerAgent.

(** The context [scoreTasks] receives; [None] is a key that is absent. *)
Record Context : Type := {
  deadline : option JSON;
  userTendency : option string
}.

Definition empty_context : Context := {| deadline := None; userTendency := None |}.

Definition validateScore (score : option JSON) : Z :=
  match parseInt score with
  | None => 5
  | Some num => if num <? 1 then 1 else if 10 <? num then 10 else num
  end.

Definition clamp_score (score : Q) : Z := Z.max 1 (Z.min 10 (Math_round score)).

Definition calculateFallbackScore (task : Task) (index : nat) : Z :=
  let score : Q := 5%Q in
  let score := if String.eqb (priority task) "high" then (score + 2)%Q else score in
  let score := if String.eqb (priority task) "low" then (score - 1)%Q else score in
  let score := if Nat.ltb index 2 then (score + 1)%Q else score in
  clamp_score score.

(** [/(\d+\s*(day|week)|tomorrow|urgent)/i] *)
Definition urgency_pattern : regex :=
  Alt (Cat (plus (Sym is_digit))
           (Cat (Star (Sym is_space)) (Alt (lit "day") (lit "week"))))
      (Alt (lit "tomorrow") (lit "urgent")).

(** [deadline && deadline !== 'not specified'] *)
Definition deadline_given (d : option JSON) : bool :=
  (truthy d &&
   match d with
   | Some (JStr s) => negb (String.eqb s "not specified")
   | _ => true
   end)%bool.

Definition hasUrgentDeadline (d : option JSON) : bool :=
  match d with
  | Some v => test_value urgency_pattern v
  | None => false
  end.

Definition Qmax (a b : Q) : Q := if Qle_bool a b then b else a.

(** The score [applyFallbackScoring] gives the task at [index]. *)
Definition fallbackScore (context : Context) (task : Task) (index : nat) : Z :=
  let tendency := match userTendency context with Some t => t | None => "balanced" end in
  let score : Q := 5%Q in
  let score := if String.eqb (priority task) "high" then (score + 3)%Q else score in
  let score := if String.eqb (priority task) "low" then (score - 2)%Q else score in
  let score := (score + Qmax 0 (3 - inject_Z (Z.of_nat index) * (1 # 2)))%Q in
  let score :=
    if deadline_given (deadline context)
    then (if hasUrgentDeadline (deadline context) then (score + 2)%Q else score)
    else score in
  let score :=
    if String.eqb tendency "procrastinator"
    then (if Nat.ltb index 2 then (score + 1)%Q else score)
    else score in
  clamp_score score.

Definition applyFallbackScoring (tasks : list Task) (context : Context) : list Task :=
  mapi (fun index task =>
          {| id := id task; description := description task;
             estimatedHours := estimatedHours task; priority := priority task;
             order := order task; status := status task;
             goalReference := goalReference task; note := note task;
             priorityScore := Some (fallbackScore context task index);
             scoreReasoning := Some (JStr "Rule-based scoring (fallback)") |})
       0 tasks.

(** [s.taskIndex === index] *)
Definition has_index (index : nat) (s : JSON) : option bool :=
  match get s "taskIndex" with
  | None => None
  | Some (Some (JNum q)) => Some (Qeq_bool q (inject_Z (Z.of_nat index)))
  | Some _ => Some false
  end.

(** [scores.find(s => s.taskIndex === index)]; the outer [None] is the
    [TypeError] of reading a property of [null]. *)
Fixpoint find_score (index : nat) (scores : list JSON) : option (option JSON) :=
  match scores with
  | [] => Some None
  | s :: rest =>
      match has_index index s with
      | None => None
      | Some true => Some (Some s)
      | Some false => find_score index rest
      end
  end.

Section Agent.
Context (rt : Runtime).

(** One step of [tasks.map((task, index) => ...)] in [parseResponse]. *)
Definition applyScore (scores : list JSON) (index : nat) (task : Task) : option Task :=
  match find_score index scores with
  | None => None
  | Some scoreData =>
      let score :=
        match scoreData with
        | Some s => validateScore (get_opt scoreData "score")
        | None => calculateFallbackScore task index
        end in
      Some {| id := id task; description := description task;
              estimatedHours := estimatedHours task; priority := priority task;
              order := order task; status := status task;
              goalReference := goalReference task; note := note task;
              priorityScore := Some score;
              scoreReasoning :=
                Some (or_else (get_opt scoreData "reasoning")
                              (JStr "Fallback scoring applied")) |}
  end.

Definition parseResponse (response : string) (tasks : list Task) : list Task :=
  match JSON_parse rt (cleanResponse response) with
  | Some (JArr scores) =>
      match map_try (applyScore scores) 0 tasks with
      | Some scored => scored
      | None => applyFallbackScoring tasks empty_context
      end
  | _ => applyFallbackScoring tasks empty_context
  end.

Definition scoreTasks (generation : Generation) (tasks : list Task) (context : Context)
  : list Task :=
  match generation with
  | Responds response => parseResponse response tasks
  | Fails _ => applyFallbackScoring tasks context
  end.

End Agent.

End PriorityScorerAgent.

(** ** Schedule construction *)

Module SchedulerAgent.
Import TaskDecomposerAgent.

Record Preferences : Type := {
  availableHoursPerDay : option Q;
  preferredStudyTimes : option (list string);
  bufferTimePercent : option Q;
  startDate : option string
}.

(** A scheduled task instance. *)
Module Slot.
Record t : Type := {
  taskDescription : JSON;
  taskId : string;
  priorityScore : option Z;
  startTime : string;
  duration : Q;
  bufferAfter : Q
}.
End Slot.

Module Day.
Record t : Type := {
  day : nat;
  date : string;
  tasks : list Slot.t;
  totalHours : Q;
  timeOfDay : string
}.
End Day.

Module Summary.
Record t : Type := {
  totalDays : nat;
  totalHours : Q;
  averageHoursPerDay : string;
  tasksScheduled : nat;
  note : string
}.
End Summary.

(** A day and a summary as [parseResponse] normalizes them: the fields are
    the values of the response where these are truthy. *)
Module GeneratedDay.
Record t : Type := {
  day : JSON;
  date : JSON;
  tasks : JSON;
  totalHours : JSON;
  timeOfDay : JSON
}.
End GeneratedDay.

Module GeneratedSummary.
Record t : Type := {
  totalDays : JSON;
  totalHours : JSON;
  averageHoursPerDay : JSON;
  tasksScheduled : nat
}.
End GeneratedSummary.

Inductive ScheduleData : Type :=
| Generated (schedule : list GeneratedDay.t) (summary : GeneratedSummary.t)
            (preferences : Preferences)
| Fallback (schedule : list Day.t) (summary : Summary.t) (preferences : Preferences).

(** [task.priorityScore || 5] *)
Definition scoreOr5 (task : Task) : Z :=
  match priorityScore task with
  | Some score => if score =? 0 then 5 else score
  | None => 5
  end.

(** [sort((a, b) => (b.priorityScore || 5) - (a.priorityScore || 5))]:
    the sort is stable, so the result is the one of insertion from the
    right, a task passing only those of strictly higher score. *)
Fixpoint insertByScore (task : Task) (sorted : list Task) : list Task :=
  match sorted with
  | [] => [task]
  | other :: rest =>
      if scoreOr5 task <? scoreOr5 other
      then other :: insertByScore task rest
      else task :: sorted
  end.

Definition sortByScore (tasks : list Task) : list Task :=
  fold_right insertByScore [] tasks.

Definition sumHours (tasks : list Task) : Q :=
  fold_left (fun sum task => (sum + estimatedHours task)%Q) tasks 0%Q.

Definition calculateTotalHours (tasks : list Task) : Q := roundTenth (sumHours tasks).

(** [n.toString().padStart(2, '0')] *)
Definition pad2 (n : Z) : string :=
  let s := render_Z n in
  if Nat.ltb (String.length s) 2 then "0" ++ s else s.

(** [timeOfDay] is [None] when the caller passes [undefined], which the
    default parameter turns into ['morning']. *)
Definition calculateStartTime (hoursIntoDay : Q) (timeOfDay : option string) : string :=
  let timeOfDay := match timeOfDay with Some t => t | None => "morning" end in
  let baseHour := if String.eqb timeOfDay "morning" then 9
                  else if String.eqb timeOfDay "afternoon" then 14
                  else if String.eqb timeOfDay "evening" then 18 else 9 in
  let hour := baseHour + Math_floor hoursIntoDay in
  let minutes := Math_round (frac hoursIntoDay * 60) in
  pad2 hour ++ ":" ++ pad2 minutes.

(** The state of the loop of [createFallbackSchedule]. *)
Record Packing : Type := {
  schedule : list Day.t;
  currentDay : nat;
  currentDayHours : Q;
  currentDayTasks : list Slot.t
}.

Section Agent.
Context (rt : Runtime).

Definition calculateDate (startDateStr : option string) (dayOffset : nat) : string :=
  match startDateStr with
  | Some s => if String.eqb s "" then addDays rt (today rt) dayOffset
              else addDays rt s dayOffset
  | None => addDays rt (today rt) dayOffset
  end.

Section Packing.
(** The preferences after destructuring, with their defaults applied. *)
Variables (hoursPerDay bufferPercent : Q) (start : string) (studyTimes : list string).

(** [preferredStudyTimes[0] || 'morning'] *)
Definition dayTimeOfDay : string :=
  match studyTimes with
  | t :: _ => if String.eqb t "" then "morning" else t
  | [] => "morning"
  end.

Definition closeDay (st : Packing) : Day.t :=
  {| Day.day := currentDay st + 1;
     Day.date := calculateDate (Some start) (currentDay st);
     Day.tasks := currentDayTasks st;
     Day.totalHours := roundTenth (currentDayHours st);
     Day.timeOfDay := dayTimeOfDay |}.

Definition bufferOf (taskDuration : Q) : Q := (taskDuration * (bufferPercent / 100))%Q.

(** The body of [sortedTasks.forEach]. *)
Definition place (st : Packing) (task : Task) : Packing :=
  let taskDuration := estimatedHours task in
  let bufferTime := bufferOf taskDuration in
  let totalTime := (taskDuration + bufferTime)%Q in
  let st :=
    if (Qlt_bool hoursPerDay (currentDayHours st + totalTime)
        && Nat.ltb 0 (List.length (currentDayTasks st)))%bool
    then {| schedule := schedule st ++ [closeDay st];
            currentDay := S (currentDay st);
            currentDayHours := 0;
            currentDayTasks := [] |}
    else st in
  let startTime := calculateStartTime (currentDayHours st) (head studyTimes) in
  {| schedule := schedule st;
     currentDay := currentDay st;
     currentDayHours := (currentDayHours st + totalTime)%Q;
     currentDayTasks :=
       currentDayTasks st ++
       [ {| Slot.taskDescription := description task;
            Slot.taskId := id task;
            Slot.priorityScore := priorityScore task;
            Slot.startTime := startTime;
            Slot.duration := taskDuration;
            Slot.bufferAfter := roundTenth bufferTime |} ] |}.

Definition emptyPacking : Packing :=
  {| schedule := []; currentDay := 0; currentDayHours := 0; currentDayTasks := [] |}.

(** The schedule once the loop has ended and the last day is added. *)
Definition finish (st : Packing) : list Day.t :=
  if Nat.ltb 0 (List.length (currentDayTasks st))
  then schedule st ++ [closeDay st]
  else schedule st.

Definition packDays (tasks : list Task) : list Day.t :=
  finish (fold_left place (sortByScore tasks) emptyPacking).

End Packing.

Definition createFallbackSchedule (tasks : list Task) (preferences : Preferences)
  : ScheduleData :=
  let hoursPerDay := match availableHoursPerDay preferences with Some h => h | None => 4%Q end in
  let bufferPercent := match bufferTimePercent preferences with Some b => b | None => 20%Q end in
  let start := match startDate preferences with Some d => d | None => today rt end in
  let studyTimes :=
    match preferredStudyTimes preferences with Some l => l | None => ["morning"] end in
  let days := packDays hoursPerDay bufferPercent start studyTimes tasks in
  let totalHours := calculateTotalHours tasks in
  Fallback days
    {| Summary.totalDays := List.length days;
       Summary.totalHours := totalHours;
       Summary.averageHoursPerDay := toFixed1 (divide totalHours (List.length days));
       Summary.tasksScheduled := List.length tasks;
       Summary.note := "Fallback schedule generated" |}
    preferences.

(** One step of [scheduleData.schedule.map((day, index) => ...)]. *)
Definition normalizeDay (preferences : Preferences) (index : nat) (d : JSON)
  : option GeneratedDay.t :=
  match get d "day", get d "date", get d "tasks", get d "totalHours", get d "timeOfDay" with
  | Some n, Some dt, Some ts, Some h, Some tod =>
      Some {| GeneratedDay.day := or_else n (JNum (inject_Z (Z.of_nat (index + 1))));
              GeneratedDay.date :=
                or_else dt (JStr (calculateDate (startDate preferences) index));
              GeneratedDay.tasks := or_else ts (JArr []);
              GeneratedDay.totalHours := or_else h (JNum 0);
              GeneratedDay.timeOfDay := or_else tod (JStr "morning") |}
  | _, _, _, _, _ => None
  end.

Definition parseResponse (response : string) (tasks : list Task) (preferences : Preferences)
  : ScheduleData :=
  match JSON_parse rt (cleanResponse response) with
  | Some scheduleData =>
      match get scheduleData "schedule" with
      | Some (Some (JArr days)) =>
          match map_try (normalizeDay preferences) 0 days with
          | Some normalized =>
              let summary := get_opt (Some scheduleData) "summary" in
              Generated normalized
                {| GeneratedSummary.totalDays :=
                     or_else (get_opt summary "totalDays")
                             (JNum (inject_Z (Z.of_nat (List.length days))));
                   GeneratedSummary.totalHours :=
                     or_else (get_opt summary "totalHours")
                             (JNum (calculateTotalHours tasks));
                   GeneratedSummary.averageHoursPerDay :=
                     or_else (get_opt summary "averageHoursPerDay")
                             (JStr (toFixed1 (divide (calculateTotalHours tasks)
                                                     (List.length days))));
                   GeneratedSummary.tasksScheduled := List.length tasks |}
                preferences
          | None => createFallbackSchedule tasks preferences
          end
      | _ => createFallbackSchedule tasks preferences
      end
  | None => createFallbackSchedule tasks preferences
  end.

(** [buildPrompt] sorts the array it is given in place before the
    generation call is made, so both branches see the sorted tasks. *)
Definition createSchedule (generation : Generation) (tasks : list Task)
  (preferences : Preferences) : ScheduleData :=
  let tasks := sortByScore tasks in
  match generation with
  | Responds response => parseResponse response tasks preferences
  | Fails _ => createFallbackSchedule tasks preferences
  end.

End Agent.

End SchedulerAgent.

(** ** Reflection *)

Module ReflectionAgent.

(** A task-progress observation, with the fields the agent computes on. *)
Record Progress : Type := {
  status : string;
  completedTime : option string;
  completedOnTime : bool;
  taskDescription : string
}.

(** A pattern entry of the memory, without its time stamps
    ([firstIdentified], [lastUpdated]). *)
Module Pattern.
Record t : Type := {
  pattern : string;
  description : option JSON;
  confidence : option JSON;
  occurrences : option Z
}.
End Pattern.

(** An entry of [memoryUpdates]. *)
Module Update.
Record t : Type := {
  pattern : string;
  description : option JSON;
  confidence : option JSON
}.
End Update.

Record Stats : Type := {
  totalTasksAttempted : nat;
  totalTasksCompleted : nat;
  overallCompletionRate : Q
}.

Record Memory : Type := {
  patterns : option (list Pattern.t);
  stats : option Stats;
  preferredTimes : list string
}.

Record ProgressAnalyzed : Type := {
  totalTasks : nat;
  completed : nat;
  missed : nat
}.

(** The adjustments of a reflection, in the shape the prompt asks for:
    the two lists of changes are arrays where they are present. *)
Record Adjustments : Type := {
  recommendedBufferPercent : option JSON;
  scheduleChanges : option (list JSON);
  priorityChanges : option (list JSON)
}.

(** The result of a reflection; [analysis], [insights] and
    [memoryUpdates] are handed over as values, and [adjustmentsMade] may be
    missing. *)
Record Reflection (Plan : Type) : Type := {
  adjustedPlan : Plan;
  analysis : JSON;
  insights : JSON;
  memoryUpdates : JSON;
  updatedMemory : Memory;
  adjustmentsMade : option Adjustments;
  progressAnalyzed : ProgressAnalyzed;
  note : option string
}.
Arguments adjustedPlan {Plan} _.
Arguments analysis {Plan} _.
Arguments insights {Plan} _.
Arguments memoryUpdates {Plan} _.
Arguments updatedMemory {Plan} _.
Arguments adjustmentsMade {Plan} _.
Arguments progressAnalyzed {Plan} _.
Arguments note {Plan} _.

Definition isCompleted (p : Progress) : bool := String.eqb (status p) "completed".
Definition isMissed (p : Progress) : bool :=
  (String.eqb (status p) "missed" || String.eqb (status p) "incomplete")%bool.

(** [(completed / total) * 100], or [ifNone] when nothing was observed. *)
Definition percentage (completedCount totalCount : nat) (ifNone : Q) : Q :=
  if Nat.ltb 0 totalCount
  then (inject_Z (Z.of_nat completedCount) / inject_Z (Z.of_nat totalCount) * 100)%Q
  else ifNone.

(** *** Memory *)

(** [{...existing, ...update, occurrences: (existing.occurrences || 1) + 1}] *)
Definition merged (existing : Pattern.t) (update : Update.t) : Pattern.t :=
  {| Pattern.pattern := Update.pattern update;
     Pattern.description :=
       match Update.description update with
       | Some d => Some d
       | None => Pattern.description existing
       end;
     Pattern.confidence :=
       match Update.confidence update with
       | Some c => Some c
       | None => Pattern.confidence existing
       end;
     Pattern.occurrences :=
       Some (match Pattern.occurrences existing with
             | Some n => if n =? 0 then 1 else n
             | None => 1
             end + 1) |}.

(** [{...update, occurrences: 1}] *)
Definition added (update : Update.t) : Pattern.t :=
  {| Pattern.pattern := Update.pattern update;
     Pattern.description := Update.description update;
     Pattern.confidence := Update.confidence update;
     Pattern.occurrences := Some 1 |}.

(** The body of [newPatterns.forEach]: [findIndex] by pattern key, then
    an assignment at that index or a [push]. *)
Definition upsert (patterns : list Pattern.t) (update : Update.t) : list Pattern.t :=
  match list_find (fun p => Pattern.pattern p = Update.pattern update) patterns with
  | Some (existingIndex, existing) => <[existingIndex := merged existing update]> patterns
  | None => patterns ++ [added update]
  end.

Definition updateMemory (currentMemory : Memory) (memoryUpdates : option (list Update.t))
  (userProgress : list Progress) : Memory :=
  let patterns := match patterns currentMemory with Some l => l | None => [] end in
  let newPatterns := match memoryUpdates with Some l => l | None => [] end in
  let patterns := fold_left upsert newPatterns patterns in
  let completedCount := List.length (List.filter isCompleted userProgress) in
  let totalCount := List.length userProgress in
  let completionRate := percentage completedCount totalCount 0 in
  {| patterns := Some patterns;
     stats := Some {| totalTasksAttempted := totalCount;
                      totalTasksCompleted := completedCount;
                      overallCompletionRate := roundTenth completionRate |};
     preferredTimes := preferredTimes currentMemory |}.

(** *** The rule-based fallback *)

(** [t.completedTime && parseInt(t.completedTime.split(':')[0]) >= 18] *)
Definition inEvening (t : Progress) : bool :=
  match completedTime t with
  | None => false
  | Some time =>
      if String.eqb time "" then false
      else
        let hour := text (fst (span (fun c => negb (Ascii.eqb c ":")) (chars time))) in
        match parseInt_string hour with
        | Some h => 18 <=? h
        | None => false
        end
  end.

Definition recommendedBuffer (completionRate : Q) : Q :=
  if Qlt_bool completionRate 60 then 30%Q
  else if Qlt_bool completionRate 80 then 20%Q else 15%Q.

Definition tendencyOf (completionRate : Q) : string :=
  if Qlt_bool 80 completionRate then "realistic"
  else if Qlt_bool 50 completionRate then "slightly optimistic"
  else "overly optimistic".

Definition fallbackInsights (userProgress : list Progress) : list string :=
  let completedTasks := List.filter isCompleted userProgress in
  let missedTasks := List.filter isMissed userProgress in
  let completionRate := percentage (List.length completedTasks) (List.length userProgress) 0 in
  let eveningTasks := List.filter inEvening completedTasks in
  (if Qlt_bool completionRate 50
   then ["Completion rate is low - consider reducing daily workload"] else []) ++
  (if Nat.ltb (List.length completedTasks) (List.length missedTasks)
   then ["More tasks missed than completed - time estimates may be too optimistic"]
   else []) ++
  (if Qlt_bool (inject_Z (Z.of_nat (List.length completedTasks)) * (6 # 10))
               (inject_Z (Z.of_nat (List.length eveningTasks)))
   then ["User tends to complete tasks in the evening"] else []).

Definition createFallbackReflection {Plan} (currentPlan : Plan) (userProgress : list Progress)
  (userMemory : Memory) : Reflection Plan :=
  let completedTasks := List.filter isCompleted userProgress in
  let missedTasks := List.filter isMissed userProgress in
  let completionRate := percentage (List.length completedTasks) (List.length userProgress) 0 in
  let insights := List.map JStr (fallbackInsights userProgress) in
  {| adjustedPlan := currentPlan;
     analysis :=
       JObj [ ("whyTasksMissed",
               JStr (if Nat.ltb 0 (List.length missedTasks)
                     then "Likely due to time underestimation or scheduling conflicts"
                     else "No significant issues detected"));
              ("identifiedPatterns", JArr [JStr "Pattern detection limited in fallback mode"]);
              ("userTendency", JStr (tendencyOf completionRate)) ];
     insights := JArr insights;
     memoryUpdates := JArr [];
     updatedMemory := userMemory;
     adjustmentsMade :=
       Some {| recommendedBufferPercent := Some (JNum (recommendedBuffer completionRate));
               scheduleChanges := Some insights;
               priorityChanges := None |};
     progressAnalyzed := {| totalTasks := List.length userProgress;
                            completed := List.length completedTasks;
                            missed := List.length missedTasks |};
     note := Some "Fallback reflection used" |}.

(** *** The agent *)

Section Agent.
Context (rt : Runtime) {Plan : Type}.

(** What the [try] block of [parseResponse] does with the parsed value:
    [applyAdjustments] on its [adjustments], [updateMemory] on its
    [memoryUpdates], and the assembly of the result; [None] when it
    throws. It is a parameter: the properties of the failure paths hold
    whatever it computes. *)
Context (assembled : JSON -> Plan -> list Progress -> Memory -> option (Reflection Plan)).

Definition parseResponse (response : string) (currentPlan : Plan)
  (userProgress : list Progress) (userMemory : Memory) : Reflection Plan :=
  match JSON_parse rt (cleanResponse response) with
  | Some reflection =>
      match assembled reflection currentPlan userProgress userMemory with
      | Some r => r
      | None => createFallbackReflection currentPlan userProgress userMemory
      end
  | None => createFallbackReflection currentPlan userProgress userMemory
  end.

Definition reflect (generation : Generation) (currentPlan : Plan)
  (userProgress : list Progress) (userMemory : Memory) : Reflection Plan :=
  match generation with
  | Responds response => parseResponse response currentPlan userProgress userMemory
  | Fails _ => createFallbackReflection currentPlan userProgress userMemory
  end.

End Agent.

(** [adjustmentsMade?.scheduleChanges?.length] and
    [adjustmentsMade?.priorityChanges?.length]; [0] stands for [undefined],
    which is not greater than any number. *)
Definition proposedScheduleChanges (adjustmentsMade : option Adjustments) : nat :=
  match adjustmentsMade with
  | Some a => match scheduleChanges a with Some l => List.length l | None => O end
  | None => O
  end.

Definition proposedPriorityChanges (adjustmentsMade : option Adjustments) : nat :=
  match adjustmentsMade with
  | Some a => match priorityChanges a with Some l => List.length l | None => O end
  | None => O
  end.

Definition completionRate (p : ProgressAnalyzed) : Q :=
  percentage (completed p) (totalTasks p) 100.

Definition needsReplanning {Plan} (reflection : Reflection Plan) : bool :=
  if Qlt_bool (completionRate (progressAnalyzed reflection)) 50 then true
  else if Nat.ltb 3 (proposedScheduleChanges (adjustmentsMade reflection)) then true
  else if Nat.ltb 2 (proposedPriorityChanges (adjustmentsMade reflection)) then true
  else false.

End ReflectionAgent.

(** ** The orchestrator *)

Module AgentOrchestrator.
Import GoalAnalyzerAgent TaskDecomposerAgent SchedulerAgent.

(** [options.userContext]; [None] is a key the caller did not give. *)
Record UserContext : Type := {
  tendency : option string;
  deadline : option JSON;
  userTendency : option string
}.

Record Options : Type := {
  userContext : option UserContext;
  schedulingPreferences : option Preferences
}.

(** The outcome of the generation call of each stage, were it made. *)
Record Backend : Type := {
  forGoal : Generation;
  forTasks : Generation;
  forScores : Generation;
  forSchedule : Generation
}.

Record Plan : Type := {
  goal : GoalDescriptor;
  tasks : list Task;
  schedule : ScheduleData;
  totalTasks : nat
}.

(** What [createStudyPlan] returns; the log is the list of the steps
    logged, in order. *)
Inductive Outcome : Type :=
| Success (plan : Plan) (executionLog : list string)
| Failure (error : string) (executionLog : list string) (failedAt : string).

Definition buildUserContext (userContext : option UserContext) (analyzedGoal : GoalDescriptor)
  : PriorityScorerAgent.Context :=
  let given := match userContext with
               | Some c => c
               | None => {| tendency := None; deadline := None; userTendency := None |}
               end in
  {| PriorityScorerAgent.deadline :=
       match deadline given with
       | Some d => Some d
       | None => Some (parsedDeadline analyzedGoal)
       end;
     PriorityScorerAgent.userTendency :=
       match userTendency given with
       | Some t => Some t
       | None =>
           match tendency given with
           | Some t => Some (if String.eqb t "" then "balanced" else t)
           | None => Some "balanced"
           end
       end |}.

(** [None] is the [TypeError] of calling [toLowerCase] on a value that is
    not a string. *)
Definition estimateAvailableHours (deadline : JSON) : option Q :=
  if negb (truthy (Some deadline)) then Some 4%Q
  else
    match deadline with
    | JStr d =>
        if String.eqb d "not specified" then Some 4%Q
        else if existsb (includes (toLowerCase d))
                        ["tomorrow"; "today"; "urgent"; "asap"; "1 day"; "2 day"]
        then Some 6%Q
        else if existsb (includes (toLowerCase d)) ["week"; "7 day"; "5 day"]
        then Some 5%Q
        else Some 4%Q
    | _ => None
    end.

Definition getLastCompletedStep (executionLog : list string) : string :=
  List.last (List.filter (fun step => includes step "COMPLETE") executionLog) "NONE".

Section Orchestrator.
Context (rt : Runtime).

Definition buildSchedulingPreferences (preferences : option Preferences)
  (analyzedGoal : GoalDescriptor) : option Preferences :=
  let given := match preferences with
               | Some p => p
               | None => {| availableHoursPerDay := None; preferredStudyTimes := None;
                            bufferTimePercent := None; startDate := None |}
               end in
  match estimateAvailableHours (parsedDeadline analyzedGoal) with
  | None => None
  | Some defaultHours =>
      Some {| availableHoursPerDay :=
                Some (match availableHoursPerDay given with Some h => h | None => defaultHours end);
              preferredStudyTimes :=
                Some (match preferredStudyTimes given with
                      | Some l => l
                      | None => ["morning"; "afternoon"]
                      end);
              bufferTimePercent :=
                Some (match bufferTimePercent given with Some b => b | None => 20%Q end);
              startDate :=
                Some (match startDate given with Some d => d | None => today rt end) |}
  end.

Definition failure (error : string) (executionLog : list string) : Outcome :=
  Failure error (executionLog ++ ["ORCHESTRATION_ERROR"])%list (getLastCompletedStep executionLog).

Definition createStudyPlan (backend : Backend) (goalText : string) (options : Options)
  : Outcome :=
  let log := ["ORCHESTRATION_START"; "STEP_1_START"] in
  match GoalAnalyzerAgent.analyzeGoal rt (forGoal backend) goalText with
  | Thrown message => failure message log
  | Ok analyzedGoal =>
      let log := (log ++ ["STEP_1_COMPLETE"; "STEP_2_START"])%list in
      match TaskDecomposerAgent.decompose rt (forTasks backend) analyzedGoal with
      | Thrown message => failure message log
      | Ok tasks =>
          let log := (log ++ ["STEP_2_COMPLETE"])%list in
          if Nat.eqb (List.length tasks) 0
          then failure "Task decomposition produced no tasks" log
          else
            let log := (log ++ ["STEP_3_START"])%list in
            let context := buildUserContext (userContext options) analyzedGoal in
            let scoredTasks :=
              PriorityScorerAgent.scoreTasks rt (forScores backend) tasks context in
            let log := (log ++ ["STEP_3_COMPLETE"; "STEP_4_START"])%list in
            match buildSchedulingPreferences (schedulingPreferences options) analyzedGoal with
            | None => failure "deadline.toLowerCase is not a function" log
            | Some schedulingPrefs =>
                let schedule :=
                  SchedulerAgent.createSchedule rt (forSchedule backend)
                                                scoredTasks schedulingPrefs in
                Success {| goal := analyzedGoal;
                           tasks := sortByScore scoredTasks;
                           schedule := schedule;
                           totalTasks := List.length tasks |}
                        (log ++ ["STEP_4_COMPLETE"; "ORCHESTRATION_COMPLETE"])%list
            end
      end
  end.

End Orchestrator.

End AgentOrchestrator.

(** ** The generation client *)

Module HuggingFace.

Definition WORKING_MODELS : list string := ["meta-llama/Llama-3.2-3B-Instruct"].

(** The options of a call; [None] is a key that is not given. *)
Record Options : Type := {
  model : option string;
  maxRetries : option nat;
  retryDelay : option nat
}.

(** What a call does, in order: requests to the inference client and
    pauses. *)
Inductive Event : Type :=
| Request (model : string) (attempt : nat)
| Sleep (milliseconds : nat).

Section Client.
(** The body of the [try] block for a model and an attempt: the content of
    the first choice, or the message of the error thrown. *)
Context (chatCompletion : string -> nat -> string + string).

(** The [for] loop over the attempts of one model, [remaining] attempts
    before the last one included; the result is the content returned, if
    any, the events and the last error. *)
Fixpoint attempts (m : string) (retries delay remaining : nat) (lastError : option string)
  : option string * list Event * option string :=
  match remaining with
  | O => (None, [], lastError)
  | S remaining' =>
      let attempt := (retries - remaining')%nat in
      match chatCompletion m attempt with
      | inl content => (Some content, [Request m attempt], lastError)
      | inr message =>
          let pause := if Nat.ltb attempt retries then [Sleep delay] else [] in
          let '(found, events, lastError') :=
            attempts m retries delay remaining' (Some message) in
          (found, (Request m attempt :: pause ++ events)%list, lastError')
      end
  end.

(** The [for] loop over the models. *)
Fixpoint tryModels (models : list string) (retries delay : nat) (lastError : option string)
  : option string * list Event * option string :=
  match models with
  | [] => (None, [], lastError)
  | m :: rest =>
      match attempts m retries delay retries lastError with
      | (Some content, events, lastError') => (Some content, events, lastError')
      | (None, events, lastError') =>
          let '(found, events', lastError'') := tryModels rest retries delay lastError' in
          (found, (events ++ events')%list, lastError'')
      end
  end.

Definition modelsToTry (options : Options) : list string :=
  match model options with
  | Some m => if String.eqb m "" then WORKING_MODELS else [m]
  | None => WORKING_MODELS
  end.

Definition callHuggingFace (options : Options) : Generation * list Event :=
  let retries := match maxRetries options with Some n => n | None => 3%nat end in
  let delay := match retryDelay options with Some n => n | None => 1000%nat end in
  match tryModels (modelsToTry options) retries delay None with
  | (Some content, events, _) => (Responds content, events)
  | (None, events, lastError) =>
      (Fails ("All models failed. Last error: " ++
              match lastError with Some message => message | None => "undefined" end),
       events)
  end.

End Client.

Definition isRequest (e : Event) : bool :=
  match e with Request _ _ => true | Sleep _ => false end.

Definition requests (events : list Event) : nat := List.length (List.filter isRequest events).
Definition pauses (events : list Event) : nat :=
  List.length (List.filter (fun e => negb (isRequest e)) events).

End HuggingFace.

(** ** Reading a schedule *)

Module ScheduleAnalysis.
Import SchedulerAgent.

Record Feasibility : Type := {
  isFeasible : bool;
  overloadedDays : nat;
  loadPercentage : string;
  recommendation : string
}.

(** [x.toFixed(0)], for [x] below 1e21 in magnitude. *)
Definition toFixed0 (x : number) : string :=
  match x with
  | NaN => "NaN"
  | PosInfinity => "Infinity"
  | NegInfinity => "-Infinity"
  | Finite q =>
      (if Qle_bool 0 q then "" else "-") ++ render_Z (Qfloor (Qabs q + (1 # 2)))
  end.

(** [(avgLoad / maxHoursPerDay) * 100], for a [maxHoursPerDay] other
    than 0. *)
Definition loadOf (avgLoad : number) (maxHoursPerDay : Q) : number :=
  match avgLoad with
  | Finite a => Finite (a / maxHoursPerDay * 100)%Q
  | PosInfinity => if Qle_bool 0 maxHoursPerDay then PosInfinity else NegInfinity
  | NegInfinity => if Qle_bool 0 maxHoursPerDay then NegInfinity else PosInfinity
  | NaN => NaN
  end.

(** [avgLoad > bound] *)
Definition exceeds (avgLoad : number) (bound : Q) : bool :=
  match avgLoad with
  | Finite a => Qlt_bool bound a
  | PosInfinity => true
  | NegInfinity | NaN => false
  end.

(** [analyzeFeasibility] on a schedule of the shape
    [createFallbackSchedule] returns: the hours of a day are a number and
    the average of the summary is a text. *)
Definition analyzeFeasibility (schedule : list Day.t) (summary : Summary.t)
  (preferences : Preferences) : Feasibility :=
  let maxHoursPerDay :=
    match availableHoursPerDay preferences with
    | Some h => if Qeq_bool h 0 then 4%Q else h
    | None => 4%Q
    end in
  let overloaded :=
    List.filter (fun day => Qlt_bool maxHoursPerDay (Day.totalHours day)) schedule in
  let avgLoad := parseFloat_string (Summary.averageHoursPerDay summary) in
  {| isFeasible := Nat.eqb (List.length overloaded) 0;
     overloadedDays := List.length overloaded;
     loadPercentage := toFixed0 (loadOf avgLoad maxHoursPerDay) ++ "%";
     recommendation :=
       if Nat.ltb 0 (List.length overloaded)
       then "Consider extending deadline or reducing scope"
       else if exceeds avgLoad (maxHoursPerDay * (8 # 10))
       then "Schedule is tight but achievable"
       else "Schedule has comfortable margins" |}.

End ScheduleAnalysis.

(** ** Picking the next task and reading the log *)

(** The utilities of the priority scorer that read a list of tasks. *)
Module PriorityQueries.
Import TaskDecomposerAgent.

(** [b.priorityScore - a.priorityScore > 0]: [a] goes after [b]. A score
    that is missing makes the difference [NaN], which [sort] reads as 0;
    the comparison is then not an order and the language leaves the
    result to the engine, so that the order below is the one of [sort]
    on tasks that all have a score. *)
Definition scoredBelow (a b : Task) : bool :=
  match priorityScore a, priorityScore b with
  | Some x, Some y => x <? y
  | _, _ => false
  end.

Fixpoint insertByPriority (task : Task) (sorted : list Task) : list Task :=
  match sorted with
  | [] => [task]
  | other :: rest =>
      if scoredBelow task other
      then other :: insertByPriority task rest
      else task :: sorted
  end.

(** [[...tasks].sort((a, b) => b.priorityScore - a.priorityScore)] *)
Definition sortByPriority (tasks : list Task) : list Task :=
  fold_right insertByPriority [] tasks.

Definition getNextTask (tasks : list Task) : option Task :=
  let pending := List.filter (fun task => String.eqb (status task) "pending") tasks in
  match pending with
  | [] => None
  | _ => head (sortByPriority pending)
  end.

End PriorityQueries.

(** The methods of the orchestrator that read a plan or the log. *)
Module OrchestratorQueries.
Import TaskDecomposerAgent.

(** [completedTaskIds.includes(task.id)] *)
Definition isCompleted (completedTaskIds : list string) (task : Task) : bool :=
  existsb (String.eqb (id task)) completedTaskIds.

Definition getNextTask (plan : AgentOrchestrator.Plan) (completedTaskIds : list string)
  : option Task :=
  let remainingTasks :=
    List.filter (fun task => negb (isCompleted completedTaskIds task))
                (AgentOrchestrator.tasks plan) in
  match remainingTasks with
  | [] => None
  | _ => head (PriorityQueries.sortByPriority remainingTasks)
  end.

Record Stats : Type := {
  totalSteps : nat;
  completedSteps : nat;
  errors : nat;
  successRate : string
}.

Definition getStats (executionLog : list string) : Stats :=
  let steps := List.length executionLog in
  let errors := List.length (List.filter (fun step => includes step "ERROR") executionLog) in
  let completedSteps :=
    List.length (List.filter (fun step => includes step "COMPLETE") executionLog) in
  {| totalSteps := steps;
     completedSteps := completedSteps;
     errors := errors;
     successRate :=
       if Nat.ltb 0 steps
       then toFixed1 (Finite (inject_Z (Z.of_nat completedSteps)
                              / inject_Z (Z.of_nat steps) * 100)%Q) ++ "%"
       else "N/A" |}.

End OrchestratorQueries.

(** The recommendations read off a reflection. *)
Module ReflectionQueries.
Import ReflectionAgent.

(** [...v] in an argument list: the items of an array, the characters of
    a string; [None] is the [TypeError] on a value that cannot be
    iterated. *)
Definition spread (v : JSON) : option (list JSON) :=
  match v with
  | JArr items => Some items
  | JStr s => Some (List.map (fun c => JStr (String c EmptyString)) (chars s))
  | _ => None
  end.

(** [c.change || c] *)
Definition changeOf (c : JSON) : option JSON :=
  match get c "change" with
  | Some change => Some (or_else change c)
  | None => None
  end.

Definition getRecommendations {Plan} (reflection : Reflection Plan) : option (list JSON) :=
  let fromInsights :=
    if truthy (Some (insights reflection)) then spread (insights reflection) else Some [] in
  match fromInsights with
  | None => None
  | Some recommendations =>
      match adjustmentsMade reflection with
      | Some adjustments =>
          match scheduleChanges adjustments with
          | Some changes =>
              match map_try (fun _ => changeOf) 0 changes with
              | Some described => Some (recommendations ++ described)%list
              | None => None
              end
          | None => Some recommendations
          end
      | None => Some recommendations
      end
  end.

End ReflectionQueries.

(** ** A runtime for the examples

    The theorems below hold for every [Runtime]. The examples run the
    agents on concrete texts, with this reader for [JSON.parse] (objects,
    arrays, strings with the simple escapes, decimal numbers, [true],
    [false], [null]) and a fixed clock; a date is printed as the date
    counted from and the number of days added. *)

Module Example.

Definition quote : ascii := ascii_of_nat 34.
Definition backslash : ascii := ascii_of_nat 92.

(** The characters of a string literal after its opening quote. *)
Fixpoint read_string (l : list ascii) (acc : list ascii) : option (string * list ascii) :=
  match l with
  | [] => None
  | c :: rest =>
      if Ascii.eqb c quote then Some (text (rev acc), rest)
      else if Ascii.eqb c backslash then
        match rest with
        | e :: rest' =>
            let plain (d : ascii) := read_string rest' (d :: acc) in
            if Ascii.eqb e quote then plain quote
            else if Ascii.eqb e backslash then plain backslash
            else if Ascii.eqb e "/" then plain "/"%char
            else if Ascii.eqb e "n" then plain newline
            else if Ascii.eqb e "t" then plain (ascii_of_nat 9)
            else if Ascii.eqb e "r" then plain (ascii_of_nat 13)
            else None
        | [] => None
        end
      else if Nat.ltb (code c) 32 then None
      else read_string rest (c :: acc)
  end.

(** A number literal: sign, digits, fraction, exponent. *)
Definition read_number (l : list ascii) : option (Q * list ascii) :=
  let (negative, l1) :=
    match l with
    | c :: rest => if Ascii.eqb c "-" then (true, rest) else (false, l)
    | [] => (false, l)
    end in
  let (whole, l2) := span is_digit l1 in
  match whole with
  | [] => None
  | _ =>
      let (fraction, l3) :=
        match l2 with
        | dot :: rest => if Ascii.eqb dot "." then span is_digit rest else ([], l2)
        | [] => ([], l2)
        end in
      let exponent := read_exponent l3 in
      let l4 :=
        match l3 with
        | e :: rest =>
            if Ascii.eqb (lower e) "e"
            then (let (_, r) := read_sign rest in
                  match span is_digit r with
                  | ([], _) => l3
                  | (_, r') => r'
                  end)
            else l3
        | [] => l3
        end in
      Some (signed negative
              (inject_Z (decimal_value (whole ++ fraction))
               * pow10 (- Z.of_nat (List.length fraction)) * pow10 exponent)%Q,
            l4)
  end.

Definition after_word (w : string) (v : JSON) (l : list ascii) : option (JSON * list ascii) :=
  if starts_with (chars w) l then Some (v, skipn (String.length w) l) else None.

Fixpoint read_json (fuel : nat) (l : list ascii) : option (JSON * list ascii) :=
  match fuel with
  | O => None
  | S fuel' =>
      match trimStart l with
      | [] => None
      | c :: rest =>
          if Ascii.eqb c "{" then
            match trimStart rest with
            | d :: rest' =>
                if Ascii.eqb d "}" then Some (JObj [], rest')
                else match read_members fuel' (d :: rest') with
                     | Some (fields, r) => Some (JObj fields, r)
                     | None => None
                     end
            | [] => None
            end
          else if Ascii.eqb c "[" then
            match trimStart rest with
            | d :: rest' =>
                if Ascii.eqb d "]" then Some (JArr [], rest')
                else match read_items fuel' (d :: rest') with
                     | Some (items, r) => Some (JArr items, r)
                     | None => None
                     end
            | [] => None
            end
          else if Ascii.eqb c quote then
            match read_string rest [] with
            | Some (s, r) => Some (JStr s, r)
            | None => None
            end
          else if Ascii.eqb c "t" then after_word "true" (JBool true) (c :: rest)
          else if Ascii.eqb c "f" then after_word "false" (JBool false) (c :: rest)
          else if Ascii.eqb c "n" then after_word "null" JNull (c :: rest)
          else match read_number (c :: rest) with
               | Some (q, r) => Some (JNum q, r)
               | None => None
               end
      end
  end
with read_items (fuel : nat) (l : list ascii) : option (list JSON * list ascii) :=
  match fuel with
  | O => None
  | S fuel' =>
      match read_json fuel' l with
      | None => None
      | Some (v, r) =>
          match trimStart r with
          | c :: rest =>
              if Ascii.eqb c "]" then Some ([v], rest)
              else if Ascii.eqb c "," then
                match read_items fuel' rest with
                | Some (vs, r') => Some (v :: vs, r')
                | None => None
                end
              else None
          | [] => None
          end
      end
  end
with read_members (fuel : nat) (l : list ascii)
  : option (list (string * JSON) * list ascii) :=
  match fuel with
  | O => None
  | S fuel' =>
      match trimStart l with
      | q :: rest =>
          if Ascii.eqb q quote then
            match read_string rest [] with
            | None => None
            | Some (k, r) =>
                match trimStart r with
                | colon :: r1 =>
                    if Ascii.eqb colon ":" then
                      match read_json fuel' r1 with
                      | None => None
                      | Some (v, r2) =>
                          match trimStart r2 with
                          | c :: r3 =>
                              if Ascii.eqb c "}" then Some ([(k, v)], r3)
                              else if Ascii.eqb c "," then
                                match read_members fuel' r3 with
                                | Some (fields, r4) => Some ((k, v) :: fields, r4)
                                | None => None
                                end
                              else None
                          | [] => None
                          end
                      end
                    else None
                | [] => None
                end
            end
          else None
      | [] => None
      end
  end.

Definition readJSON (s : string) : option JSON :=
  match read_json (S (String.length s)) (chars s) with
  | Some (v, rest) => match trimStart rest with [] => Some v | _ => None end
  | None => None
  end.

(** A response text, written with an apostrophe for each double quote. *)
Definition quoted (s : string) : string :=
  text (List.map (fun c : ascii => if Ascii.eqb c "'" then quote else c) (chars s)).

Definition runtime : Runtime :=
  {| JSON_parse := readJSON;
     Date_now := 1700000000000;
     today := "2023-11-14";
     addDays := fun d n => d ++ "+" ++ render_nat n ++ "d" |}.

End Example.


(** * Properties *)

(** ** Arithmetic of the embedding *)

Lemma Qlt_bool_iff (a b : Q) : Qlt_bool a b = true <-> (a < b)%Q.
Proof.
  unfold Qlt_bool. rewrite negb_true_iff. split.
  - intros H. apply Qnot_le_lt. intros Hle.
    apply Qle_bool_iff in Hle. congruence.
  - intros H. destruct (Qle_bool b a) eqn:E; [|reflexivity].
    apply Qle_bool_iff in E. exfalso. apply (Qlt_not_le _ _ H E).
Qed.

Lemma Qlt_bool_false_iff (a b : Q) : Qlt_bool a b = false <-> (b <= a)%Q.
Proof.
  unfold Qlt_bool. rewrite negb_false_iff. apply Qle_bool_iff.
Qed.

Lemma Qfloor_nonneg (q : Q) : (0 <= q)%Q -> 0 <= Qfloor q.
Proof.
  intros H. change 0 with (Qfloor 0). apply Qfloor_resp_le, H.
Qed.

Lemma Qfloor_upper (q : Q) (n : Z) : (q < inject_Z (n + 1))%Q -> Qfloor q <= n.
Proof.
  intros H. assert (Qfloor q < n + 1); [|lia].
  rewrite Zlt_Qlt. eapply Qle_lt_trans; [apply Qfloor_le | exact H].
Qed.

(** ** The sort by score is a permutation *)

Lemma insertByScore_Permutation task sorted :
  Permutation (SchedulerAgent.insertByScore task sorted) (task :: sorted).
Proof.
  induction sorted as [|other rest IH]; simpl.
  - reflexivity.
  - destruct (SchedulerAgent.scoreOr5 task <? SchedulerAgent.scoreOr5 other).
    + rewrite IH. apply perm_swap.
    + reflexivity.
Qed.

Lemma sortByScore_Permutation tasks :
  Permutation (SchedulerAgent.sortByScore tasks) tasks.
Proof.
  induction tasks as [|t tasks IH]; simpl.
  - reflexivity.
  - rewrite insertByScore_Permutation. now constructor.
Qed.

(** ** Scores and hours (claim C4) *)

Lemma clamp_score_range (score : Q) : 1 <= PriorityScorerAgent.clamp_score score <= 10.
Proof. unfold PriorityScorerAgent.clamp_score. lia. Qed.

Lemma validateScore_range (score : option JSON) :
  1 <= PriorityScorerAgent.validateScore score <= 10.
Proof.
  unfold PriorityScorerAgent.validateScore.
  destruct (parseInt score) as [num|]; [|lia].
  destruct (num <? 1) eqn:E1; [lia|].
  destruct (10 <? num) eqn:E2; [lia|].
  apply Z.ltb_ge in E1, E2. lia.
Qed.

Lemma validateHours_range (hours : option JSON) :
  (0 <= TaskDecomposerAgent.validateHours hours <= 40)%Q.
Proof.
  unfold TaskDecomposerAgent.validateHours.
  destruct (parseFloat hours) as [num| | |]; try (split; discriminate).
  destruct (Qle_bool num 0) eqn:E0; [split; discriminate|].
  destruct (Qlt_bool 40 num) eqn:E40; [split; discriminate|].
  apply Qlt_bool_false_iff in E40.
  assert (H0 : (0 < num)%Q).
  { apply Qnot_le_lt. intros H. apply Qle_bool_iff in H. congruence. }
  unfold Math_round.
  assert (Hlo : 0 <= Qfloor (num * 2 + (1 # 2))) by (apply Qfloor_nonneg; lra).
  assert (Hhi : Qfloor (num * 2 + (1 # 2)) <= 80).
  { apply Qfloor_upper. change (inject_Z (80 + 1)) with 81%Q. lra. }
  rewrite Zle_Qle in Hlo, Hhi.
  change (inject_Z 0) with 0%Q in Hlo. change (inject_Z 80) with 80%Q in Hhi.
  set (z := inject_Z (Qfloor (num * 2 + (1 # 2)))) in *.
  clearbody z. split.
  - apply Qle_shift_div_l; lra.
  - apply Qle_shift_div_r; lra.
Qed.

Lemma mapi_Forall {A B} (P : B -> Prop) (f : nat -> A -> B) (l : list A) :
  (forall i x, P (f i x)) -> forall index, Forall P (mapi f index l).
Proof.
  intros Hf. induction l as [|x l IH]; intros index; simpl; constructor; auto.
Qed.

Lemma map_try_Forall {A B} (P : B -> Prop) (f : nat -> A -> option B) (l : list A) :
  (forall i x y, f i x = Some y -> P y) ->
  forall index ys, map_try f index l = Some ys -> Forall P ys.
Proof.
  intros Hf. induction l as [|x l IH]; intros index ys; simpl.
  - intros [= <-]. constructor.
  - destruct (f index x) as [y|] eqn:Ey; [|discriminate].
    destruct (map_try f (S index) l) as [ys'|] eqn:E; [|discriminate].
    intros [= <-]. constructor; eauto.
Qed.

Lemma map_try_length {A B} (f : nat -> A -> option B) (l : list A) :
  forall index ys, map_try f index l = Some ys -> List.length ys = List.length l.
Proof.
  induction l as [|x l IH]; intros index ys; simpl.
  - intros [= <-]. reflexivity.
  - destruct (f index x) as [y|]; [|discriminate].
    destruct (map_try f (S index) l) as [ys'|] eqn:E; [|discriminate].
    intros [= <-]. simpl. f_equal. eauto.
Qed.

Lemma mapi_length {A B} (f : nat -> A -> B) (l : list A) :
  forall index, List.length (mapi f index l) = List.length l.
Proof.
  induction l as [|x l IH]; intros index; simpl; [reflexivity|]. f_equal. apply IH.
Qed.

(** A score between 1 and 10 has been assigned. *)
Definition scored (task : TaskDecomposerAgent.Task) : Prop :=
  exists score, TaskDecomposerAgent.priorityScore task = Some score /\ 1 <= score <= 10.

Lemma applyFallbackScoring_scored tasks context :
  Forall scored (PriorityScorerAgent.applyFallbackScoring tasks context).
Proof.
  unfold PriorityScorerAgent.applyFallbackScoring. apply mapi_Forall.
  intros i task. eexists. split; [reflexivity|]. apply clamp_score_range.
Qed.

Lemma scoreTasks_scored rt generation tasks context :
  Forall scored (PriorityScorerAgent.scoreTasks rt generation tasks context).
Proof.
  destruct generation as [response|message]; simpl;
    [|apply applyFallbackScoring_scored].
  unfold PriorityScorerAgent.parseResponse.
  destruct (JSON_parse rt (cleanResponse response)) as [[| | | |scores|]|];
    try apply applyFallbackScoring_scored.
  destruct (map_try _ 0%nat tasks) as [result|] eqn:E;
    [|apply applyFallbackScoring_scored].
  revert E. apply map_try_Forall. intros i task task'.
  unfold PriorityScorerAgent.applyScore.
  destruct (PriorityScorerAgent.find_score i scores) as [[s|]|]; [| |discriminate];
    intros [= <-]; eexists; (split; [reflexivity|]).
  - apply validateScore_range.
  - apply clamp_score_range.
Qed.

(** C4 (the bounds that hold, and the input on which the lower bound on
    hours fails). Every task that leaves the scoring stage, on any of its
    paths, carries an integer score between 1 and 10, and [validateHours]
    always returns between 0 and 40 hours. The bound [0 < estimatedHours]
    does not hold: a positive estimate below a quarter of an hour passes
    the test [num <= 0] and is then rounded to the nearest half hour, which
    is 0; a response with [estimatedHours: 0.2] gives a task of 0 hours. *)
Theorem validateHours_small_estimate_is_zero :
  (forall rt generation tasks context,
      Forall scored (PriorityScorerAgent.scoreTasks rt generation tasks context)) /\
  (forall hours, (0 <= TaskDecomposerAgent.validateHours hours <= 40)%Q) /\
  (TaskDecomposerAgent.validateHours (Some (JNum (2 # 10))) == 0)%Q /\
  (exists task,
      TaskDecomposerAgent.decompose Example.runtime
        (Responds (Example.quoted
           "[{'description': 'Install Python', 'estimatedHours': 0.2, 'priority': 'high', 'order': 1}]"))
        (GoalAnalyzerAgent.createFallbackAnalysis "Learn Python basics in 2 weeks")
      = Ok [task] /\
      (TaskDecomposerAgent.estimatedHours task == 0)%Q).
Proof.
  split; [exact scoreTasks_scored|].
  split; [exact validateHours_range|].
  split; [reflexivity|].
  eexists. split; [vm_compute; reflexivity|]. reflexivity.
Qed.

(** ** The richer heuristic (claim C5) *)

(** The heuristic as the specification words it: base 5; +3 for high
    priority and -2 for low; plus [max(0, 3 - index*0.5)]; +2 when the
    deadline text matches the urgency pattern; +1 for the first two tasks
    of a procrastinator; rounded and clamped to [1,10]. *)
Definition richerHeuristic (deadline : option JSON) (userTendency : string)
  (task : TaskDecomposerAgent.Task) (index : nat) : Z :=
  let byPriority : Q :=
    if String.eqb (TaskDecomposerAgent.priority task) "high" then 3%Q
    else if String.eqb (TaskDecomposerAgent.priority task) "low" then (- (2))%Q else 0%Q in
  let byPosition : Q :=
    PriorityScorerAgent.Qmax 0 (3 - inject_Z (Z.of_nat index) * (1 # 2)) in
  let byDeadline : Q :=
    if PriorityScorerAgent.hasUrgentDeadline deadline then 2%Q else 0%Q in
  let byTendency : Q :=
    if (String.eqb userTendency "procrastinator" && Nat.ltb index 2)%bool then 1%Q else 0%Q in
  Z.max 1 (Z.min 10 (Math_round (5 + byPriority + byPosition + byDeadline + byTendency))).

Lemma clamp_score_comp (a b : Q) :
  (a == b)%Q -> PriorityScorerAgent.clamp_score a = PriorityScorerAgent.clamp_score b.
Proof.
  intros H. unfold PriorityScorerAgent.clamp_score, Math_round.
  now rewrite H.
Qed.

Lemma no_deadline_is_not_urgent (d : option JSON) :
  PriorityScorerAgent.deadline_given d = false ->
  PriorityScorerAgent.hasUrgentDeadline d = false.
Proof.
  unfold PriorityScorerAgent.deadline_given.
  destruct d as [[| b | q | s | items | fields]|]; simpl; try reflexivity;
    try discriminate.
  destruct (String.eqb s "") eqn:E0.
  - apply String.eqb_eq in E0. subst s. reflexivity.
  - simpl. rewrite negb_false_iff. intros E.
    apply String.eqb_eq in E. subst s. vm_compute. reflexivity.
Qed.

Lemma fallbackScore_is_richerHeuristic context task index :
  PriorityScorerAgent.fallbackScore context task index =
  richerHeuristic (PriorityScorerAgent.deadline context)
    (match PriorityScorerAgent.userTendency context with Some t => t | None => "balanced" end)
    task index.
Proof.
  unfold PriorityScorerAgent.fallbackScore, richerHeuristic,
    PriorityScorerAgent.clamp_score, Math_round.
  do 2 f_equal. apply Qfloor_comp.
  set (position := PriorityScorerAgent.Qmax _ _).
  set (d := PriorityScorerAgent.deadline context).
  set (p := TaskDecomposerAgent.priority task).
  destruct (PriorityScorerAgent.deadline_given d) eqn:Eg;
    [|rewrite (no_deadline_is_not_urgent d Eg)];
    (destruct (String.eqb p "high") eqn:Ehigh;
     [apply String.eqb_eq in Ehigh; rewrite Ehigh; simpl (String.eqb "high" "low")
     |destruct (String.eqb p "low")]);
    try destruct (PriorityScorerAgent.hasUrgentDeadline d);
    destruct (String.eqb _ "procrastinator"); destruct (Nat.ltb index 2);
    simpl; ring.
Qed.

(** The scores of a list of tasks. *)
Definition scoresOf (tasks : list TaskDecomposerAgent.Task) : list (option Z) :=
  List.map TaskDecomposerAgent.priorityScore tasks.

(** The three fallback tasks of a goal of low complexity. *)
Definition sampleTasks : list TaskDecomposerAgent.Task :=
  TaskDecomposerAgent.createFallbackTasks Example.runtime
    (GoalAnalyzerAgent.createFallbackAnalysis "Learn Python basics in 2 weeks").

Definition urgentProcrastinator : PriorityScorerAgent.Context :=
  {| PriorityScorerAgent.deadline := Some (JStr "2 weeks");
     PriorityScorerAgent.userTendency := Some "procrastinator" |}.

(** C5 (where the code departs from it). When the generation call fails,
    [scoreTasks] scores every task by the richer heuristic on the context
    it was given. When the response is not a parsable array, [parseResponse]
    calls the same heuristic on an empty context, having no access to the
    one [scoreTasks] received: the deadline and procrastinator bonuses are
    then never added. For three fallback tasks, the deadline "2 weeks" and a
    procrastinator, the unparsable response "Sorry, I cannot help" gives the
    scores 10, 10, 7 where the heuristic of the claim, and the
    generation-failure path, give 10, 10, 9. *)
Theorem unparsable_scores_ignore_context :
  (forall rt message tasks context,
      PriorityScorerAgent.scoreTasks rt (Fails message) tasks context
      = PriorityScorerAgent.applyFallbackScoring tasks context) /\
  (forall context task index,
      PriorityScorerAgent.fallbackScore context task index =
      richerHeuristic (PriorityScorerAgent.deadline context)
        (match PriorityScorerAgent.userTendency context with
         | Some t => t
         | None => "balanced"
         end) task index) /\
  (forall rt response tasks context,
      match JSON_parse rt (cleanResponse response) with
      | Some (JArr _) => True
      | _ => PriorityScorerAgent.scoreTasks rt (Responds response) tasks context
             = PriorityScorerAgent.applyFallbackScoring tasks PriorityScorerAgent.empty_context
      end) /\
  scoresOf (PriorityScorerAgent.scoreTasks Example.runtime
              (Fails "All models failed. Last error: timeout")
              sampleTasks urgentProcrastinator)
  = [Some 10; Some 10; Some 9] /\
  scoresOf (PriorityScorerAgent.scoreTasks Example.runtime
              (Responds "Sorry, I cannot help") sampleTasks urgentProcrastinator)
  = [Some 10; Some 10; Some 7] /\
  List.map (fun '(index, task) =>
              Some (richerHeuristic (Some (JStr "2 weeks")) "procrastinator" task index))
           (combine (seq 0 3) sampleTasks)
  = [Some 10; Some 10; Some 9].
Proof.
  split; [reflexivity|].
  split; [exact fallbackScore_is_richerHeuristic|].
  split.
  - intros rt response tasks context. simpl.
    unfold PriorityScorerAgent.parseResponse.
    destruct (JSON_parse rt (cleanResponse response)) as [[]|]; auto.
  - repeat split; vm_compute; reflexivity.
Qed.

(** ** The re-planning gate (claim C6) *)

Lemma percentage_below_half (completedCount totalCount : nat) (ifNone : Q) :
  (50 <= ifNone)%Q ->
  ((ReflectionAgent.percentage completedCount totalCount ifNone < 50)%Q <->
   (0 < totalCount)%nat /\ (2 * completedCount < totalCount)%nat).
Proof.
  intros Hnone. unfold ReflectionAgent.percentage.
  destruct (Nat.ltb 0 totalCount) eqn:E.
  - apply Nat.ltb_lt in E.
    set (c := inject_Z (Z.of_nat completedCount)).
    set (t := inject_Z (Z.of_nat totalCount)).
    assert (Ht : (0 < t)%Q).
    { unfold t. change 0%Q with (inject_Z 0). rewrite <- Zlt_Qlt. lia. }
    assert (Hiff : (2 * c < t)%Q <-> (2 * completedCount < totalCount)%nat).
    { unfold c, t. change 2%Q with (inject_Z 2).
      rewrite <- inject_Z_mult, <- Zlt_Qlt. lia. }
    rewrite <- Hiff. split.
    + intros H. split; [exact E|].
      assert (Hc : (c == c / t * t)%Q) by (field; lra).
      rewrite Hc.
      assert (Hlt : (c / t * 100 * t < 50 * t)%Q) by (apply Qmult_lt_r; assumption).
      lra.
    + intros [_ H].
      assert (Hd : (c / t * 100 == (100 * c) / t)%Q) by (field; lra).
      rewrite Hd. apply Qlt_shift_div_r; [exact Ht|]. lra.
  - apply Nat.ltb_ge in E. split.
    + intros H. exfalso. apply (Qlt_not_le _ _ H Hnone).
    + intros [H _]. lia.
Qed.



(** A fallback reflection over five observations, two of them completed. *)
Definition observed (s : string) : ReflectionAgent.Progress :=
  {| ReflectionAgent.status := s; ReflectionAgent.completedTime := None;
     ReflectionAgent.completedOnTime := false; ReflectionAgent.taskDescription := "task" |}.

Definition emptyMemory : ReflectionAgent.Memory :=
  {| ReflectionAgent.patterns := None; ReflectionAgent.stats := None;
     ReflectionAgent.preferredTimes := [] |}.


(** ** The fallback reflection (claim C7) *)

Lemma recommendedBuffer_tiers (rate : Q) :
  ((rate < 60)%Q -> ReflectionAgent.recommendedBuffer rate = 30%Q) /\
  ((60 <= rate)%Q -> (rate < 80)%Q -> ReflectionAgent.recommendedBuffer rate = 20%Q) /\
  ((80 <= rate)%Q -> ReflectionAgent.recommendedBuffer rate = 15%Q).
Proof.
  unfold ReflectionAgent.recommendedBuffer.
  destruct (Qlt_bool rate 60) eqn:E60; destruct (Qlt_bool rate 80) eqn:E80;
    try apply Qlt_bool_iff in E60; try apply Qlt_bool_iff in E80;
    try apply Qlt_bool_false_iff in E60; try apply Qlt_bool_false_iff in E80;
    repeat split; intros; try reflexivity; exfalso; lra.
Qed.

Lemma tendencyOf_tiers (rate : Q) :
  ((80 < rate)%Q -> ReflectionAgent.tendencyOf rate = "realistic") /\
  ((50 < rate)%Q -> (rate <= 80)%Q ->
   ReflectionAgent.tendencyOf rate = "slightly optimistic") /\
  ((rate <= 50)%Q -> ReflectionAgent.tendencyOf rate = "overly optimistic").
Proof.
  unfold ReflectionAgent.tendencyOf.
  destruct (Qlt_bool 80 rate) eqn:E80; destruct (Qlt_bool 50 rate) eqn:E50;
    try apply Qlt_bool_iff in E80; try apply Qlt_bool_iff in E50;
    try apply Qlt_bool_false_iff in E80; try apply Qlt_bool_false_iff in E50;
    repeat split; intros; try reflexivity; exfalso; lra.
Qed.

(** The completion rate the fallback computes from the observations. *)
Definition observedRate (userProgress : list ReflectionAgent.Progress) : Q :=
  ReflectionAgent.percentage
    (List.length (List.filter ReflectionAgent.isCompleted userProgress))
    (List.length userProgress) 0.

(** C7. When the generation call fails, and when the response does not
    parse, [reflect] returns the fallback reflection. That reflection hands
    back the current plan and the memory as they were given, recommends a
    buffer of 30 below a completion rate of 60, 20 below 80 and 15
    otherwise, and names the tendency realistic above 80, slightly
    optimistic above 50 and overly optimistic otherwise. *)
Theorem fallback_reflection_tiers (rt : Runtime) {Plan : Type}
  (assembled : JSON -> Plan -> list ReflectionAgent.Progress -> ReflectionAgent.Memory ->
               option (ReflectionAgent.Reflection Plan))
  (currentPlan : Plan) (userProgress : list ReflectionAgent.Progress)
  (userMemory : ReflectionAgent.Memory) :
  (forall message,
      ReflectionAgent.reflect rt assembled (Fails message) currentPlan userProgress userMemory
      = ReflectionAgent.createFallbackReflection currentPlan userProgress userMemory) /\
  (forall response,
      JSON_parse rt (cleanResponse response) = None ->
      ReflectionAgent.reflect rt assembled (Responds response) currentPlan userProgress userMemory
      = ReflectionAgent.createFallbackReflection currentPlan userProgress userMemory) /\
  ReflectionAgent.adjustedPlan
    (ReflectionAgent.createFallbackReflection currentPlan userProgress userMemory)
  = currentPlan /\
  ReflectionAgent.updatedMemory
    (ReflectionAgent.createFallbackReflection currentPlan userProgress userMemory)
  = userMemory /\
  (exists buffer changes,
      ReflectionAgent.adjustmentsMade
        (ReflectionAgent.createFallbackReflection currentPlan userProgress userMemory)
      = Some {| ReflectionAgent.recommendedBufferPercent := Some (JNum buffer);
                ReflectionAgent.scheduleChanges := changes;
                ReflectionAgent.priorityChanges := None |} /\
      ((observedRate userProgress < 60)%Q -> buffer = 30%Q) /\
      ((60 <= observedRate userProgress)%Q -> (observedRate userProgress < 80)%Q ->
       buffer = 20%Q) /\
      ((80 <= observedRate userProgress)%Q -> buffer = 15%Q)) /\
  (exists tendency,
      get_opt (Some (ReflectionAgent.analysis
                 (ReflectionAgent.createFallbackReflection currentPlan userProgress userMemory)))
              "userTendency" = Some (JStr tendency) /\
      ((80 < observedRate userProgress)%Q -> tendency = "realistic") /\
      ((50 < observedRate userProgress)%Q -> (observedRate userProgress <= 80)%Q ->
       tendency = "slightly optimistic") /\
      ((observedRate userProgress <= 50)%Q -> tendency = "overly optimistic")).
Proof.
  split; [reflexivity|].
  split.
  { intros response Hparse. simpl. unfold ReflectionAgent.parseResponse.
    now rewrite Hparse. }
  split; [reflexivity|]. split; [reflexivity|].
  split.
  - exists (ReflectionAgent.recommendedBuffer (observedRate userProgress)).
    eexists. split; [reflexivity|]. apply recommendedBuffer_tiers.
  - exists (ReflectionAgent.tendencyOf (observedRate userProgress)).
    split; [reflexivity|]. apply tendencyOf_tiers.
Qed.

(** Three of four tasks completed over an unparsable response: a buffer
    of 20 and a slightly optimistic user. *)
Lemma fallback_reflection_tiers_witness :
  let progress := [observed "completed"; observed "completed"; observed "completed";
                   observed "missed"] in
  let r := ReflectionAgent.reflect Example.runtime (fun _ _ _ _ => None)
             (Responds "I could not produce JSON") tt progress emptyMemory in
  ReflectionAgent.adjustedPlan r = tt /\
  (exists a, ReflectionAgent.adjustmentsMade r = Some a /\
             ReflectionAgent.recommendedBufferPercent a = Some (JNum 20)) /\
  get_opt (Some (ReflectionAgent.analysis r)) "userTendency"
  = Some (JStr "slightly optimistic").
Proof.
  pose proof (fallback_reflection_tiers Example.runtime (fun _ _ _ _ => None) tt
                [observed "completed"; observed "completed"; observed "completed";
                 observed "missed"] emptyMemory) as (_ & Hparse & _).
  cbv zeta. rewrite (Hparse "I could not produce JSON" eq_refl).
  split; [reflexivity|]. split; [|reflexivity].
  eexists. split; reflexivity.
Defined.

(** ** Goal analysis and decomposition under generation failure
       (claims C1 and C2) *)





Lemma scoreTasks_length rt generation tasks context :
  List.length (PriorityScorerAgent.scoreTasks rt generation tasks context)
  = List.length tasks.
Proof.
  assert (Hfb : forall c, List.length (PriorityScorerAgent.applyFallbackScoring tasks c)
                          = List.length tasks).
  { intros c. apply mapi_length. }
  destruct generation as [response|message]; simpl; [|apply Hfb].
  unfold PriorityScorerAgent.parseResponse.
  destruct (JSON_parse rt (cleanResponse response)) as [[| | | |scores|]|];
    try apply Hfb.
  destruct (map_try _ 0%nat tasks) as [scored|] eqn:E; [|apply Hfb].
  eapply map_try_length, E.
Qed.

Lemma sortByScore_length tasks :
  List.length (SchedulerAgent.sortByScore tasks) = List.length tasks.
Proof. apply Permutation_length, sortByScore_Permutation. Qed.





Definition pythonGoal : GoalAnalyzerAgent.GoalDescriptor :=
  GoalAnalyzerAgent.createFallbackAnalysis "Learn Python basics in 2 weeks".




(** ** The empty schedule (claim C10) *)

(** C10. For an empty task list the fallback schedule has no day; its
    summary counts 0 days and 0 hours, and its average, 0 divided by 0
    days, is printed as NaN. *)
Theorem empty_fallback_schedule (rt : Runtime) (preferences : SchedulerAgent.Preferences) :
  exists summary,
    SchedulerAgent.createFallbackSchedule rt [] preferences
    = SchedulerAgent.Fallback [] summary preferences /\
    SchedulerAgent.Summary.totalDays summary = 0%nat /\
    (SchedulerAgent.Summary.totalHours summary == 0)%Q /\
    SchedulerAgent.Summary.averageHoursPerDay summary = "NaN" /\
    SchedulerAgent.Summary.tasksScheduled summary = 0%nat /\
    divide (SchedulerAgent.Summary.totalHours summary) 0 = NaN.
Proof.
  eexists. split; [reflexivity|]. repeat split.
Qed.

(** ** Hours of the fallback schedule (claims C3 and C9) *)

Definition Qsum (l : list Q) : Q := fold_right Qplus 0%Q l.

Lemma Qsum_app (l1 l2 : list Q) : (Qsum (l1 ++ l2) == Qsum l1 + Qsum l2)%Q.
Proof.
  induction l1 as [|x l1 IH]; simpl.
  - ring.
  - rewrite IH. ring.
Qed.


Definition hoursOf (tasks : list TaskDecomposerAgent.Task) : list Q :=
  List.map TaskDecomposerAgent.estimatedHours tasks.

Lemma fold_left_hours (tasks : list TaskDecomposerAgent.Task) (start : Q) :
  (fold_left (fun sum task => sum + TaskDecomposerAgent.estimatedHours task) tasks start
   == start + Qsum (hoursOf tasks))%Q.
Proof.
  revert start. induction tasks as [|t tasks IH]; intros start; simpl.
  - ring.
  - rewrite IH. ring.
Qed.





Section PackingFacts.
Context (rt : Runtime) (hoursPerDay bufferPercent : Q) (start : string)
        (studyTimes : list string).

Abbreviation place := (SchedulerAgent.place rt hoursPerDay bufferPercent start studyTimes).
Abbreviation closeDay := (SchedulerAgent.closeDay rt start studyTimes).
Abbreviation finish := (SchedulerAgent.finish rt start studyTimes).








End PackingFacts.

Lemma Qfloor_plus_half (n : Z) : Qfloor (inject_Z n + (1 # 2)) = n.
Proof.
  pose proof (Qfloor_le (inject_Z n + (1 # 2))) as Hle.
  pose proof (Qlt_floor (inject_Z n + (1 # 2))) as Hlt.
  set (f := Qfloor (inject_Z n + (1 # 2))) in *.
  assert (H1 : (inject_Z f < inject_Z (n + 1))%Q).
  { rewrite inject_Z_plus. change (inject_Z 1) with 1%Q. lra. }
  assert (H2 : (inject_Z n < inject_Z (f + 1))%Q) by lra.
  rewrite <- Zlt_Qlt in H1, H2. lia.
Qed.

(** A whole number of tenths. *)
Definition inTenths (q : Q) : Prop := exists z : Z, (q == z # 10)%Q.

Lemma roundTenth_exact (q : Q) : inTenths q -> (roundTenth q == q)%Q.
Proof.
  intros [z Hz]. unfold roundTenth, tenths.
  assert (Habs : (Qabs q * 10 + (1 # 2) == inject_Z (Z.abs z) + (1 # 2))%Q).
  { rewrite Hz. unfold Qabs, Qeq, Qmult, Qplus, inject_Z. simpl. lia. }
  rewrite (Qfloor_comp _ _ Habs), Qfloor_plus_half.
  destruct (Qle_bool 0 q) eqn:E.
  - apply Qle_bool_iff in E. rewrite Hz in E |- *.
    assert (0 <= z) by (unfold Qle in E; simpl in E; lia).
    rewrite Z.abs_eq by assumption. reflexivity.
  - assert (Hneg : (q < 0)%Q).
    { apply Qnot_le_lt. intros H. apply Qle_bool_iff in H. congruence. }
    rewrite Hz in Hneg |- *.
    assert (z < 0) by (unfold Qlt in Hneg; simpl in Hneg; lia).
    rewrite Z.abs_neq by lia. unfold Qeq, Qopp. simpl. lia.
Qed.

Lemma roundTenth_comp (a b : Q) : (a == b)%Q -> roundTenth a = roundTenth b.
Proof.
  intros H. unfold roundTenth, tenths.
  assert (Hle : Qle_bool 0 a = Qle_bool 0 b).
  { destruct (Qle_bool 0 a) eqn:Ea; destruct (Qle_bool 0 b) eqn:Eb; try reflexivity.
    - apply Qle_bool_iff in Ea. rewrite H in Ea. apply Qle_bool_iff in Ea. congruence.
    - apply Qle_bool_iff in Eb. rewrite <- H in Eb. apply Qle_bool_iff in Eb. congruence. }
  assert (Hfl : Qfloor (Qabs a * 10 + (1 # 2)) = Qfloor (Qabs b * 10 + (1 # 2))).
  { apply Qfloor_comp. now rewrite H. }
  now rewrite Hle, Hfl.
Qed.









Definition defaultPreferences : SchedulerAgent.Preferences :=
  {| SchedulerAgent.availableHoursPerDay := Some 4%Q;
     SchedulerAgent.preferredStudyTimes := Some ["morning"; "afternoon"];
     SchedulerAgent.bufferTimePercent := Some 20%Q;
     SchedulerAgent.startDate := Some "2023-11-14" |}.






(** A slot's duration with the buffer derived from [bufferPercent], and the
    hours a list of slots accumulates. *)
Definition bufferedDuration (bufferPercent : Q) (slot : SchedulerAgent.Slot.t) : Q :=
  (SchedulerAgent.Slot.duration slot
   + SchedulerAgent.Slot.duration slot * (bufferPercent / 100))%Q.

Definition accumulatedHours (bufferPercent : Q) (slots : list SchedulerAgent.Slot.t) : Q :=
  Qsum (List.map (bufferedDuration bufferPercent) slots).

(** C9 for one day: above the cap only when it is made of a single task
    that is above the cap by itself; within the cap with two tasks or
    more. The day's [totalHours] is its accumulated hours, rounded. *)
Definition withinCap (hoursPerDay bufferPercent : Q) (slots : list SchedulerAgent.Slot.t)
  : Prop :=
  ((hoursPerDay < accumulatedHours bufferPercent slots)%Q ->
   exists slot, slots = [slot] /\ (hoursPerDay < bufferedDuration bufferPercent slot)%Q) /\
  ((2 <= List.length slots)%nat -> (accumulatedHours bufferPercent slots <= hoursPerDay)%Q).

Definition dayWithinCap (hoursPerDay bufferPercent : Q) (day : SchedulerAgent.Day.t) : Prop :=
  withinCap hoursPerDay bufferPercent (SchedulerAgent.Day.tasks day) /\
  SchedulerAgent.Day.totalHours day
  = roundTenth (accumulatedHours bufferPercent (SchedulerAgent.Day.tasks day)).

Lemma accumulatedHours_snoc pct slots slot :
  (accumulatedHours pct (slots ++ [slot])
   == accumulatedHours pct slots + bufferedDuration pct slot)%Q.
Proof.
  unfold accumulatedHours. rewrite map_app, Qsum_app. simpl. ring.
Qed.

Lemma withinCap_single cap pct slot : withinCap cap pct [slot].
Proof.
  split.
  - intros H. exists slot. split; [reflexivity|].
    unfold accumulatedHours in H. simpl in H. lra.
  - simpl. lia.
Qed.

Lemma withinCap_fits cap pct slots slot :
  slots <> [] ->
  (accumulatedHours pct slots + bufferedDuration pct slot <= cap)%Q ->
  withinCap cap pct (slots ++ [slot]).
Proof.
  intros Hne Hfit. split.
  - intros H. rewrite accumulatedHours_snoc in H. exfalso. lra.
  - intros _. rewrite accumulatedHours_snoc. exact Hfit.
Qed.

Section PackingInvariant.
Context (rt : Runtime) (hoursPerDay bufferPercent : Q) (start : string)
        (studyTimes : list string).

Abbreviation place' := (SchedulerAgent.place rt hoursPerDay bufferPercent start studyTimes).

(** What holds of the loop state before and after each task: the closed
    days and the day being filled, once it has a task, are within the cap
    in the sense above, and [currentDayHours] is what the day's slots
    accumulate. *)
Definition packedWithinCap (st : SchedulerAgent.Packing) : Prop :=
  Forall (dayWithinCap hoursPerDay bufferPercent) (SchedulerAgent.schedule st) /\
  (SchedulerAgent.currentDayHours st
   == accumulatedHours bufferPercent (SchedulerAgent.currentDayTasks st))%Q /\
  (SchedulerAgent.currentDayTasks st <> [] ->
   withinCap hoursPerDay bufferPercent (SchedulerAgent.currentDayTasks st)).

Lemma closeDay_withinCap st :
  packedWithinCap st ->
  SchedulerAgent.currentDayTasks st <> [] ->
  dayWithinCap hoursPerDay bufferPercent (SchedulerAgent.closeDay rt start studyTimes st).
Proof.
  intros (_ & Hh & Hc) Hne. split; simpl.
  - exact (Hc Hne).
  - apply roundTenth_comp, Hh.
Qed.

(** The slot [place] appends for a task. *)
Definition slotFor (st : SchedulerAgent.Packing) (task : TaskDecomposerAgent.Task)
  : SchedulerAgent.Slot.t :=
  {| SchedulerAgent.Slot.taskDescription := TaskDecomposerAgent.description task;
     SchedulerAgent.Slot.taskId := TaskDecomposerAgent.id task;
     SchedulerAgent.Slot.priorityScore := TaskDecomposerAgent.priorityScore task;
     SchedulerAgent.Slot.startTime :=
       SchedulerAgent.calculateStartTime (SchedulerAgent.currentDayHours st)
         (head studyTimes);
     SchedulerAgent.Slot.duration := TaskDecomposerAgent.estimatedHours task;
     SchedulerAgent.Slot.bufferAfter :=
       roundTenth (SchedulerAgent.bufferOf bufferPercent
                     (TaskDecomposerAgent.estimatedHours task)) |}.

Lemma bufferedDuration_slotFor st task :
  (bufferedDuration bufferPercent (slotFor st task)
   == TaskDecomposerAgent.estimatedHours task
      + SchedulerAgent.bufferOf bufferPercent (TaskDecomposerAgent.estimatedHours task))%Q.
Proof.
  unfold bufferedDuration, SchedulerAgent.bufferOf. simpl. reflexivity.
Qed.

Lemma nonempty_length {A} (l : list A) : Nat.ltb 0 (List.length l) = true <-> l <> [].
Proof.
  destruct l; simpl; split; try congruence; try discriminate; reflexivity.
Qed.

Lemma place_withinCap st task :
  packedWithinCap st -> packedWithinCap (place' st task).
Proof.
  intros Hinv. pose proof Hinv as (Hdays & Hh & Hc).
  unfold SchedulerAgent.place.
  set (total := (TaskDecomposerAgent.estimatedHours task
                 + SchedulerAgent.bufferOf bufferPercent
                     (TaskDecomposerAgent.estimatedHours task))%Q).
  destruct (Nat.ltb 0 (List.length (SchedulerAgent.currentDayTasks st))) eqn:Elen.
  - apply nonempty_length in Elen.
    destruct (Qlt_bool hoursPerDay (SchedulerAgent.currentDayHours st + total)) eqn:Eover;
      simpl.
    + (* the day is closed and the task opens the next one *)
      split; [|split].
      * apply Forall_app. split; [exact Hdays|].
        constructor; [|constructor]. apply closeDay_withinCap; assumption.
      * unfold accumulatedHours. simpl. unfold bufferedDuration, total,
          SchedulerAgent.bufferOf. simpl. ring.
      * intros _. apply withinCap_single.
    + (* the task fits in the day *)
      apply Qlt_bool_false_iff in Eover.
      fold (slotFor st task).
      assert (Hacc : (accumulatedHours bufferPercent
                        (SchedulerAgent.currentDayTasks st ++ [slotFor st task])
                      == SchedulerAgent.currentDayHours st + total)%Q).
      { rewrite accumulatedHours_snoc, <- Hh, bufferedDuration_slotFor. reflexivity. }
      split; [exact Hdays|]. split; [symmetry; exact Hacc|]. intros _. split.
      * intros H. rewrite Hacc in H. exfalso. lra.
      * intros _. rewrite Hacc. exact Eover.
  - (* the first task of a day is placed whatever its length *)
    rewrite andb_false_r.
    destruct (SchedulerAgent.currentDayTasks st) as [|s slots] eqn:Etasks;
      [|discriminate].
    unfold packedWithinCap.
    cbn [SchedulerAgent.schedule SchedulerAgent.currentDayHours
         SchedulerAgent.currentDayTasks app].
    split; [exact Hdays|]. split.
    + change (accumulatedHours bufferPercent []) with 0%Q in Hh.
      unfold accumulatedHours, Qsum, List.map, fold_right, bufferedDuration, total,
        SchedulerAgent.bufferOf.
      cbn [SchedulerAgent.Slot.duration]. rewrite Hh. ring.
    + intros _. apply withinCap_single.
Qed.

Lemma fold_place_withinCap tasks st :
  packedWithinCap st -> packedWithinCap (fold_left place' tasks st).
Proof.
  revert st. induction tasks as [|t tasks IH]; intros st H; simpl.
  - exact H.
  - apply IH, place_withinCap, H.
Qed.

Lemma packDays_withinCap tasks :
  Forall (dayWithinCap hoursPerDay bufferPercent)
    (SchedulerAgent.packDays rt hoursPerDay bufferPercent start studyTimes tasks).
Proof.
  unfold SchedulerAgent.packDays.
  assert (H : packedWithinCap
                (fold_left place' (SchedulerAgent.sortByScore tasks)
                   SchedulerAgent.emptyPacking)).
  { apply fold_place_withinCap. split; [constructor|]. split.
    - reflexivity.
    - intros Hne. now contradiction Hne. }
  unfold SchedulerAgent.finish.
  destruct (Nat.ltb 0 _) eqn:Elen.
  - apply nonempty_length in Elen. apply Forall_app. split; [apply H|].
    constructor; [|constructor]. apply closeDay_withinCap; assumption.
  - apply H.
Qed.

End PackingInvariant.

(** The daily cap and the buffer percentage [createFallbackSchedule]
    works with. *)
Definition capOf (preferences : SchedulerAgent.Preferences) : Q :=
  match SchedulerAgent.availableHoursPerDay preferences with Some h => h | None => 4%Q end.

Definition bufferPercentOf (preferences : SchedulerAgent.Preferences) : Q :=
  match SchedulerAgent.bufferTimePercent preferences with Some b => b | None => 20%Q end.




(** ** The memory upsert (claim C8) *)

Module MemoryFacts.
Import ReflectionAgent.

Definition keys (patterns : list Pattern.t) : list string :=
  List.map Pattern.pattern patterns.

(** The entry [findIndex] stops at for a key. *)
Fixpoint firstWith (key : string) (patterns : list Pattern.t) : option Pattern.t :=
  match patterns with
  | [] => None
  | p :: rest => if decide (Pattern.pattern p = key) then Some p else firstWith key rest
  end.

(** The counter stored for a key. *)
Definition counterOf (key : string) (patterns : list Pattern.t) : option Z :=
  match firstWith key patterns with
  | Some p => Pattern.occurrences p
  | None => None
  end.

(** The number of updates that carry a key. *)
Definition times (key : string) (updates : list Update.t) : Z :=
  Z.of_nat (List.length (List.filter (fun u => bool_decide (Update.pattern u = key)) updates)).

Definition upserts (updates : list Update.t) (patterns : list Pattern.t) : list Pattern.t :=
  fold_left upsert updates patterns.

Lemma upsert_nil update : upsert [] update = [added update].
Proof. reflexivity. Qed.

Lemma upsert_cons p patterns update :
  upsert (p :: patterns) update =
  if decide (Pattern.pattern p = Update.pattern update)
  then merged p update :: patterns
  else p :: upsert patterns update.
Proof.
  unfold upsert. simpl.
  destruct (decide (Pattern.pattern p = Update.pattern update)) as [Heq|Hne].
  - reflexivity.
  - destruct (list_find _ patterns) as [[i e]|]; reflexivity.
Qed.

Lemma keys_upsert patterns update :
  keys (upsert patterns update) =
  if decide (Update.pattern update ∈ keys patterns)
  then keys patterns
  else (keys patterns ++ [Update.pattern update])%list.
Proof.
  induction patterns as [|p patterns IH].
  - rewrite upsert_nil. rewrite decide_False; [reflexivity|].
    intros Hin. inversion Hin.
  - rewrite upsert_cons. simpl.
    destruct (decide (Pattern.pattern p = Update.pattern update)) as [Heq|Hne].
    + simpl. rewrite decide_True; [now rewrite Heq|]. rewrite Heq. constructor.
    + simpl. rewrite IH.
      destruct (decide (Update.pattern update ∈ keys patterns)) as [Hin|Hout].
      * rewrite decide_True; [reflexivity|]. now constructor.
      * rewrite decide_False; [reflexivity|].
        intros Hin. apply elem_of_cons in Hin as [Heq|Hin]; [|contradiction].
        now symmetry in Heq.
Qed.

Lemma NoDup_keys_upsert patterns update :
  NoDup (keys patterns) -> NoDup (keys (upsert patterns update)).
Proof.
  intros H. rewrite keys_upsert. destruct (decide _) as [Hin|Hout]; [exact H|].
  apply NoDup_app. split; [exact H|]. split.
  - intros k Hk Hk'. apply list_elem_of_singleton in Hk'. now subst.
  - apply NoDup_singleton.
Qed.

Lemma NoDup_keys_upserts updates patterns :
  NoDup (keys patterns) -> NoDup (keys (upserts updates patterns)).
Proof.
  revert patterns. induction updates as [|u updates IH]; intros patterns H; simpl.
  - exact H.
  - apply IH, NoDup_keys_upsert, H.
Qed.

Lemma keys_upsert_known patterns update :
  Update.pattern update ∈ keys patterns -> keys (upsert patterns update) = keys patterns.
Proof.
  intros H. rewrite keys_upsert. now rewrite decide_True.
Qed.

Lemma keys_upsert_subseteq patterns update :
  keys patterns ⊆ keys (upsert patterns update) /\
  Update.pattern update ∈ keys (upsert patterns update).
Proof.
  rewrite keys_upsert. destruct (decide _) as [Hin|Hout].
  - split; [reflexivity|exact Hin].
  - split.
    + intros k Hk. apply elem_of_app. now left.
    + apply elem_of_app. right. constructor.
Qed.

Lemma keys_upserts_subseteq updates patterns :
  keys patterns ⊆ keys (upserts updates patterns) /\
  List.map Update.pattern updates ⊆ keys (upserts updates patterns).
Proof.
  revert patterns. induction updates as [|u updates IH]; intros patterns; simpl.
  - split; [reflexivity|]. intros k Hk. inversion Hk.
  - destruct (IH (upsert patterns u)) as [Hold Hnew].
    destruct (keys_upsert_subseteq patterns u) as [Hsub Hin].
    split.
    + etransitivity; eassumption.
    + intros k Hk. apply elem_of_cons in Hk as [->|Hk]; [apply Hold, Hin|apply Hnew, Hk].
Qed.

Lemma keys_upserts_known updates patterns :
  List.map Update.pattern updates ⊆ keys patterns ->
  keys (upserts updates patterns) = keys patterns.
Proof.
  revert patterns. induction updates as [|u updates IH]; intros patterns H; simpl.
  - reflexivity.
  - assert (Hu : Update.pattern u ∈ keys patterns) by (apply H; constructor).
    rewrite IH; rewrite keys_upsert_known by exact Hu; [reflexivity|].
    intros k Hk. apply H. now constructor.
Qed.

(** [occurrences || 1] *)
Definition counted (p : Pattern.t) : Z :=
  match Pattern.occurrences p with
  | Some n => if n =? 0 then 1 else n
  | None => 1
  end.

Lemma firstWith_upsert key patterns update :
  firstWith key (upsert patterns update) =
  if decide (Update.pattern update = key)
  then Some (match firstWith key patterns with
             | Some existing => merged existing update
             | None => added update
             end)
  else firstWith key patterns.
Proof.
  induction patterns as [|p patterns IH].
  - rewrite upsert_nil. simpl. reflexivity.
  - rewrite upsert_cons.
    destruct (decide (Pattern.pattern p = Update.pattern update)) as [Hpu|Hpu]; simpl.
    + destruct (decide (Update.pattern update = key)) as [Huk|Huk].
      * rewrite decide_True by congruence. reflexivity.
      * rewrite decide_False by congruence. reflexivity.
    + destruct (decide (Pattern.pattern p = key)) as [Hpk|Hpk].
      * rewrite decide_False by congruence. reflexivity.
      * exact IH.
Qed.

Lemma counterOf_upsert key patterns update :
  counterOf key (upsert patterns update) =
  if decide (Update.pattern update = key)
  then Some (match firstWith key patterns with
             | Some existing => counted existing + 1
             | None => 1
             end)
  else counterOf key patterns.
Proof.
  unfold counterOf. rewrite firstWith_upsert.
  destruct (decide (Update.pattern update = key)); [|reflexivity].
  destruct (firstWith key patterns); reflexivity.
Qed.

(** The counter of a key is not negative, where there is one. *)
Definition nonneg (key : string) (patterns : list Pattern.t) : Prop :=
  forall n, counterOf key patterns = Some n -> 0 <= n.

(** The key has a counter, and it is positive. *)
Definition positive (key : string) (patterns : list Pattern.t) : Prop :=
  exists n, counterOf key patterns = Some n /\ 1 <= n.

Lemma counted_positive key patterns existing :
  nonneg key patterns -> firstWith key patterns = Some existing -> 1 <= counted existing.
Proof.
  intros Hnn Hfirst. unfold nonneg, counterOf in Hnn. rewrite Hfirst in Hnn.
  unfold counted. destruct (Pattern.occurrences existing) as [n|]; [|lia].
  specialize (Hnn n eq_refl). destruct (n =? 0) eqn:E; [lia|].
  apply Z.eqb_neq in E. lia.
Qed.

Lemma positive_nonneg key patterns : positive key patterns -> nonneg key patterns.
Proof.
  intros (n & Hn & Hpos) m Hm. rewrite Hn in Hm. injection Hm as <-. lia.
Qed.

Lemma upsert_positive key patterns update :
  nonneg key patterns -> Update.pattern update = key -> positive key (upsert patterns update).
Proof.
  intros Hnn Hkey. unfold positive. rewrite counterOf_upsert, decide_True by exact Hkey.
  eexists. split; [reflexivity|].
  destruct (firstWith key patterns) as [existing|] eqn:E; [|lia].
  pose proof (counted_positive key patterns existing Hnn E). lia.
Qed.

Lemma upsert_keeps_positive key patterns update :
  positive key patterns -> positive key (upsert patterns update).
Proof.
  intros Hpos. destruct (decide (Update.pattern update = key)) as [Hkey|Hkey].
  - apply upsert_positive; [apply positive_nonneg, Hpos|exact Hkey].
  - unfold positive. rewrite counterOf_upsert, decide_False by exact Hkey. exact Hpos.
Qed.

Lemma upsert_keeps_nonneg key patterns update :
  nonneg key patterns -> nonneg key (upsert patterns update).
Proof.
  intros Hnn. destruct (decide (Update.pattern update = key)) as [Hkey|Hkey].
  - apply positive_nonneg, upsert_positive; assumption.
  - unfold nonneg. rewrite counterOf_upsert, decide_False by exact Hkey. exact Hnn.
Qed.

Lemma upserts_keep_positive key updates patterns :
  positive key patterns -> positive key (upserts updates patterns).
Proof.
  revert patterns. induction updates as [|u updates IH]; intros patterns H; simpl.
  - exact H.
  - apply IH, upsert_keeps_positive, H.
Qed.

Lemma upserts_positive key updates patterns :
  nonneg key patterns ->
  key ∈ List.map Update.pattern updates ->
  positive key (upserts updates patterns).
Proof.
  revert patterns. induction updates as [|u updates IH]; intros patterns Hnn Hin; simpl.
  - inversion Hin.
  - destruct (decide (Update.pattern u = key)) as [Hkey|Hkey].
    + apply upserts_keep_positive, upsert_positive; assumption.
    + apply IH; [apply upsert_keeps_nonneg, Hnn|].
      simpl in Hin. apply elem_of_cons in Hin as [Heq|Hin]; [congruence|exact Hin].
Qed.

Lemma times_cons key u updates :
  times key (u :: updates) =
  (if decide (Update.pattern u = key) then 1 else 0) + times key updates.
Proof.
  unfold times. simpl.
  destruct (decide (Update.pattern u = key)) as [Hkey|Hkey].
  - rewrite bool_decide_eq_true_2 by exact Hkey. simpl length. lia.
  - rewrite bool_decide_eq_false_2 by exact Hkey. lia.
Qed.

(** A positive counter grows by one for each update that carries its
    key. *)
Lemma upserts_count key updates patterns n :
  counterOf key patterns = Some n -> 1 <= n ->
  counterOf key (upserts updates patterns) = Some (n + times key updates).
Proof.
  revert patterns n. induction updates as [|u updates IH]; intros patterns n Hn Hpos.
  - simpl. unfold times. simpl. rewrite Hn. f_equal. lia.
  - simpl. rewrite times_cons.
    destruct (decide (Update.pattern u = key)) as [Hkey|Hkey].
    + rewrite (IH (upsert patterns u) (n + 1)); [f_equal; lia| |lia].
      rewrite counterOf_upsert, decide_True by exact Hkey.
      unfold counterOf in Hn.
      destruct (firstWith key patterns) as [existing|]; [|discriminate].
      unfold counted. rewrite Hn.
      destruct (n =? 0) eqn:E; [apply Z.eqb_eq in E; lia|reflexivity].
    + rewrite (IH (upsert patterns u) n); [f_equal; lia| |exact Hpos].
      rewrite counterOf_upsert, decide_False by exact Hkey. exact Hn.
Qed.

(** No stored counter is negative. *)
Definition storedNonneg (patterns : list Pattern.t) : Prop :=
  Forall (fun p => forall n, Pattern.occurrences p = Some n -> 0 <= n) patterns.

Lemma storedNonneg_nonneg key patterns : storedNonneg patterns -> nonneg key patterns.
Proof.
  unfold nonneg, counterOf. induction 1 as [|p patterns Hp _ IH]; simpl.
  - discriminate.
  - destruct (decide (Pattern.pattern p = key)); [apply Hp|apply IH].
Qed.

End MemoryFacts.

Definition patternsOf (memory : ReflectionAgent.Memory) : list ReflectionAgent.Pattern.t :=
  match ReflectionAgent.patterns memory with Some l => l | None => [] end.

Definition updatedKeys (updates : list ReflectionAgent.Update.t) : list string :=
  List.map ReflectionAgent.Update.pattern updates.

Lemma times_absent key updates :
  key ∉ updatedKeys updates -> MemoryFacts.times key updates = 0.
Proof.
  induction updates as [|u updates IH]; intros Hout.
  - reflexivity.
  - rewrite MemoryFacts.times_cons. simpl in Hout.
    apply not_elem_of_cons in Hout as [Hne Hout].
    rewrite decide_False by congruence. rewrite IH by exact Hout. reflexivity.
Qed.

Lemma times_once key updates :
  NoDup (updatedKeys updates) -> key ∈ updatedKeys updates ->
  MemoryFacts.times key updates = 1.
Proof.
  induction updates as [|u updates IH]; intros Hnd Hin.
  - inversion Hin.
  - rewrite MemoryFacts.times_cons. simpl in Hnd, Hin.
    apply NoDup_cons in Hnd as [Hfresh Hnd].
    destruct (decide (ReflectionAgent.Update.pattern u = key)) as [Hkey|Hkey].
    + subst key. rewrite times_absent by exact Hfresh. reflexivity.
    + apply elem_of_cons in Hin as [Heq|Hin]; [congruence|].
      rewrite IH by assumption. reflexivity.
Qed.

Definition eveningUpdate : ReflectionAgent.Update.t :=
  {| ReflectionAgent.Update.pattern := "evening_productivity";
     ReflectionAgent.Update.description :=
       Some (JStr "User completes 80% more tasks in evening");
     ReflectionAgent.Update.confidence := Some (JStr "high") |}.

(** C8 fails on the code: when [memoryUpdates] names a pattern twice, each
    call counts it twice. From an empty memory the counter is 2 after the
    first call and 4 after the second. *)
Lemma repeated_update_counts_twice :
  let updates := Some [eveningUpdate; eveningUpdate] in
  let once := ReflectionAgent.updateMemory emptyMemory updates [] in
  let twice := ReflectionAgent.updateMemory once updates [] in
  MemoryFacts.keys (patternsOf once) = ["evening_productivity"] /\
  MemoryFacts.counterOf "evening_productivity" (patternsOf once) = Some 2 /\
  MemoryFacts.counterOf "evening_productivity" (patternsOf twice) = Some 4 /\
  4 <> 2 + 1.
Proof.
  cbv zeta. repeat split. discriminate.
Qed.

(** C8 as the code has it. The upsert never adds an entry under a key
    that is already there: pattern keys that are distinct stay distinct.
    Applied again with the same [memoryUpdates], it leaves the list of
    pattern keys as it is, and, no stored counter being negative, the
    counter of each updated key grows by the number of updates that carry
    the key: by exactly 1 when [memoryUpdates] names each key once. *)
Theorem memory_upsert_again (memory : ReflectionAgent.Memory)
  (updates : list ReflectionAgent.Update.t)
  (userProgress userProgress' : list ReflectionAgent.Progress) :
  let once := ReflectionAgent.updateMemory memory (Some updates) userProgress in
  let twice := ReflectionAgent.updateMemory once (Some updates) userProgress' in
  (NoDup (MemoryFacts.keys (patternsOf memory)) ->
   NoDup (MemoryFacts.keys (patternsOf once)) /\
   NoDup (MemoryFacts.keys (patternsOf twice))) /\
  MemoryFacts.keys (patternsOf twice) = MemoryFacts.keys (patternsOf once) /\
  (MemoryFacts.storedNonneg (patternsOf memory) ->
   forall key, key ∈ updatedKeys updates ->
     exists n,
       MemoryFacts.counterOf key (patternsOf once) = Some n /\
       MemoryFacts.counterOf key (patternsOf twice)
       = Some (n + MemoryFacts.times key updates)) /\
  (NoDup (updatedKeys updates) ->
   forall key, key ∈ updatedKeys updates -> MemoryFacts.times key updates = 1).
Proof.
  cbv zeta. unfold ReflectionAgent.updateMemory, patternsOf. simpl.
  fold (patternsOf memory).
  fold (MemoryFacts.upserts updates (patternsOf memory)).
  fold (MemoryFacts.upserts updates (MemoryFacts.upserts updates (patternsOf memory))).
  split; [|split; [|split]].
  - intros Hnd. split; repeat apply MemoryFacts.NoDup_keys_upserts; exact Hnd.
  - apply MemoryFacts.keys_upserts_known, MemoryFacts.keys_upserts_subseteq.
  - intros Hnn key Hin.
    destruct (MemoryFacts.upserts_positive key updates (patternsOf memory))
      as (n & Hn & Hpos);
      [apply MemoryFacts.storedNonneg_nonneg, Hnn|exact Hin|].
    exists n. split; [exact Hn|].
    apply MemoryFacts.upserts_count; assumption.
  - intros Hnd key Hin. apply times_once; assumption.
Qed.

(** A memory that has seen the evening pattern three times, updated twice
    with a single evening update: 4, then 5. *)
Definition seenThrice : ReflectionAgent.Memory :=
  {| ReflectionAgent.patterns :=
       Some [ {| ReflectionAgent.Pattern.pattern := "evening_productivity";
                 ReflectionAgent.Pattern.description := None;
                 ReflectionAgent.Pattern.confidence := Some (JStr "medium");
                 ReflectionAgent.Pattern.occurrences := Some 3 |} ];
     ReflectionAgent.stats := None;
     ReflectionAgent.preferredTimes := ["evening"] |}.

Lemma memory_upsert_again_witness :
  let once := ReflectionAgent.updateMemory seenThrice (Some [eveningUpdate]) [] in
  let twice := ReflectionAgent.updateMemory once (Some [eveningUpdate]) [] in
  NoDup (MemoryFacts.keys (patternsOf twice)) /\
  MemoryFacts.counterOf "evening_productivity" (patternsOf once) = Some 4 /\
  MemoryFacts.counterOf "evening_productivity" (patternsOf twice) = Some 5.
Proof.
  cbv zeta.
  destruct (memory_upsert_again seenThrice [eveningUpdate] [] [])
    as (Hnd & _ & Hcount & Hone).
  assert (Hin : "evening_productivity" ∈ updatedKeys [eveningUpdate]) by constructor.
  split; [|split].
  - apply Hnd. repeat constructor. intros H. inversion H.
  - reflexivity.
  - destruct (Hcount ltac:(repeat constructor; intros n [= <-]; lia) _ Hin)
      as (n & Hn & Htwice).
    rewrite Htwice, (Hone ltac:(repeat constructor; intros H; inversion H) _ Hin).
    vm_compute in Hn. injection Hn as <-. reflexivity.
Defined.

(** * The rest of the agents

    The functions of the same files that the properties above do not
    reach, and what they guarantee. *)

(** ** The generation client *)

Section ClientFacts.
Import HuggingFace.
Context (chatCompletion : string -> nat -> string + string).

Lemma requests_app (a b : list Event) : requests (a ++ b) = (requests a + requests b)%nat.
Proof. unfold requests. now rewrite List.filter_app, length_app. Qed.

Lemma pauses_app (a b : list Event) : pauses (a ++ b) = (pauses a + pauses b)%nat.
Proof. unfold pauses. now rewrite List.filter_app, length_app. Qed.

(** What one model's loop does, started with [remaining] attempts left. *)
Lemma attempts_spec (m : string) (retries delay : nat) :
  forall remaining lastError, (remaining <= retries)%nat ->
    match attempts chatCompletion m retries delay remaining lastError with
    | (Some content, events, _) =>
        exists k, (retries - remaining < k <= retries)%nat /\
                  chatCompletion m k = inl content /\
                  List.last events (Sleep 0) = Request m k /\
                  requests events = (k - (retries - remaining))%nat /\
                  pauses events = (requests events - 1)%nat
    | (None, events, _) =>
        requests events = remaining /\ pauses events = (remaining - 1)%nat
    end.
Proof.
  induction remaining as [|remaining IH]; intros lastError Hle.
  - simpl. split; reflexivity.
  - cbn [attempts].
    destruct (chatCompletion m (retries - remaining)) as [content|message] eqn:Echat.
    + exists (retries - remaining)%nat. repeat split; try lia; try assumption.
      unfold requests. simpl. lia.
    + specialize (IH (Some message) ltac:(lia)).
      destruct (attempts chatCompletion m retries delay remaining (Some message))
        as [[[content|] events] lastError'].
      * destruct IH as (k & Hk & Hchat & Hlast & Hreq & Hpause).
        assert (Hlt : Nat.ltb (retries - remaining) retries = true)
          by (apply Nat.ltb_lt; lia).
        rewrite Hlt. exists k. split; [lia|]. split; [exact Hchat|].
        assert (Hne : events <> []).
        { intros ->. unfold requests in Hreq. simpl in Hreq. lia. }
        split; [|split].
        -- destruct events as [|e events]; [congruence|]. exact Hlast.
        -- change (Request m (retries - remaining) :: [Sleep delay] ++ events)%list
             with ([Request m (retries - remaining); Sleep delay] ++ events)%list.
           rewrite requests_app, Hreq. unfold requests at 1. simpl. lia.
        -- change (Request m (retries - remaining) :: [Sleep delay] ++ events)%list
             with ([Request m (retries - remaining); Sleep delay] ++ events)%list.
           rewrite pauses_app, requests_app, Hpause, Hreq.
           unfold pauses at 1, requests at 1. simpl. lia.
      * destruct IH as (Hreq & Hpause).
        destruct (Nat.ltb (retries - remaining) retries) eqn:Elt.
        -- apply Nat.ltb_lt in Elt.
           change (Request m (retries - remaining) :: [Sleep delay] ++ events)%list
             with ([Request m (retries - remaining); Sleep delay] ++ events)%list.
           rewrite requests_app, pauses_app, Hreq, Hpause.
           unfold pauses at 1, requests at 1. simpl. lia.
        -- apply Nat.ltb_ge in Elt.
           change (Request m (retries - remaining) :: [] ++ events)%list
             with ([Request m (retries - remaining)] ++ events)%list.
           rewrite requests_app, pauses_app, Hreq, Hpause.
           unfold pauses at 1, requests at 1. simpl. lia.
Qed.

Lemma last_append {A} (a b : list A) (d : A) :
  b <> [] -> List.last (a ++ b) d = List.last b d.
Proof.
  intros Hne. induction a as [|x a IH]; [reflexivity|].
  simpl. destruct (a ++ b)%list eqn:E; [|exact IH].
  apply app_eq_nil in E as [_ ->]. congruence.
Qed.

Lemma tryModels_spec (retries delay : nat) :
  forall models lastError,
    match tryModels chatCompletion models retries delay lastError with
    | (Some content, events, _) =>
        exists m k, In m models /\ (1 <= k <= retries)%nat /\
                    chatCompletion m k = inl content /\
                    List.last events (Sleep 0) = Request m k /\
                    (requests events <= List.length models * retries)%nat /\
                    (pauses events < requests events)%nat
    | (None, events, _) =>
        requests events = (List.length models * retries)%nat /\
        pauses events = (List.length models * (retries - 1))%nat
    end.
Proof.
  induction models as [|m models IH]; intros lastError.
  - simpl. split; reflexivity.
  - cbn [tryModels].
    pose proof (attempts_spec m retries delay retries lastError (Nat.le_refl _)) as Hatt.
    destruct (attempts chatCompletion m retries delay retries lastError)
      as [[[content|] events] lastError'].
    + destruct Hatt as (k & Hk & Hchat & Hlast & Hreq & Hpause).
      exists m, k. split; [now left|]. split; [lia|]. split; [exact Hchat|].
      split; [exact Hlast|]. split; simpl; lia.
    + destruct Hatt as (Hreq & Hpause). specialize (IH lastError').
      destruct (tryModels chatCompletion models retries delay lastError')
        as [[[content|] events'] lastError''].
      * destruct IH as (m' & k & Hin & Hk & Hchat & Hlast & Hreq' & Hpause').
        exists m', k. split; [now right|]. split; [exact Hk|]. split; [exact Hchat|].
        assert (Hne : events' <> []).
        { intros ->. simpl in Hlast. discriminate. }
        split; [|split].
        -- rewrite last_append by exact Hne. exact Hlast.
        -- rewrite requests_app, Hreq. simpl. lia.
        -- rewrite requests_app, pauses_app, Hreq, Hpause. lia.
      * destruct IH as (Hreq' & Hpause').
        rewrite requests_app, pauses_app, Hreq, Hreq', Hpause, Hpause'. simpl. lia.
Qed.

End ClientFacts.

Section ClientErrors.
Import HuggingFace.
Context (chatCompletion : string -> nat -> string + string).

Lemma attempts_lastError (m : string) (retries delay : nat) :
  forall remaining lastError events lastError',
    (remaining <= retries)%nat ->
    attempts chatCompletion m retries delay remaining lastError = (None, events, lastError') ->
    match remaining with
    | O => lastError' = lastError
    | S _ => exists message, chatCompletion m retries = inr message /\
                             lastError' = Some message
    end.
Proof.
  induction remaining as [|remaining IH]; intros lastError events lastError' Hle Heq.
  - simpl in Heq. now injection Heq as _ <-.
  - cbn [attempts] in Heq.
    destruct (chatCompletion m (retries - remaining)) as [content|message] eqn:Echat;
      [discriminate|].
    destruct (attempts chatCompletion m retries delay remaining (Some message))
      as [[found events0] lastError0] eqn:Erest.
    injection Heq as -> _ ->.
    specialize (IH (Some message) events0 lastError' ltac:(lia) Erest).
    destruct remaining as [|remaining].
    + rewrite Nat.sub_0_r in Echat. exists message. split; [exact Echat|exact IH].
    + exact IH.
Qed.

Lemma tryModels_lastError (retries delay : nat) :
  forall models lastError events lastError',
    tryModels chatCompletion models retries delay lastError = (None, events, lastError') ->
    match retries, rev models with
    | S _, m :: _ => exists message, chatCompletion m retries = inr message /\
                                     lastError' = Some message
    | _, _ => lastError' = lastError
    end.
Proof.
  induction models as [|m models IH]; intros lastError events lastError' Heq.
  - simpl in Heq. injection Heq as _ <-. destruct retries; reflexivity.
  - cbn [tryModels] in Heq.
    destruct (attempts chatCompletion m retries delay retries lastError)
      as [[[content|] events0] lastError0] eqn:Eatt; [discriminate|].
    destruct (tryModels chatCompletion models retries delay lastError0)
      as [[found events1] lastError1] eqn:Erest.
    injection Heq as -> _ ->.
    pose proof (attempts_lastError m retries delay retries lastError events0 lastError0
                  (Nat.le_refl _) Eatt) as Hm.
    specialize (IH lastError0 events1 lastError' Erest).
    destruct retries as [|retries]; [now rewrite IH, Hm|].
    simpl rev. destruct (rev models) as [|m' others] eqn:Erev.
    + simpl. destruct Hm as (message & Hchat & ->). exists message. now split.
    + simpl. exact IH.
Qed.

End ClientErrors.

(** The retries a call works with, and what it has requested at the end. *)
Definition retriesOf (options : HuggingFace.Options) : nat :=
  match HuggingFace.maxRetries options with Some n => n | None => 3%nat end.

(** X1. [callHuggingFace] returns the content of a successful attempt,
    which is the last thing it requested, and it has then paused fewer
    times than it has requested. It fails only after every model has been
    requested [maxRetries] times, having paused between the attempts of a
    model but not after the last one; the error then carries the message
    of the last attempt of the last model, or the word undefined when no
    attempt was made. *)
Theorem callHuggingFace_exhausts_before_failing
  (chatCompletion : string -> nat -> string + string) (options : HuggingFace.Options) :
  match HuggingFace.callHuggingFace chatCompletion options with
  | (Responds content, events) =>
      exists m k,
        In m (HuggingFace.modelsToTry options) /\
        (1 <= k <= retriesOf options)%nat /\
        chatCompletion m k = inl content /\
        List.last events (HuggingFace.Sleep 0) = HuggingFace.Request m k /\
        (HuggingFace.requests events
         <= List.length (HuggingFace.modelsToTry options) * retriesOf options)%nat /\
        (HuggingFace.pauses events < HuggingFace.requests events)%nat
  | (Fails message, events) =>
      HuggingFace.requests events
      = (List.length (HuggingFace.modelsToTry options) * retriesOf options)%nat /\
      HuggingFace.pauses events
      = (List.length (HuggingFace.modelsToTry options) * (retriesOf options - 1))%nat /\
      match retriesOf options, rev (HuggingFace.modelsToTry options) with
      | S _, m :: _ =>
          exists error, chatCompletion m (retriesOf options) = inr error /\
                        message = "All models failed. Last error: " ++ error
      | _, _ => message = "All models failed. Last error: undefined"
      end
  end.
Proof.
  unfold HuggingFace.callHuggingFace. fold (retriesOf options).
  set (delay := match HuggingFace.retryDelay options with Some n => n | None => 1000%nat end).
  pose proof (tryModels_spec chatCompletion (retriesOf options) delay
                (HuggingFace.modelsToTry options) None) as Hspec.
  pose proof (tryModels_lastError chatCompletion (retriesOf options) delay
                (HuggingFace.modelsToTry options) None) as Herr.
  destruct (HuggingFace.tryModels chatCompletion (HuggingFace.modelsToTry options)
              (retriesOf options) delay None) as [[[content|] events] lastError].
  - exact Hspec.
  - destruct Hspec as (Hreq & Hpause). split; [exact Hreq|]. split; [exact Hpause|].
    specialize (Herr events lastError eq_refl).
    destruct (retriesOf options) as [|n]; [now rewrite Herr|].
    destruct (rev (HuggingFace.modelsToTry options)) as [|m others]; [now rewrite Herr|].
    destruct Herr as (error & Hchat & ->). exists error. now split.
Qed.

(** ** Validation in the decomposition stage *)

Lemma round_half_near (num : Q) :
  (- (1 # 4) < inject_Z (Math_round (num * 2)) / 2 - num <= 1 # 4)%Q.
Proof.
  unfold Math_round.
  pose proof (Qfloor_le (num * 2 + (1 # 2))) as Hle.
  pose proof (Qlt_floor (num * 2 + (1 # 2))) as Hlt.
  rewrite inject_Z_plus in Hlt. change (inject_Z 1) with 1%Q in Hlt.
  set (f := inject_Z (Qfloor (num * 2 + (1 # 2)))) in *. clearbody f.
  assert (Hdiv : (f / 2 == f * (1 # 2))%Q) by (field).
  rewrite Hdiv. split; lra.
Qed.

Lemma validateHours_half_hours (hours : option JSON) :
  exists n : Z, 0 <= n <= 80 /\
                (TaskDecomposerAgent.validateHours hours == inject_Z n / 2)%Q.
Proof.
  unfold TaskDecomposerAgent.validateHours.
  destruct (parseFloat hours) as [num| | |];
    try (exists 4; split; [lia|reflexivity]);
    try (exists 80; split; [lia|reflexivity]).
  destruct (Qle_bool num 0) eqn:E0; [exists 4; split; [lia|reflexivity]|].
  destruct (Qlt_bool 40 num) eqn:E40; [exists 80; split; [lia|reflexivity]|].
  apply Qlt_bool_false_iff in E40.
  assert (H0 : (0 < num)%Q).
  { apply Qnot_le_lt. intros H. apply Qle_bool_iff in H. congruence. }
  exists (Math_round (num * 2)). split; [|reflexivity].
  unfold Math_round. split.
  + apply Qfloor_nonneg. lra.
  + apply Qfloor_upper. change (inject_Z (80 + 1)) with 81%Q. lra.
Qed.

(** X2. [validateHours] always returns a whole number of half hours, from
    0 to 80 of them; on an estimate that parses to a number above 0 and up
    to 40 it returns the nearest half hour, less than a quarter of an hour
    below the estimate and at most a quarter above. *)
Theorem validateHours_nearest_half_hour (hours : option JSON) :
  (exists n : Z, 0 <= n <= 80 /\
                 (TaskDecomposerAgent.validateHours hours == inject_Z n / 2)%Q) /\
  (forall num, parseFloat hours = Finite num -> (0 < num)%Q -> (num <= 40)%Q ->
               (- (1 # 4) < TaskDecomposerAgent.validateHours hours - num <= 1 # 4)%Q).
Proof.
  split.
  - apply validateHours_half_hours.
  - intros num Hparse Hpos Hmax. unfold TaskDecomposerAgent.validateHours.
    rewrite Hparse.
    destruct (Qle_bool num 0) eqn:E0.
    { apply Qle_bool_iff in E0. exfalso. lra. }
    destruct (Qlt_bool 40 num) eqn:E40.
    { apply Qlt_bool_iff in E40. exfalso. lra. }
    apply round_half_near.
Qed.

(** An estimate of 2.7 hours becomes 2.5 hours. *)
Lemma validateHours_nearest_half_hour_witness :
  (- (1 # 4) < TaskDecomposerAgent.validateHours (Some (JNum (27 # 10))) - (27 # 10) <= 1 # 4)%Q.
Proof.
  apply (proj2 (validateHours_nearest_half_hour (Some (JNum (27 # 10))))).
  - reflexivity.
  - reflexivity.
  - discriminate.
Defined.


Lemma member_In (s : string) (l : list string) : GoalAnalyzerAgent.member s l = true -> In s l.
Proof.
  unfold GoalAnalyzerAgent.member. rewrite existsb_exists.
  intros (x & Hin & Heq). apply String.eqb_eq in Heq. now subst.
Qed.

Lemma validatePriority_level (v : option JSON) (p : string) :
  TaskDecomposerAgent.validatePriority v = Some p -> In p ["high"; "medium"; "low"].
Proof.
  unfold TaskDecomposerAgent.validatePriority.
  destruct v as [[| | |s| |]|]; try discriminate;
    try (intros [= <-]; simpl; tauto).
  destruct (GoalAnalyzerAgent.member _ _) eqn:E; intros [= <-].
  - apply member_In, E.
  - simpl. tauto.
Qed.

Lemma validateComplexity_level (v : option JSON) (c : string) :
  GoalAnalyzerAgent.validateComplexity v = Some c -> In c ["low"; "medium"; "high"].
Proof.
  unfold GoalAnalyzerAgent.validateComplexity.
  destruct v as [[| | |s| |]|]; try discriminate;
    try (intros [= <-]; simpl; tauto).
  destruct (GoalAnalyzerAgent.member _ _) eqn:E; intros [= <-].
  - apply member_In, E.
  - simpl. tauto.
Qed.



(** ** What the decomposition stage hands over *)







(** A task as the decomposition stage makes it. *)
Definition freshTask (analyzedGoal : GoalAnalyzerAgent.GoalDescriptor)
  (task : TaskDecomposerAgent.Task) : Prop :=
  TaskDecomposerAgent.status task = "pending" /\
  In (TaskDecomposerAgent.priority task) ["high"; "medium"; "low"] /\
  (exists n : Z, 0 <= n <= 80 /\ (TaskDecomposerAgent.estimatedHours task == inject_Z n / 2)%Q) /\
  TaskDecomposerAgent.priorityScore task = None /\
  TaskDecomposerAgent.goalReference task = GoalAnalyzerAgent.originalGoal analyzedGoal /\
  truthy (Some (TaskDecomposerAgent.description task)) = true /\
  truthy (Some (TaskDecomposerAgent.order task)) = true.

Lemma or_else_truthy (v : option JSON) (d : JSON) :
  truthy (Some d) = true -> truthy (Some (or_else v d)) = true.
Proof.
  intros Hd. unfold or_else. destruct v as [x|]; [|exact Hd].
  destruct (truthy (Some x)) eqn:E; [exact E|exact Hd].
Qed.

Lemma createFallbackTasks_fresh rt analyzedGoal :
  Forall (freshTask analyzedGoal) (TaskDecomposerAgent.createFallbackTasks rt analyzedGoal).
Proof.
  unfold TaskDecomposerAgent.createFallbackTasks. apply Forall_map, Forall_forall.
  intros i Hi. apply list_elem_of_In, in_seq in Hi.
  assert (Hi5 : (i < 5)%nat).
  { destruct (String.eqb _ "high"); [lia|]. destruct (String.eqb _ "medium"); lia. }
  unfold freshTask. simpl. split; [reflexivity|]. split.
  { destruct (Nat.ltb i 2); simpl; tauto. }
  split.
  { destruct (String.eqb _ "high");
      [exists (6 + Z.of_nat i)
      |destruct (String.eqb _ "medium"); [exists (4 + Z.of_nat i)|exists (3 + Z.of_nat i)]];
      (split; [lia|]); rewrite inject_Z_plus; field. }
  split; [reflexivity|]. split; [reflexivity|]. split; [reflexivity|].
  unfold Qeq_bool. simpl.
  rewrite Z.mul_1_r. destruct (Z.of_nat (i + 1)) eqn:E; try reflexivity. lia.
Qed.

Lemma decompose_fresh (rt : Runtime) (generation : Generation)
  (analyzedGoal : GoalAnalyzerAgent.GoalDescriptor) (tasks : list TaskDecomposerAgent.Task) :
  TaskDecomposerAgent.decompose rt generation analyzedGoal = Ok tasks ->
  Forall (freshTask analyzedGoal) tasks.
Proof.
  destruct generation as [response|message]; simpl; [|discriminate].
  intros [= <-]. unfold TaskDecomposerAgent.parseResponse.
  destruct (JSON_parse rt (cleanResponse response)) as [[| | | |items|]|];
    try apply createFallbackTasks_fresh.
  destruct (map_try _ 0%nat items) as [enhanced|] eqn:E;
    [|apply createFallbackTasks_fresh].
  revert E. apply map_try_Forall. intros i item task.
  unfold TaskDecomposerAgent.enhance.
  destruct (get item "description") as [d|]; [|discriminate].
  destruct (get item "estimatedHours") as [h|]; [|discriminate].
  destruct (get item "priority") as [p|]; [|discriminate].
  destruct (get item "order") as [o|]; [|discriminate].
  destruct (TaskDecomposerAgent.validatePriority p) as [p'|] eqn:Ep; [|discriminate].
  intros [= <-]. unfold freshTask. simpl.
  split; [reflexivity|]. split; [apply (validatePriority_level p p' Ep)|].
  split; [apply validateHours_half_hours|].
  split; [reflexivity|]. split; [reflexivity|]. split.
  - apply or_else_truthy. reflexivity.
  - apply or_else_truthy. unfold truthy, Qeq_bool. simpl.
    rewrite Z.mul_1_r. destruct (Z.of_nat (i + 1)) eqn:Ez; try reflexivity. lia.
Qed.

(** X5. Every task [decompose] returns, generated or fallback, is
    pending and unscored, refers to the goal it was made for, has one of
    the three priorities, a description and an order that are not empty,
    and an estimate that is a whole number of half hours between 0 and
    40. *)
Theorem decompose_returns_fresh_tasks (rt : Runtime) (generation : Generation)
  (analyzedGoal : GoalAnalyzerAgent.GoalDescriptor) (tasks : list TaskDecomposerAgent.Task) :
  TaskDecomposerAgent.decompose rt generation analyzedGoal = Ok tasks ->
  Forall (freshTask analyzedGoal) tasks.
Proof. apply decompose_fresh. Qed.

Lemma decompose_returns_fresh_tasks_witness :
  Forall (freshTask pythonGoal)
    (TaskDecomposerAgent.createFallbackTasks Example.runtime pythonGoal).
Proof.
  apply (decompose_returns_fresh_tasks Example.runtime (Responds "no tasks today") pythonGoal).
  reflexivity.
Defined.

(** ** What the scoring stage changes *)

Lemma mapi_Forall2 {A B} (R : A -> B -> Prop) (f : nat -> A -> B) (l : list A) :
  (forall i x, R x (f i x)) -> forall index, Forall2 R l (mapi f index l).
Proof.
  intros Hf. induction l as [|x l IH]; intros index; simpl; constructor; auto.
Qed.

Lemma map_try_Forall2 {A B} (R : A -> B -> Prop) (f : nat -> A -> option B) (l : list A) :
  (forall i x y, f i x = Some y -> R x y) ->
  forall index ys, map_try f index l = Some ys -> Forall2 R l ys.
Proof.
  intros Hf. induction l as [|x l IH]; intros index ys; simpl.
  - intros [= <-]. constructor.
  - destruct (f index x) as [y|] eqn:Ey; [|discriminate].
    destruct (map_try f (S index) l) as [ys'|] eqn:E; [|discriminate].
    intros [= <-]. constructor; eauto.
Qed.

(** The task [after] is the task [before] with a score and a reasoning. *)
Definition rescored (before after : TaskDecomposerAgent.Task) : Prop :=
  TaskDecomposerAgent.id after = TaskDecomposerAgent.id before /\
  TaskDecomposerAgent.description after = TaskDecomposerAgent.description before /\
  TaskDecomposerAgent.estimatedHours after = TaskDecomposerAgent.estimatedHours before /\
  TaskDecomposerAgent.priority after = TaskDecomposerAgent.priority before /\
  TaskDecomposerAgent.order after = TaskDecomposerAgent.order before /\
  TaskDecomposerAgent.status after = TaskDecomposerAgent.status before /\
  TaskDecomposerAgent.goalReference after = TaskDecomposerAgent.goalReference before /\
  TaskDecomposerAgent.note after = TaskDecomposerAgent.note before /\
  scored after /\
  exists reasoning, TaskDecomposerAgent.scoreReasoning after = Some reasoning /\
                    truthy (Some reasoning) = true.

Lemma applyFallbackScoring_rescored tasks context :
  Forall2 rescored tasks (PriorityScorerAgent.applyFallbackScoring tasks context).
Proof.
  unfold PriorityScorerAgent.applyFallbackScoring. apply mapi_Forall2.
  intros i task. unfold rescored. simpl. repeat (split; [reflexivity|]). split.
  - eexists. split; [reflexivity|]. apply clamp_score_range.
  - eexists. split; reflexivity.
Qed.

Lemma scoreTasks_rescored (rt : Runtime) (generation : Generation)
  (tasks : list TaskDecomposerAgent.Task) (context : PriorityScorerAgent.Context) :
  Forall2 rescored tasks (PriorityScorerAgent.scoreTasks rt generation tasks context).
Proof.
  destruct generation as [response|message]; simpl;
    [|apply applyFallbackScoring_rescored].
  unfold PriorityScorerAgent.parseResponse.
  destruct (JSON_parse rt (cleanResponse response)) as [[| | | |scores|]|];
    try apply applyFallbackScoring_rescored.
  destruct (map_try _ 0%nat tasks) as [result|] eqn:E;
    [|apply applyFallbackScoring_rescored].
  revert E. apply map_try_Forall2. intros i task task'.
  unfold PriorityScorerAgent.applyScore.
  destruct (PriorityScorerAgent.find_score i scores) as [scoreData|]; [|discriminate].
  intros [= <-]. unfold rescored. simpl. repeat (split; [reflexivity|]). split.
  - eexists. split; [reflexivity|].
    destruct scoreData; [apply validateScore_range|].
    unfold PriorityScorerAgent.calculateFallbackScore. apply clamp_score_range.
  - eexists. split; [reflexivity|]. apply or_else_truthy. reflexivity.
Qed.

(** X6. Whatever the generation call does, [scoreTasks] returns the tasks
    it was given, in the same order: each keeps its id, description,
    estimate, priority, order, status, goal reference and note, and gets a
    score from 1 to 10 and a reasoning that is not empty. *)
Theorem scoreTasks_rescores_in_place (rt : Runtime) (generation : Generation)
  (tasks : list TaskDecomposerAgent.Task) (context : PriorityScorerAgent.Context) :
  Forall2 rescored tasks (PriorityScorerAgent.scoreTasks rt generation tasks context).
Proof. apply scoreTasks_rescored. Qed.

Lemma Math_round_le (a b : Q) : (a <= b)%Q -> Math_round a <= Math_round b.
Proof. intros H. unfold Math_round. apply Qfloor_resp_le. lra. Qed.

Lemma clamp_score_le (a b : Q) :
  (a <= b)%Q -> PriorityScorerAgent.clamp_score a <= PriorityScorerAgent.clamp_score b.
Proof.
  intros H. unfold PriorityScorerAgent.clamp_score.
  pose proof (Math_round_le a b H). lia.
Qed.

Lemma Qmax_position (i j : nat) :
  (i <= j)%nat ->
  (PriorityScorerAgent.Qmax 0 (3 - inject_Z (Z.of_nat j) * (1 # 2))
   <= PriorityScorerAgent.Qmax 0 (3 - inject_Z (Z.of_nat i) * (1 # 2)))%Q.
Proof.
  intros Hij.
  assert (H : (inject_Z (Z.of_nat i) <= inject_Z (Z.of_nat j))%Q).
  { rewrite <- Zle_Qle. lia. }
  set (a := inject_Z (Z.of_nat i)) in *. set (b := inject_Z (Z.of_nat j)) in *.
  clearbody a b. unfold PriorityScorerAgent.Qmax.
  destruct (Qle_bool 0 (3 - b * (1 # 2))) eqn:Eb;
    destruct (Qle_bool 0 (3 - a * (1 # 2))) eqn:Ea.
  - lra.
  - apply Qle_bool_iff in Eb.
    assert (~ (0 <= 3 - a * (1 # 2))%Q) by (rewrite <- Qle_bool_iff; congruence). lra.
  - apply Qle_bool_iff in Ea. exact Ea.
  - lra.
Qed.

(** X7. Under the rule-based scoring, position only ever lowers a score:
    of two tasks with the same priority, scored in the same context, the
    one placed earlier in the list never gets the lower score. *)
Theorem fallbackScore_earlier_is_higher (context : PriorityScorerAgent.Context)
  (task task' : TaskDecomposerAgent.Task) (i j : nat) :
  TaskDecomposerAgent.priority task = TaskDecomposerAgent.priority task' ->
  (i <= j)%nat ->
  PriorityScorerAgent.fallbackScore context task' j
  <= PriorityScorerAgent.fallbackScore context task i.
Proof.
  intros Hp Hij. unfold PriorityScorerAgent.fallbackScore. rewrite Hp.
  apply clamp_score_le.
  pose proof (Qmax_position i j Hij) as Hmax.
  set (mi := PriorityScorerAgent.Qmax 0 (3 - inject_Z (Z.of_nat i) * (1 # 2))) in *.
  set (mj := PriorityScorerAgent.Qmax 0 (3 - inject_Z (Z.of_nat j) * (1 # 2))) in *.
  clearbody mi mj.
  set (base := if String.eqb (TaskDecomposerAgent.priority task') "low" then _ else _).
  clearbody base.
  assert (Hlt : Nat.ltb j 2 = true -> Nat.ltb i 2 = true).
  { rewrite !Nat.ltb_lt. lia. }
  destruct (PriorityScorerAgent.deadline_given _);
    [destruct (PriorityScorerAgent.hasUrgentDeadline _)|];
    (destruct (String.eqb _ "procrastinator");
     [destruct (Nat.ltb j 2); [rewrite (Hlt eq_refl)|destruct (Nat.ltb i 2)]|]); lra.
Qed.

(** A task as [decompose] would return it, then the same task scored. *)
Definition readTutorial : TaskDecomposerAgent.Task :=
  {| TaskDecomposerAgent.id := "task_1700000000000_0";
     TaskDecomposerAgent.description := JStr "Read the tutorial";
     TaskDecomposerAgent.estimatedHours := 3%Q;
     TaskDecomposerAgent.priority := "high";
     TaskDecomposerAgent.order := JNum 1;
     TaskDecomposerAgent.status := "pending";
     TaskDecomposerAgent.goalReference := "Learn Python basics in 2 weeks";
     TaskDecomposerAgent.note := None;
     TaskDecomposerAgent.priorityScore := None;
     TaskDecomposerAgent.scoreReasoning := None |}.

(** In third position the task does not outscore itself in first position. *)
Lemma fallbackScore_earlier_is_higher_witness :
  PriorityScorerAgent.fallbackScore urgentProcrastinator readTutorial 2
  <= PriorityScorerAgent.fallbackScore urgentProcrastinator readTutorial 0.
Proof.
  apply fallbackScore_earlier_is_higher; [reflexivity|lia].
Defined.

(** ** The order of the schedule *)

(** [a] may stand before [b] in the sorted list. *)
Definition outranks (a b : TaskDecomposerAgent.Task) : Prop :=
  SchedulerAgent.scoreOr5 b <= SchedulerAgent.scoreOr5 a.

Definition withScore (k : Z) (task : TaskDecomposerAgent.Task) : bool :=
  SchedulerAgent.scoreOr5 task =? k.

Lemma insertByScore_sorted task sorted :
  StronglySorted outranks sorted ->
  StronglySorted outranks (SchedulerAgent.insertByScore task sorted).
Proof.
  induction sorted as [|other rest IH]; intros Hs; simpl.
  - constructor; constructor.
  - inversion Hs as [|? ? Hrest Hall]; subst.
    destruct (SchedulerAgent.scoreOr5 task <? SchedulerAgent.scoreOr5 other) eqn:E.
    + apply Z.ltb_lt in E. constructor; [apply IH, Hrest|].
      eapply Permutation_Forall;
        [symmetry; apply insertByScore_Permutation|].
      constructor; [unfold outranks; lia|exact Hall].
    + apply Z.ltb_ge in E. constructor; [exact Hs|].
      constructor; [exact E|].
      eapply Forall_impl; [exact Hall|]. unfold outranks. intros u Hu. simpl in Hu. lia.
Qed.

Lemma sortByScore_sorted tasks : StronglySorted outranks (SchedulerAgent.sortByScore tasks).
Proof.
  induction tasks as [|t tasks IH]; simpl; [constructor|].
  apply insertByScore_sorted, IH.
Qed.

Lemma filter_insertByScore k task sorted :
  List.filter (withScore k) (SchedulerAgent.insertByScore task sorted)
  = List.filter (withScore k) (task :: sorted).
Proof.
  induction sorted as [|other rest IH]; [reflexivity|].
  cbn [SchedulerAgent.insertByScore].
  destruct (SchedulerAgent.scoreOr5 task <? SchedulerAgent.scoreOr5 other) eqn:E;
    [|reflexivity].
  apply Z.ltb_lt in E. cbn [List.filter] in IH |- *. rewrite IH.
  unfold withScore.
  destruct (SchedulerAgent.scoreOr5 task =? k) eqn:Et;
    destruct (SchedulerAgent.scoreOr5 other =? k) eqn:Eo; try reflexivity.
  apply Z.eqb_eq in Et, Eo. lia.
Qed.

Lemma sortByScore_of_sorted tasks :
  StronglySorted outranks tasks -> SchedulerAgent.sortByScore tasks = tasks.
Proof.
  induction tasks as [|t tasks IH]; intros Hs; [reflexivity|].
  inversion Hs as [|? ? Hrest Hall]; subst. simpl. rewrite (IH Hrest).
  destruct tasks as [|other rest]; [reflexivity|]. simpl.
  inversion Hall as [|? ? Ho _]; subst. unfold outranks in Ho.
  destruct (SchedulerAgent.scoreOr5 t <? SchedulerAgent.scoreOr5 other) eqn:E;
    [apply Z.ltb_lt in E; lia|reflexivity].
Qed.

(** X8. The sort the scheduler applies puts the tasks in descending order
    of score, a task without a score or with score 0 counting as 5, and
    keeps tasks of equal score in the order they had; a list already in
    that order is left as it is. *)
Theorem sortByScore_descending_and_stable (tasks : list TaskDecomposerAgent.Task) :
  StronglySorted outranks (SchedulerAgent.sortByScore tasks) /\
  (forall k, List.filter (withScore k) (SchedulerAgent.sortByScore tasks)
             = List.filter (withScore k) tasks) /\
  (StronglySorted outranks tasks -> SchedulerAgent.sortByScore tasks = tasks).
Proof.
  split; [apply sortByScore_sorted|]. split; [|apply sortByScore_of_sorted].
  intros k. induction tasks as [|t tasks IH]; [reflexivity|].
  cbn [SchedulerAgent.sortByScore fold_right].
  fold (SchedulerAgent.sortByScore tasks).
  rewrite filter_insertByScore. cbn [List.filter]. now rewrite IH.
Qed.

(** What a slot records of its task, and the same of a task. *)
Definition taskOf (slot : SchedulerAgent.Slot.t) : JSON * string * option Z * Q :=
  (SchedulerAgent.Slot.taskDescription slot, SchedulerAgent.Slot.taskId slot,
   SchedulerAgent.Slot.priorityScore slot, SchedulerAgent.Slot.duration slot).

Definition slotOf (task : TaskDecomposerAgent.Task) : JSON * string * option Z * Q :=
  (TaskDecomposerAgent.description task, TaskDecomposerAgent.id task,
   TaskDecomposerAgent.priorityScore task, TaskDecomposerAgent.estimatedHours task).

(** The slots of a schedule, day after day. *)
Definition slotsOf (days : list SchedulerAgent.Day.t) : list SchedulerAgent.Slot.t :=
  concat (List.map SchedulerAgent.Day.tasks days).

Lemma slotsOf_snoc days d :
  slotsOf (days ++ [d]) = (slotsOf days ++ SchedulerAgent.Day.tasks d)%list.
Proof.
  unfold slotsOf. rewrite map_app, concat_app. simpl. now rewrite app_nil_r.
Qed.

Lemma concat_nonempty_length {A} (ls : list (list A)) :
  Forall (fun l => l <> []) ls -> (List.length ls <= List.length (concat ls))%nat.
Proof.
  induction 1 as [|l ls Hl _ IH]; simpl; [lia|].
  rewrite length_app. destruct l; [congruence|simpl; lia].
Qed.

Section PackingOrder.
Context (rt : Runtime) (hoursPerDay bufferPercent : Q) (start : string)
        (studyTimes : list string).

(** The days closed so far, as the loop leaves them. *)
Definition numbered (days : list SchedulerAgent.Day.t) : Prop :=
  Forall (fun d => SchedulerAgent.Day.tasks d <> []) days /\
  List.map SchedulerAgent.Day.day days = seq 1 (List.length days) /\
  List.map SchedulerAgent.Day.date days
  = List.map (SchedulerAgent.calculateDate rt (Some start)) (seq 0 (List.length days)) /\
  Forall (fun d => SchedulerAgent.Day.timeOfDay d = SchedulerAgent.dayTimeOfDay studyTimes)
         days.

Definition packedInOrder (st : SchedulerAgent.Packing)
  (placed : list TaskDecomposerAgent.Task) : Prop :=
  List.map taskOf (slotsOf (SchedulerAgent.schedule st) ++ SchedulerAgent.currentDayTasks st)
  = List.map slotOf placed /\
  SchedulerAgent.currentDay st = List.length (SchedulerAgent.schedule st) /\
  numbered (SchedulerAgent.schedule st).

Lemma numbered_closeDay st :
  SchedulerAgent.currentDay st = List.length (SchedulerAgent.schedule st) ->
  SchedulerAgent.currentDayTasks st <> [] ->
  numbered (SchedulerAgent.schedule st) ->
  numbered (SchedulerAgent.schedule st ++ [SchedulerAgent.closeDay rt start studyTimes st]).
Proof.
  intros Hday Hne (Hfull & Hnum & Hdate & Htime). unfold numbered.
  rewrite !map_app, length_app, Nat.add_1_r, !seq_S, map_app, Hnum, Hdate. simpl.
  rewrite Hday. split; [|split; [|split]].
  - apply Forall_app. split; [exact Hfull|]. constructor; [exact Hne|constructor].
  - now rewrite Nat.add_1_r.
  - reflexivity.
  - apply Forall_app. split; [exact Htime|]. constructor; [reflexivity|constructor].
Qed.

Lemma place_inOrder st placed task :
  packedInOrder st placed ->
  packedInOrder (SchedulerAgent.place rt hoursPerDay bufferPercent start studyTimes st task)
                (placed ++ [task]).
Proof.
  intros (Hslots & Hday & Hnum). unfold SchedulerAgent.place.
  destruct (Nat.ltb 0 (List.length (SchedulerAgent.currentDayTasks st))) eqn:Elen.
  - destruct (Qlt_bool hoursPerDay _); unfold packedInOrder;
      cbn [andb SchedulerAgent.schedule SchedulerAgent.currentDayTasks
           SchedulerAgent.currentDay app].
    + apply nonempty_length in Elen. split; [|split].
      * rewrite slotsOf_snoc. cbn [SchedulerAgent.closeDay SchedulerAgent.Day.tasks].
        rewrite !map_app in *. now rewrite Hslots.
      * rewrite length_app, Nat.add_1_r. now rewrite Hday.
      * apply numbered_closeDay; assumption.
    + split; [|split; assumption].
      rewrite app_assoc, !map_app in *. now rewrite Hslots.
  - rewrite andb_false_r. unfold packedInOrder.
    cbn [SchedulerAgent.schedule SchedulerAgent.currentDayTasks SchedulerAgent.currentDay].
    split; [|split; assumption].
    rewrite app_assoc, !map_app in *. now rewrite Hslots.
Qed.

Lemma fold_place_inOrder tasks st placed :
  packedInOrder st placed ->
  packedInOrder
    (fold_left (SchedulerAgent.place rt hoursPerDay bufferPercent start studyTimes) tasks st)
    (placed ++ tasks).
Proof.
  revert st placed. induction tasks as [|t tasks IH]; intros st placed H; simpl.
  - now rewrite app_nil_r.
  - replace (placed ++ t :: tasks)%list with ((placed ++ [t]) ++ tasks)%list
      by (now rewrite <- app_assoc).
    apply IH, place_inOrder, H.
Qed.

Lemma packDays_inOrder tasks :
  let days := SchedulerAgent.packDays rt hoursPerDay bufferPercent start studyTimes tasks in
  List.map taskOf (slotsOf days) = List.map slotOf (SchedulerAgent.sortByScore tasks) /\
  numbered days.
Proof.
  unfold SchedulerAgent.packDays.
  destruct (fold_place_inOrder (SchedulerAgent.sortByScore tasks)
              SchedulerAgent.emptyPacking [])
    as (Hslots & Hday & Hnum).
  { split; [reflexivity|]. split; [reflexivity|].
    repeat split; constructor. }
  simpl in Hslots. cbv zeta. unfold SchedulerAgent.finish.
  destruct (Nat.ltb 0 _) eqn:Elen.
  - apply nonempty_length in Elen. split.
    + rewrite slotsOf_snoc. exact Hslots.
    + apply numbered_closeDay; assumption.
  - destruct (SchedulerAgent.currentDayTasks _); [|discriminate].
    rewrite app_nil_r in Hslots. split; assumption.
Qed.

End PackingOrder.

Definition startOf (rt : Runtime) (preferences : SchedulerAgent.Preferences) : string :=
  match SchedulerAgent.startDate preferences with Some d => d | None => today rt end.

(** X9. The fallback schedule places every task exactly once: its slots,
    read day after day, are the tasks in sorted order, each slot with the
    description, id, score and estimate of its task. No day is empty, the
    days are numbered from 1 without a gap and dated on consecutive
    days from the start date, so there are at most as many days as
    tasks. *)
Theorem fallback_schedule_places_each_task_once (rt : Runtime)
  (tasks : list TaskDecomposerAgent.Task) (preferences : SchedulerAgent.Preferences) :
  match SchedulerAgent.createFallbackSchedule rt tasks preferences with
  | SchedulerAgent.Fallback days summary _ =>
      List.map taskOf (slotsOf days) = List.map slotOf (SchedulerAgent.sortByScore tasks) /\
      Forall (fun d => SchedulerAgent.Day.tasks d <> []) days /\
      List.map SchedulerAgent.Day.day days = seq 1 (List.length days) /\
      List.map SchedulerAgent.Day.date days
      = List.map (SchedulerAgent.calculateDate rt (Some (startOf rt preferences)))
                 (seq 0 (List.length days)) /\
      (List.length days <= List.length tasks)%nat /\
      SchedulerAgent.Summary.totalDays summary = List.length days /\
      SchedulerAgent.Summary.tasksScheduled summary = List.length tasks
  | SchedulerAgent.Generated _ _ _ => False
  end.
Proof.
  unfold SchedulerAgent.createFallbackSchedule. cbv zeta.
  fold (startOf rt preferences).
  match goal with
  | |- context [SchedulerAgent.packDays rt ?h ?b ?s ?t tasks] =>
      destruct (packDays_inOrder rt h b s t tasks) as (Hslots & Hfull & Hnum & Hdate & _);
      set (days := SchedulerAgent.packDays rt h b s t tasks) in *
  end.
  simpl. repeat split; try assumption.
  rewrite <- (sortByScore_length tasks), <- (length_map slotOf), <- Hslots, length_map.
  unfold slotsOf. rewrite <- (length_map SchedulerAgent.Day.tasks days).
  apply concat_nonempty_length. apply Forall_map. exact Hfull.
Qed.

(** ** Start times *)

Lemma Qfloor_between (q : Q) (n : Z) :
  (inject_Z n <= q)%Q -> (q < inject_Z (n + 1))%Q -> Qfloor q = n.
Proof.
  intros Hlo Hhi. apply Z.le_antisymm; [apply Qfloor_upper, Hhi|].
  rewrite <- (Qfloor_Z n). apply Qfloor_resp_le, Hlo.
Qed.

(** X10. The minutes of a start time are rounded after the hour has been
    taken: at 119/120 of an hour or more past the hour (and not
    negative), [calculateStartTime] prints 60 minutes instead of moving
    to the next hour. *)
Theorem calculateStartTime_sixty_minutes (hoursIntoDay : Q) (timeOfDay : option string) :
  (0 <= hoursIntoDay)%Q ->
  (119 # 120 <= hoursIntoDay - inject_Z (Qfloor hoursIntoDay))%Q ->
  exists hour, SchedulerAgent.calculateStartTime hoursIntoDay timeOfDay = hour ++ ":60".
Proof.
  intros Hpos Hfrac. unfold SchedulerAgent.calculateStartTime.
  eexists. do 2 f_equal.
  assert (Hm : Math_round (frac hoursIntoDay * 60) = 60).
  { unfold Math_round, frac, truncate.
    apply Qle_bool_iff in Hpos. rewrite Hpos.
    pose proof (Qlt_floor hoursIntoDay) as Hlt.
    rewrite inject_Z_plus in Hlt. change (inject_Z 1) with 1%Q in Hlt.
    set (f := inject_Z (Qfloor hoursIntoDay)) in *. clearbody f.
    apply Qfloor_between.
    - change (inject_Z 60) with 60%Q. lra.
    - change (inject_Z (60 + 1)) with 61%Q. lra. }
  rewrite Hm. reflexivity.
Qed.

(** 59 minutes and a half past nine in the morning is printed as 09:60. *)
Lemma calculateStartTime_sixty_minutes_witness :
  exists hour, SchedulerAgent.calculateStartTime (119 # 120) None = hour ++ ":60".
Proof.
  apply calculateStartTime_sixty_minutes.
  - discriminate.
  - vm_compute. discriminate.
Defined.

(** ** Feasibility of the fallback schedule *)

Lemma tenths_nonneg (q : Q) : 0 <= tenths q.
Proof.
  unfold tenths. apply Qfloor_nonneg. pose proof (Qabs_nonneg q). lra.
Qed.

Lemma tenths_le (a b : Q) : (Qabs a <= Qabs b)%Q -> tenths a <= tenths b.
Proof. intros H. unfold tenths. apply Qfloor_resp_le. lra. Qed.

Lemma roundTenth_le (a b : Q) : (a <= b)%Q -> (roundTenth a <= roundTenth b)%Q.
Proof.
  intros Hab. unfold roundTenth.
  destruct (Qle_bool 0 a) eqn:Ea; destruct (Qle_bool 0 b) eqn:Eb.
  - apply Qle_bool_iff in Ea, Eb.
    assert (H : tenths a <= tenths b).
    { apply tenths_le. rewrite !Qabs_pos by assumption. exact Hab. }
    unfold Qle. simpl. lia.
  - apply Qle_bool_iff in Ea.
    assert (~ (0 <= b)%Q) by (rewrite <- Qle_bool_iff; congruence). lra.
  - pose proof (tenths_nonneg a). pose proof (tenths_nonneg b).
    unfold Qle, Qopp. simpl. lia.
  - assert (Ha : ~ (0 <= a)%Q) by (rewrite <- Qle_bool_iff; congruence).
    assert (Hb : ~ (0 <= b)%Q) by (rewrite <- Qle_bool_iff; congruence).
    assert (H : tenths b <= tenths a).
    { apply tenths_le. rewrite !Qabs_neg by lra. lra. }
    unfold Qle, Qopp. simpl. lia.
Qed.

(** The cap [analyzeFeasibility] compares with: 4 where the preference
    is missing or 0. *)
Definition feasibilityCap (preferences : SchedulerAgent.Preferences) : Q :=
  match SchedulerAgent.availableHoursPerDay preferences with
  | Some h => if Qeq_bool h 0 then 4%Q else h
  | None => 4%Q
  end.

Lemma feasibilityCap_above (preferences : SchedulerAgent.Preferences) :
  (0 <= capOf preferences -> capOf preferences <= feasibilityCap preferences)%Q.
Proof.
  unfold capOf, feasibilityCap.
  destruct (SchedulerAgent.availableHoursPerDay preferences) as [h|]; [|lra].
  destruct (Qeq_bool h 0) eqn:E; [|lra].
  apply Qeq_bool_iff in E. lra.
Qed.

Lemma filter_none {A} (p : A -> bool) (l : list A) :
  Forall (fun x => p x = false) l -> List.filter p l = [].
Proof.
  induction 1 as [|x l Hx _ IH]; simpl; [reflexivity|]. now rewrite Hx.
Qed.

(** A task fits in a day by itself, buffer included. *)
Definition fitsInADay (preferences : SchedulerAgent.Preferences)
  (task : TaskDecomposerAgent.Task) : Prop :=
  (TaskDecomposerAgent.estimatedHours task
   + SchedulerAgent.bufferOf (bufferPercentOf preferences)
       (TaskDecomposerAgent.estimatedHours task)
   <= capOf preferences)%Q.

(** X11. When the daily cap is not negative and a whole number of tenths
    of an hour, and every task fits in a day by itself with its buffer,
    [analyzeFeasibility] finds the fallback schedule feasible: no day is
    counted as overloaded. *)
Theorem fallback_schedule_is_feasible (rt : Runtime)
  (tasks : list TaskDecomposerAgent.Task) (preferences : SchedulerAgent.Preferences) :
  (0 <= capOf preferences)%Q ->
  inTenths (capOf preferences) ->
  Forall (fitsInADay preferences) tasks ->
  match SchedulerAgent.createFallbackSchedule rt tasks preferences with
  | SchedulerAgent.Fallback days summary preferences' =>
      let report := ScheduleAnalysis.analyzeFeasibility days summary preferences' in
      ScheduleAnalysis.isFeasible report = true /\
      ScheduleAnalysis.overloadedDays report = 0%nat /\
      ScheduleAnalysis.recommendation report
      <> "Consider extending deadline or reducing scope"
  | SchedulerAgent.Generated _ _ _ => False
  end.
Proof.
  intros Hcap Htenths Hfit.
  unfold SchedulerAgent.createFallbackSchedule. cbv zeta.
  fold (capOf preferences) (bufferPercentOf preferences).
  match goal with
  | |- context [SchedulerAgent.packDays rt ?h ?b ?s ?t tasks] =>
      pose proof (packDays_withinCap rt h b s t tasks) as Hdays;
      destruct (packDays_inOrder rt h b s t tasks) as (Hslots & _);
      set (days := SchedulerAgent.packDays rt h b s t tasks) in *
  end.
  assert (Hnone :
            List.filter (fun day => Qlt_bool (feasibilityCap preferences)
                                      (SchedulerAgent.Day.totalHours day)) days = []).
  { apply filter_none. rewrite Forall_forall in Hdays |- *.
    intros day Hday. destruct (Hdays day Hday) as ((Hover & _) & Htotal).
    apply Qlt_bool_false_iff. rewrite Htotal.
    apply Qle_trans with (y := capOf preferences); [|apply feasibilityCap_above, Hcap].
    rewrite <- (roundTenth_exact _ Htenths). apply roundTenth_le.
    destruct (Qlt_le_dec (capOf preferences)
                (accumulatedHours (bufferPercentOf preferences)
                   (SchedulerAgent.Day.tasks day))) as [Habove|Hwithin];
      [|exact Hwithin].
    exfalso. destruct (Hover Habove) as (slot & Hone & Hslot).
    assert (Hin : In (taskOf slot) (List.map slotOf (SchedulerAgent.sortByScore tasks))).
    { rewrite <- Hslots. apply in_map. unfold slotsOf. apply in_concat.
      exists (SchedulerAgent.Day.tasks day). split.
      - apply in_map. apply list_elem_of_In, Hday.
      - rewrite Hone. now left. }
    apply in_map_iff in Hin as (task & Heq & Htask).
    assert (Hfits : fitsInADay preferences task).
    { rewrite Forall_forall in Hfit. apply Hfit, list_elem_of_In.
      eapply Permutation_in; [apply sortByScore_Permutation|exact Htask]. }
    unfold fitsInADay, SchedulerAgent.bufferOf in Hfits.
    unfold bufferedDuration in Hslot.
    assert (Hd : SchedulerAgent.Slot.duration slot = TaskDecomposerAgent.estimatedHours task).
    { unfold slotOf, taskOf in Heq. congruence. }
    rewrite Hd in Hslot. lra. }
  unfold ScheduleAnalysis.analyzeFeasibility. cbv zeta.
  fold (feasibilityCap preferences). rewrite Hnone. simpl.
  split; [reflexivity|]. split; [reflexivity|].
  destruct (ScheduleAnalysis.exceeds _ _); discriminate.
Qed.

(** The three fallback tasks of a simple goal, on the default
    preferences. *)
Lemma fallback_schedule_is_feasible_witness :
  match SchedulerAgent.createFallbackSchedule Example.runtime sampleTasks defaultPreferences with
  | SchedulerAgent.Fallback days summary preferences' =>
      let report := ScheduleAnalysis.analyzeFeasibility days summary preferences' in
      ScheduleAnalysis.isFeasible report = true /\
      ScheduleAnalysis.overloadedDays report = 0%nat /\
      ScheduleAnalysis.recommendation report
      <> "Consider extending deadline or reducing scope"
  | SchedulerAgent.Generated _ _ _ => False
  end.
Proof.
  apply (fallback_schedule_is_feasible Example.runtime sampleTasks defaultPreferences).
  - discriminate.
  - exists 40. reflexivity.
  - unfold sampleTasks, TaskDecomposerAgent.createFallbackTasks. simpl.
    repeat (apply List.Forall_cons; [vm_compute; discriminate|]). apply List.Forall_nil.
Defined.

(** ** The next task *)

Definition scoreOf (task : TaskDecomposerAgent.Task) : Z :=
  match TaskDecomposerAgent.priorityScore task with Some score => score | None => 0 end.

Definition hasScore (task : TaskDecomposerAgent.Task) : Prop :=
  TaskDecomposerAgent.priorityScore task <> None.

(** [task] is the first of [tasks] among those of the highest score. *)
Definition firstOfHighestScore (task : TaskDecomposerAgent.Task)
  (tasks : list TaskDecomposerAgent.Task) : Prop :=
  exists before after,
    tasks = (before ++ task :: after)%list /\
    Forall (fun other => scoreOf other < scoreOf task) before /\
    Forall (fun other => scoreOf other <= scoreOf task) after.

Lemma scoredBelow_scoreOf a b :
  hasScore a -> hasScore b ->
  PriorityQueries.scoredBelow a b = (scoreOf a <? scoreOf b).
Proof.
  unfold hasScore, PriorityQueries.scoredBelow, scoreOf.
  destruct (TaskDecomposerAgent.priorityScore a), (TaskDecomposerAgent.priorityScore b);
    congruence.
Qed.

Lemma head_insertByPriority task sorted :
  head (PriorityQueries.insertByPriority task sorted)
  = match head sorted with
    | Some other => if PriorityQueries.scoredBelow task other then Some other else Some task
    | None => Some task
    end.
Proof.
  destruct sorted as [|other rest]; simpl; [reflexivity|].
  now destruct (PriorityQueries.scoredBelow task other).
Qed.

Lemma head_sortByPriority tasks :
  Forall hasScore tasks ->
  match head (PriorityQueries.sortByPriority tasks) with
  | Some task => firstOfHighestScore task tasks
  | None => tasks = []
  end.
Proof.
  induction 1 as [|x l Hx Hl IH]; [reflexivity|].
  cbn [PriorityQueries.sortByPriority fold_right].
  fold (PriorityQueries.sortByPriority l).
  rewrite head_insertByPriority.
  destruct (head (PriorityQueries.sortByPriority l)) as [other|].
  - destruct IH as (before & after & -> & Hbefore & Hafter).
    assert (Ho : hasScore other).
    { rewrite Forall_forall in Hl. apply Hl, list_elem_of_In, in_elt. }
    rewrite (scoredBelow_scoreOf x other Hx Ho).
    destruct (scoreOf x <? scoreOf other) eqn:E.
    + apply Z.ltb_lt in E. exists (x :: before), after.
      split; [reflexivity|]. split; [|exact Hafter]. constructor; assumption.
    + apply Z.ltb_ge in E. exists [], (before ++ other :: after)%list.
      split; [reflexivity|]. split; [constructor|].
      apply Forall_app. split.
      * eapply Forall_impl; [exact Hbefore|]. intros u Hu. simpl in Hu. lia.
      * constructor; [exact E|].
        eapply Forall_impl; [exact Hafter|]. intros u Hu. simpl in Hu. lia.
  - subst l. exists [], []. repeat split; constructor.
Qed.

Lemma Forall_filter_keeps {A} (P : A -> Prop) (p : A -> bool) (l : list A) :
  Forall P l -> Forall P (List.filter p l).
Proof.
  induction 1 as [|x l Hx _ IH]; simpl; [constructor|].
  destruct (p x); [constructor|]; assumption.
Qed.

Lemma next_of_filtered (p : TaskDecomposerAgent.Task -> bool)
  (tasks : list TaskDecomposerAgent.Task) :
  Forall hasScore tasks ->
  match (match List.filter p tasks with
         | [] => None
         | _ => head (PriorityQueries.sortByPriority (List.filter p tasks))
         end) with
  | Some task => firstOfHighestScore task (List.filter p tasks)
  | None => Forall (fun task => p task = false) tasks
  end.
Proof.
  intros Hs.
  pose proof (head_sortByPriority (List.filter p tasks) (Forall_filter_keeps _ p _ Hs)) as H.
  assert (Hnone : List.filter p tasks = [] -> Forall (fun task => p task = false) tasks).
  { clear. induction tasks as [|x l IH]; simpl; [constructor|].
    destruct (p x) eqn:E; [discriminate|]. intros Hl. constructor; auto. }
  destruct (List.filter p tasks) as [|x l] eqn:E; [apply Hnone; reflexivity|].
  destruct (head _); [exact H|discriminate].
Qed.

(** X12. Picking the next task among tasks that all have a score. The
    orchestrator's [getNextTask] returns nothing exactly when every task
    of the plan is in the list of completed ids; otherwise it returns,
    among the tasks that are not, the first one of the highest score. The
    scorer's [getNextTask] does the same among the pending tasks. *)
Theorem getNextTask_first_of_highest_score (plan : AgentOrchestrator.Plan)
  (completedTaskIds : list string) :
  Forall hasScore (AgentOrchestrator.tasks plan) ->
  match OrchestratorQueries.getNextTask plan completedTaskIds with
  | Some task =>
      firstOfHighestScore task
        (List.filter (fun task => negb (OrchestratorQueries.isCompleted completedTaskIds task))
                     (AgentOrchestrator.tasks plan))
  | None =>
      Forall (fun task => In (TaskDecomposerAgent.id task) completedTaskIds)
             (AgentOrchestrator.tasks plan)
  end /\
  match PriorityQueries.getNextTask (AgentOrchestrator.tasks plan) with
  | Some task =>
      firstOfHighestScore task
        (List.filter (fun task => String.eqb (TaskDecomposerAgent.status task) "pending")
                     (AgentOrchestrator.tasks plan))
  | None =>
      Forall (fun task => TaskDecomposerAgent.status task <> "pending")
             (AgentOrchestrator.tasks plan)
  end.
Proof.
  intros Hs. split.
  - unfold OrchestratorQueries.getNextTask. cbv zeta.
    pose proof (next_of_filtered
                  (fun task => negb (OrchestratorQueries.isCompleted completedTaskIds task))
                  _ Hs) as H.
    destruct (match List.filter _ _ with [] => None | _ => _ end); [exact H|].
    eapply Forall_impl; [exact H|]. intros task Ht. simpl in Ht.
    apply negb_false_iff in Ht. unfold OrchestratorQueries.isCompleted in Ht.
    apply existsb_exists in Ht as (i & Hin & Heq). apply String.eqb_eq in Heq.
    now rewrite Heq.
  - unfold PriorityQueries.getNextTask. cbv zeta.
    pose proof (next_of_filtered
                  (fun task => String.eqb (TaskDecomposerAgent.status task) "pending")
                  _ Hs) as H.
    destruct (match List.filter _ _ with [] => None | _ => _ end); [exact H|].
    eapply Forall_impl; [exact H|]. intros task Ht. simpl in Ht.
    now apply String.eqb_neq.
Qed.

(** The plan of the examples: the three fallback tasks, scored by rule. *)
Definition samplePlan : AgentOrchestrator.Plan :=
  {| AgentOrchestrator.goal := pythonGoal;
     AgentOrchestrator.tasks :=
       PriorityScorerAgent.applyFallbackScoring sampleTasks urgentProcrastinator;
     AgentOrchestrator.schedule :=
       SchedulerAgent.createFallbackSchedule Example.runtime
         (PriorityScorerAgent.applyFallbackScoring sampleTasks urgentProcrastinator)
         defaultPreferences;
     AgentOrchestrator.totalTasks := 3 |}.

(** With the first task completed, the second one is next. *)
Lemma getNextTask_first_of_highest_score_witness :
  match OrchestratorQueries.getNextTask samplePlan ["task_1700000000000_0"] with
  | Some task =>
      firstOfHighestScore task
        (List.filter
           (fun task => negb (OrchestratorQueries.isCompleted ["task_1700000000000_0"] task))
           (AgentOrchestrator.tasks samplePlan))
  | None =>
      Forall (fun task => In (TaskDecomposerAgent.id task) ["task_1700000000000_0"])
             (AgentOrchestrator.tasks samplePlan)
  end /\
  match PriorityQueries.getNextTask (AgentOrchestrator.tasks samplePlan) with
  | Some task =>
      firstOfHighestScore task
        (List.filter (fun task => String.eqb (TaskDecomposerAgent.status task) "pending")
                     (AgentOrchestrator.tasks samplePlan))
  | None =>
      Forall (fun task => TaskDecomposerAgent.status task <> "pending")
             (AgentOrchestrator.tasks samplePlan)
  end.
Proof.
  apply (getNextTask_first_of_highest_score samplePlan ["task_1700000000000_0"]).
  unfold samplePlan, sampleTasks, TaskDecomposerAgent.createFallbackTasks. simpl.
  repeat (apply List.Forall_cons; [discriminate|]). apply List.Forall_nil.
Defined.

(** ** The pipeline *)

Definition completeLog : list string :=
  ["ORCHESTRATION_START"; "STEP_1_START"; "STEP_1_COMPLETE"; "STEP_2_START";
   "STEP_2_COMPLETE"; "STEP_3_START"; "STEP_3_COMPLETE"; "STEP_4_START";
   "STEP_4_COMPLETE"; "ORCHESTRATION_COMPLETE"].

Lemma analyzeGoal_originalGoal rt generation goalText descriptor :
  GoalAnalyzerAgent.analyzeGoal rt generation goalText = Ok descriptor ->
  GoalAnalyzerAgent.originalGoal descriptor = goalText.
Proof.
  destruct generation as [response|message]; simpl; [|discriminate].
  intros [= <-]. unfold GoalAnalyzerAgent.parseResponse.
  destruct (GoalAnalyzerAgent.parse_attempts rt _) as [parsed|]; [|reflexivity].
  destruct (GoalAnalyzerAgent.validated parsed goalText) as [d|] eqn:E; [|reflexivity].
  unfold GoalAnalyzerAgent.validated in E.
  destruct (get parsed "parsedDeadline"); [|discriminate].
  destruct (get parsed "subject"); [|discriminate].
  destruct (get parsed "complexity"); [|discriminate].
  destruct (get parsed "recommendedApproach"); [|discriminate].
  destruct (GoalAnalyzerAgent.validateComplexity _); [|discriminate].
  now injection E as <-.
Qed.

Lemma StronglySorted_filter {A} (R : A -> A -> Prop) (p : A -> bool) (l : list A) :
  StronglySorted R l -> StronglySorted R (List.filter p l).
Proof.
  induction 1 as [|x l Hl IH Hx]; simpl; [constructor|].
  destruct (p x); [|exact IH]. constructor; [exact IH|].
  apply Forall_filter_keeps, Hx.
Qed.

Lemma scored_scoreOr5 task : scored task -> SchedulerAgent.scoreOr5 task = scoreOf task.
Proof.
  intros (score & Hs & Hrange). unfold SchedulerAgent.scoreOr5, scoreOf. rewrite Hs.
  destruct (score =? 0) eqn:E; [apply Z.eqb_eq in E; lia|reflexivity].
Qed.

Lemma scored_hasScore task : scored task -> hasScore task.
Proof. intros (score & Hs & _). unfold hasScore. congruence. Qed.

Lemma sortByPriority_of_sorted tasks :
  Forall scored tasks -> StronglySorted outranks tasks ->
  PriorityQueries.sortByPriority tasks = tasks.
Proof.
  induction tasks as [|t tasks IH]; intros Hscored Hs; [reflexivity|].
  inversion Hs as [|? ? Hrest Hall]; subst.
  inversion Hscored as [|? ? Ht Htasks]; subst.
  simpl. rewrite (IH Htasks Hrest).
  destruct tasks as [|other rest]; [reflexivity|]. simpl.
  inversion Hall as [|? ? Ho _]; subst. inversion Htasks as [|? ? Hso _]; subst.
  rewrite (scoredBelow_scoreOf t other (scored_hasScore t Ht) (scored_hasScore other Hso)).
  unfold outranks in Ho. rewrite (scored_scoreOr5 t Ht), (scored_scoreOr5 other Hso) in Ho.
  destruct (scoreOf t <? scoreOf other) eqn:E; [apply Z.ltb_lt in E; lia|reflexivity].
Qed.

(** What the plan keeps of the decomposition. *)
Definition planned (goalText : string) (task : TaskDecomposerAgent.Task) : Prop :=
  scored task /\
  TaskDecomposerAgent.status task = "pending" /\
  TaskDecomposerAgent.goalReference task = goalText /\
  In (TaskDecomposerAgent.priority task) ["high"; "medium"; "low"] /\
  (0 <= TaskDecomposerAgent.estimatedHours task <= 40)%Q.

Lemma rescored_planned goalText analyzedGoal tasks tasks' :
  GoalAnalyzerAgent.originalGoal analyzedGoal = goalText ->
  Forall (freshTask analyzedGoal) tasks ->
  Forall2 rescored tasks tasks' ->
  Forall (planned goalText) tasks'.
Proof.
  intros Hgoal Hfresh Hre. induction Hre as [|t t' l l' Ht _ IH]; [constructor|].
  inversion Hfresh as [|? ? Hf Hl]; subst. constructor; [|apply IH, Hl].
  destruct Ht as (_ & _ & Hh & Hp & _ & Hst & Hg & _ & Hsc & _).
  destruct Hf as (Fst & Fp & (n & Hn & Fh) & _ & Fg & _).
  unfold planned. rewrite Hst, Hg, Hp, Hh. repeat split; try assumption.
  - rewrite Fh. apply Qle_shift_div_l; [reflexivity|].
    rewrite Qmult_0_l. change 0%Q with (inject_Z 0). rewrite <- Zle_Qle. lia.
  - rewrite Fh. apply Qle_shift_div_r; [reflexivity|].
    change (40 * 2)%Q with (inject_Z 80). rewrite <- Zle_Qle. lia.
Qed.

(** X13. A plan [createStudyPlan] returns: the log holds the ten steps
    in order; the plan is for the goal given and counts its tasks, of
    which there is at least one; the tasks are in descending order of
    score, each with a score from 1 to 10, pending, referring to the
    goal, with one of the three priorities and an estimate from 0 to 40
    hours; and the next task, given the ids of those completed, is the
    first task of the plan that is not among them. *)
Theorem createStudyPlan_plan_shape (rt : Runtime) (backend : AgentOrchestrator.Backend)
  (goalText : string) (options : AgentOrchestrator.Options) :
  match AgentOrchestrator.createStudyPlan rt backend goalText options with
  | AgentOrchestrator.Success plan executionLog =>
      executionLog = completeLog /\
      GoalAnalyzerAgent.originalGoal (AgentOrchestrator.goal plan) = goalText /\
      AgentOrchestrator.totalTasks plan = List.length (AgentOrchestrator.tasks plan) /\
      (1 <= AgentOrchestrator.totalTasks plan)%nat /\
      StronglySorted outranks (AgentOrchestrator.tasks plan) /\
      Forall (planned goalText) (AgentOrchestrator.tasks plan) /\
      (forall completedTaskIds,
          OrchestratorQueries.getNextTask plan completedTaskIds
          = head (List.filter
                    (fun task => negb (OrchestratorQueries.isCompleted completedTaskIds task))
                    (AgentOrchestrator.tasks plan)))
  | AgentOrchestrator.Failure _ _ _ => True
  end.
Proof.
  unfold AgentOrchestrator.createStudyPlan.
  destruct (GoalAnalyzerAgent.analyzeGoal rt _ goalText) as [analyzedGoal|m] eqn:Eg;
    [|exact I].
  destruct (TaskDecomposerAgent.decompose rt _ analyzedGoal) as [tasks|m] eqn:Et;
    [|exact I].
  destruct (Nat.eqb (List.length tasks) 0) eqn:Elen; [exact I|].
  destruct (AgentOrchestrator.buildSchedulingPreferences rt _ analyzedGoal)
    as [schedulingPrefs|]; [|exact I].
  cbn [AgentOrchestrator.goal AgentOrchestrator.tasks AgentOrchestrator.totalTasks].
  set (scoredTasks := PriorityScorerAgent.scoreTasks rt _ tasks _).
  apply Nat.eqb_neq in Elen.
  assert (Hplanned : Forall (planned goalText) (SchedulerAgent.sortByScore scoredTasks)).
  { rewrite Forall_forall. intros t Ht. apply list_elem_of_In in Ht.
    apply (Permutation_in _ (sortByScore_Permutation scoredTasks)) in Ht.
    revert t Ht. intros t Ht. apply list_elem_of_In in Ht. revert t Ht.
    rewrite <- Forall_forall.
    eapply rescored_planned;
      [eapply analyzeGoal_originalGoal, Eg
      |eapply decompose_fresh, Et
      |apply scoreTasks_rescored]. }
  split; [reflexivity|]. split; [eapply analyzeGoal_originalGoal, Eg|].
  split; [unfold scoredTasks; now rewrite sortByScore_length, scoreTasks_length|].
  split; [lia|]. split; [apply sortByScore_sorted|]. split; [exact Hplanned|].
  intros completedTaskIds. unfold OrchestratorQueries.getNextTask.
  cbn [AgentOrchestrator.tasks].
  set (remaining := List.filter _ (SchedulerAgent.sortByScore scoredTasks)).
  rewrite (sortByPriority_of_sorted remaining).
  - now destruct remaining.
  - apply Forall_filter_keeps. eapply Forall_impl; [exact Hplanned|].
    intros t Ht. apply Ht.
  - apply StronglySorted_filter, sortByScore_sorted.
Qed.

(** A deadline on which [toLowerCase] is called and cannot be. *)
Definition notADeadlineText (deadline : JSON) : Prop :=
  truthy (Some deadline) = true /\ forall text, deadline <> JStr text.

Lemma estimateAvailableHours_throws_iff (deadline : JSON) :
  AgentOrchestrator.estimateAvailableHours deadline = None <-> notADeadlineText deadline.
Proof.
  unfold AgentOrchestrator.estimateAvailableHours, notADeadlineText.
  destruct (truthy (Some deadline)) eqn:Et; cbn [negb].
  - destruct deadline as [| b | q | s | items | fields];
      try (split; [intros _; split; [reflexivity|discriminate]|reflexivity]).
    split.
    + destruct (String.eqb s "not specified"); [discriminate|].
      destruct (existsb _ _); [discriminate|]. destruct (existsb _ _); discriminate.
    + intros (_ & H). now contradiction (H s).
  - split; [discriminate|]. intros (H & _). discriminate.
Qed.

(** X14. The hours per day the orchestrator assumes are 4, 5 or 6: 4
    for a deadline that is missing, empty or [not specified]; 6 for a
    text that names an urgent keyword, whatever else it names; 5 for a
    text that names a short time frame and no urgent keyword. The call
    throws exactly on a deadline that is truthy and not a string. *)
Theorem estimateAvailableHours_values (deadline : JSON) :
  (forall hours, AgentOrchestrator.estimateAvailableHours deadline = Some hours ->
                 In hours [4%Q; 5%Q; 6%Q]) /\
  (AgentOrchestrator.estimateAvailableHours deadline = None <-> notADeadlineText deadline) /\
  (forall text keyword,
      deadline = JStr text -> text <> "not specified" ->
      In keyword ["tomorrow"; "today"; "urgent"; "asap"; "1 day"; "2 day"] ->
      includes (toLowerCase text) keyword = true ->
      AgentOrchestrator.estimateAvailableHours deadline = Some 6%Q) /\
  (forall text keyword,
      deadline = JStr text -> text <> "not specified" ->
      existsb (includes (toLowerCase text))
              ["tomorrow"; "today"; "urgent"; "asap"; "1 day"; "2 day"] = false ->
      In keyword ["week"; "7 day"; "5 day"] ->
      includes (toLowerCase text) keyword = true ->
      AgentOrchestrator.estimateAvailableHours deadline = Some 5%Q) /\
  (truthy (Some deadline) = false ->
   AgentOrchestrator.estimateAvailableHours deadline = Some 4%Q).
Proof.
  split; [|split; [apply estimateAvailableHours_throws_iff|split; [|split]]].
  - intros hours. unfold AgentOrchestrator.estimateAvailableHours.
    destruct (negb _); [intros [= <-]; simpl; tauto|].
    destruct deadline as [| b | q | s | items | fields]; try discriminate.
    destruct (String.eqb s "not specified"); [intros [= <-]; simpl; tauto|].
    destruct (existsb _ _); [intros [= <-]; simpl; tauto|].
    destruct (existsb _ _); intros [= <-]; simpl; tauto.
  - intros text keyword -> Hspecified Hkeyword Hincludes.
    unfold AgentOrchestrator.estimateAvailableHours.
    assert (Htruthy : truthy (Some (JStr text)) = true).
    { simpl. apply negb_true_iff, String.eqb_neq. intros ->.
      simpl in Hkeyword.
      destruct Hkeyword as [<-|[<-|[<-|[<-|[<-|[<-|[]]]]]]]; discriminate. }
    rewrite Htruthy. simpl negb. cbv iota.
    apply String.eqb_neq in Hspecified. rewrite Hspecified.
    assert (Hurgent : existsb (includes (toLowerCase text))
                        ["tomorrow"; "today"; "urgent"; "asap"; "1 day"; "2 day"] = true).
    { apply existsb_exists. exists keyword. split; assumption. }
    now rewrite Hurgent.
  - intros text keyword -> Hspecified Hcalm Hkeyword Hincludes.
    unfold AgentOrchestrator.estimateAvailableHours.
    assert (Htruthy : truthy (Some (JStr text)) = true).
    { simpl. apply negb_true_iff, String.eqb_neq. intros ->.
      simpl in Hkeyword.
      destruct Hkeyword as [<-|[<-|[<-|[]]]]; discriminate. }
    rewrite Htruthy. simpl negb. cbv iota.
    apply String.eqb_neq in Hspecified. rewrite Hspecified, Hcalm.
    assert (Hshort : existsb (includes (toLowerCase text)) ["week"; "7 day"; "5 day"] = true).
    { apply existsb_exists. exists keyword. split; assumption. }
    now rewrite Hshort.
  - intros Hfalsy. unfold AgentOrchestrator.estimateAvailableHours.
    now rewrite Hfalsy.
Qed.

(** A deadline of tomorrow week is urgent. *)
Lemma estimateAvailableHours_values_witness :
  AgentOrchestrator.estimateAvailableHours (JStr "Tomorrow week") = Some 6%Q.
Proof.
  apply (proj1 (proj2 (proj2 (estimateAvailableHours_values (JStr "Tomorrow week"))))
           "Tomorrow week" "tomorrow").
  - reflexivity.
  - discriminate.
  - simpl. tauto.
  - reflexivity.
Defined.





(** X17. What [getStats] reports after [createStudyPlan]. After a plan
    was returned: 10 steps, 5 of them completed, no error, and a success
    rate of 50.0%, the starting steps being counted in the total. After a
    failure: one error, and 0 of 3, 1 of 5, 2 of 6 or 3 of 9 steps
    completed according to the step the failure reports. *)
Theorem getStats_after_createStudyPlan (rt : Runtime) (backend : AgentOrchestrator.Backend)
  (goalText : string) (options : AgentOrchestrator.Options) :
  match AgentOrchestrator.createStudyPlan rt backend goalText options with
  | AgentOrchestrator.Success _ executionLog =>
      OrchestratorQueries.getStats executionLog
      = {| OrchestratorQueries.totalSteps := 10;
           OrchestratorQueries.completedSteps := 5;
           OrchestratorQueries.errors := 0;
           OrchestratorQueries.successRate := "50.0%" |}
  | AgentOrchestrator.Failure _ executionLog failedAt =>
      In (failedAt, OrchestratorQueries.getStats executionLog)
         [ ("NONE", {| OrchestratorQueries.totalSteps := 3;
                       OrchestratorQueries.completedSteps := 0;
                       OrchestratorQueries.errors := 1;
                       OrchestratorQueries.successRate := "0.0%" |});
           ("STEP_1_COMPLETE", {| OrchestratorQueries.totalSteps := 5;
                                  OrchestratorQueries.completedSteps := 1;
                                  OrchestratorQueries.errors := 1;
                                  OrchestratorQueries.successRate := "20.0%" |});
           ("STEP_2_COMPLETE", {| OrchestratorQueries.totalSteps := 6;
                                  OrchestratorQueries.completedSteps := 2;
                                  OrchestratorQueries.errors := 1;
                                  OrchestratorQueries.successRate := "33.3%" |});
           ("STEP_3_COMPLETE", {| OrchestratorQueries.totalSteps := 9;
                                  OrchestratorQueries.completedSteps := 3;
                                  OrchestratorQueries.errors := 1;
                                  OrchestratorQueries.successRate := "33.3%" |}) ]
  end.
Proof.
  unfold AgentOrchestrator.createStudyPlan.
  destruct (GoalAnalyzerAgent.analyzeGoal rt _ goalText) as [analyzedGoal|m];
    [|left; reflexivity].
  destruct (TaskDecomposerAgent.decompose rt _ analyzedGoal) as [tasks|m];
    [|right; left; reflexivity].
  destruct (Nat.eqb (List.length tasks) 0); [right; right; left; reflexivity|].
  destruct (AgentOrchestrator.buildSchedulingPreferences rt _ analyzedGoal);
    [reflexivity|right; right; right; left; reflexivity].
Qed.

Lemma get_get_opt parsed key value :
  get parsed key = Some value -> get_opt (Some parsed) key = value.
Proof. destruct parsed; simpl; congruence. Qed.



(** ** Reflection without the model *)

Lemma fallbackInsights_at_most_three (userProgress : list ReflectionAgent.Progress) :
  (List.length (ReflectionAgent.fallbackInsights userProgress) <= 3)%nat.
Proof.
  unfold ReflectionAgent.fallbackInsights. cbv zeta.
  rewrite !length_app.
  destruct (Qlt_bool _ 50); destruct (Nat.ltb _ _); destruct (Qlt_bool _ _); simpl; lia.
Qed.

(** X19. The rule-based reflection leaves the plan and the memory as
    they are and proposes at most three changes, so that after it
    [needsReplanning] asks for a new plan exactly when something was
    observed and fewer than half of it was completed. With nothing
    observed it does not, although the reflection itself then reports a
    low completion rate. *)
Theorem fallback_reflection_replans_on_rate_only {Plan : Type} (currentPlan : Plan)
  (userProgress : list ReflectionAgent.Progress) (userMemory : ReflectionAgent.Memory) :
  let reflection :=
    ReflectionAgent.createFallbackReflection currentPlan userProgress userMemory in
  let completed := List.length (List.filter ReflectionAgent.isCompleted userProgress) in
  ReflectionAgent.adjustedPlan reflection = currentPlan /\
  ReflectionAgent.updatedMemory reflection = userMemory /\
  (ReflectionAgent.proposedScheduleChanges (ReflectionAgent.adjustmentsMade reflection)
   <= 3)%nat /\
  (ReflectionAgent.needsReplanning reflection = true <->
   (0 < List.length userProgress)%nat /\ (2 * completed < List.length userProgress)%nat) /\
  (userProgress = [] ->
   ReflectionAgent.needsReplanning reflection = false /\
   In "Completion rate is low - consider reducing daily workload"
      (ReflectionAgent.fallbackInsights userProgress)).
Proof.
  cbv zeta. split; [reflexivity|]. split; [reflexivity|].
  assert (Hthree :
            (ReflectionAgent.proposedScheduleChanges
               (ReflectionAgent.adjustmentsMade
                  (ReflectionAgent.createFallbackReflection currentPlan userProgress
                     userMemory)) <= 3)%nat).
  { simpl. rewrite length_map. apply fallbackInsights_at_most_three. }
  split; [exact Hthree|]. split.
  - unfold ReflectionAgent.needsReplanning.
    apply Nat.ltb_ge in Hthree. rewrite Hthree.
    cbn [ReflectionAgent.createFallbackReflection ReflectionAgent.adjustmentsMade
         ReflectionAgent.proposedPriorityChanges ReflectionAgent.priorityChanges
         ReflectionAgent.progressAnalyzed Nat.ltb Nat.leb].
    unfold ReflectionAgent.completionRate.
    cbn [ReflectionAgent.completed ReflectionAgent.totalTasks].
    rewrite <- (percentage_below_half _ _ 100) by discriminate.
    destruct (Qlt_bool _ 50) eqn:E.
    + apply Qlt_bool_iff in E. tauto.
    + apply Qlt_bool_false_iff in E. split; [discriminate|]. intros H. exfalso. lra.
  - intros ->. split; [reflexivity|]. left. reflexivity.
Qed.

(** ** The statistics of the memory *)

Lemma upsert_keys_extend patterns update :
  exists new, MemoryFacts.keys (ReflectionAgent.upsert patterns update)
              = (MemoryFacts.keys patterns ++ new)%list /\
              (List.length new <= 1)%nat.
Proof.
  rewrite MemoryFacts.keys_upsert. destruct (decide _).
  - exists []. split; [now rewrite app_nil_r|simpl; lia].
  - eexists. split; [reflexivity|simpl; lia].
Qed.

Lemma upserts_keys_extend updates patterns :
  exists new, MemoryFacts.keys (fold_left ReflectionAgent.upsert updates patterns)
              = (MemoryFacts.keys patterns ++ new)%list /\
              (List.length new <= List.length updates)%nat.
Proof.
  revert patterns. induction updates as [|u updates IH]; intros patterns; simpl.
  - exists []. split; [now rewrite app_nil_r|simpl; lia].
  - destruct (IH (ReflectionAgent.upsert patterns u)) as (new & Hnew & Hlen).
    destruct (upsert_keys_extend patterns u) as (one & Hone & Hlen1).
    exists (one ++ new)%list. rewrite Hnew, Hone, <- app_assoc. split; [reflexivity|].
    rewrite length_app. lia.
Qed.

Lemma percentage_range (completedCount totalCount : nat) :
  (completedCount <= totalCount)%nat ->
  (0 <= ReflectionAgent.percentage completedCount totalCount 0 <= 100)%Q.
Proof.
  intros Hle. unfold ReflectionAgent.percentage.
  destruct (Nat.ltb 0 totalCount) eqn:E; [|lra].
  apply Nat.ltb_lt in E.
  set (c := inject_Z (Z.of_nat completedCount)).
  set (t := inject_Z (Z.of_nat totalCount)).
  assert (Ht : (0 < t)%Q).
  { unfold t. change 0%Q with (inject_Z 0). rewrite <- Zlt_Qlt. lia. }
  assert (Hc : (0 <= c)%Q).
  { unfold c. change 0%Q with (inject_Z 0). rewrite <- Zle_Qle. lia. }
  assert (Hct : (c <= t)%Q).
  { unfold c, t. rewrite <- Zle_Qle. lia. }
  assert (Hd : (c / t * 100 == (100 * c) / t)%Q) by (field; lra).
  rewrite Hd. split.
  - apply Qle_shift_div_l; [exact Ht|]. lra.
  - apply Qle_shift_div_r; [exact Ht|]. lra.
Qed.

Lemma filter_length_le {A} (p : A -> bool) (l : list A) :
  (List.length (List.filter p l) <= List.length l)%nat.
Proof.
  induction l as [|x l IH]; simpl; [lia|]. destruct (p x); simpl; lia.
Qed.

(** X20. What [updateMemory] stores besides the counters. The preferred
    times are kept. The patterns the memory held stay where they were in
    the list, and at most one entry per update is added after them. The
    statistics are those of the observations of this call alone, whatever
    the memory held: as many attempted as observed, no more completed
    than attempted, and a rate between 0 and 100 in whole tenths. *)
Theorem updateMemory_statistics (currentMemory : ReflectionAgent.Memory)
  (memoryUpdates : option (list ReflectionAgent.Update.t))
  (userProgress : list ReflectionAgent.Progress) :
  let updated := ReflectionAgent.updateMemory currentMemory memoryUpdates userProgress in
  ReflectionAgent.preferredTimes updated = ReflectionAgent.preferredTimes currentMemory /\
  (exists new,
      MemoryFacts.keys (patternsOf updated)
      = (MemoryFacts.keys (patternsOf currentMemory) ++ new)%list /\
      (List.length new
       <= List.length (match memoryUpdates with Some l => l | None => [] end))%nat) /\
  (exists stats,
      ReflectionAgent.stats updated = Some stats /\
      ReflectionAgent.totalTasksAttempted stats = List.length userProgress /\
      (ReflectionAgent.totalTasksCompleted stats
       <= ReflectionAgent.totalTasksAttempted stats)%nat /\
      (0 <= ReflectionAgent.overallCompletionRate stats <= 100)%Q /\
      inTenths (ReflectionAgent.overallCompletionRate stats)) /\
  (forall otherMemory,
      ReflectionAgent.stats
        (ReflectionAgent.updateMemory otherMemory memoryUpdates userProgress)
      = ReflectionAgent.stats updated).
Proof.
  cbv zeta. split; [reflexivity|]. split; [|split; [|reflexivity]].
  - unfold ReflectionAgent.updateMemory, patternsOf at 1.
    cbn [ReflectionAgent.patterns]. fold (patternsOf currentMemory).
    apply upserts_keys_extend.
  - eexists. split; [reflexivity|]. cbn [ReflectionAgent.totalTasksAttempted
      ReflectionAgent.totalTasksCompleted ReflectionAgent.overallCompletionRate].
    split; [reflexivity|]. split; [apply filter_length_le|].
    pose proof (percentage_range _ _ (filter_length_le ReflectionAgent.isCompleted
                                        userProgress)) as [Hlo Hhi].
    split; [split|].
    + apply Qle_trans with (y := roundTenth 0); [discriminate|].
      apply roundTenth_le, Hlo.
    + apply Qle_trans with (y := roundTenth 100); [|discriminate].
      apply roundTenth_le, Hhi.
    + unfold roundTenth. destruct (Qle_bool 0 _).
      * eexists. reflexivity.
      * exists (- tenths (ReflectionAgent.percentage
                            (List.length (List.filter ReflectionAgent.isCompleted
                                            userProgress))
                            (List.length userProgress) 0)).
        reflexivity.
Qed.

(** ** Reading the analysis *)

Lemma index_of_nth c l i :
  GoalAnalyzerAgent.index_of c l = Some i ->
  nth_error l i = Some c /\ ~ In c (firstn i l).
Proof.
  revert i. induction l as [|d rest IH]; intros i; simpl; [discriminate|].
  destruct (Ascii.eqb c d) eqn:E.
  - intros [= <-]. apply Ascii.eqb_eq in E. subst. simpl. tauto.
  - destruct (GoalAnalyzerAgent.index_of c rest) as [k|]; [|discriminate].
    intros [= <-]. destruct (IH k eq_refl) as [Hn Hout]. simpl. split; [exact Hn|].
    intros [->|Hin]; [|tauto]. rewrite Ascii.eqb_refl in E. discriminate.
Qed.

Lemma last_index_of_nth c l j :
  GoalAnalyzerAgent.last_index_of c l = Some j -> nth_error l j = Some c.
Proof.
  revert j. induction l as [|d rest IH]; intros j; simpl; [discriminate|].
  destruct (GoalAnalyzerAgent.last_index_of c rest) as [k|].
  - intros [= <-]. simpl. now apply IH.
  - destruct (Ascii.eqb c d) eqn:E; [|discriminate].
    intros [= <-]. apply Ascii.eqb_eq in E. now subst.
Qed.

Lemma last_index_of_skipn c l i j :
  GoalAnalyzerAgent.last_index_of c (skipn i l) = Some j ->
  GoalAnalyzerAgent.last_index_of c l = Some (i + j)%nat.
Proof.
  revert l. induction i as [|i IH]; intros l; [exact (fun H => H)|].
  destruct l as [|d rest]; [discriminate|]. simpl. intros H.
  now rewrite (IH rest H).
Qed.

Lemma match_object_slice_braces cleaned candidate :
  GoalAnalyzerAgent.match_object cleaned = Some candidate ->
  GoalAnalyzerAgent.slice_braces cleaned = Some candidate.
Proof.
  unfold GoalAnalyzerAgent.match_object, GoalAnalyzerAgent.slice_braces. cbv zeta.
  destruct (GoalAnalyzerAgent.index_of "{" (chars cleaned)) as [i|] eqn:Ei;
    [|discriminate].
  destruct (GoalAnalyzerAgent.last_index_of "}" (skipn i (chars cleaned))) as [j|] eqn:Ej;
    [|discriminate].
  intros [= <-]. rewrite (last_index_of_skipn _ _ _ _ Ej).
  assert (Hj : j <> 0%nat).
  { intros ->. apply last_index_of_nth in Ej. apply index_of_nth in Ei as [Ei _].
    rewrite <- (Nat.add_0_r i), <- nth_error_skipn in Ei.
    rewrite Ei in Ej. discriminate. }
  assert (Hlt : Nat.ltb i (i + j) = true) by (apply Nat.ltb_lt; lia).
  rewrite Hlt. now replace (S (i + j) - i)%nat with (S j) by lia.
Qed.

(** X21. The last resort of the goal analyzer's [parseResponse] never
    helps: whenever the pattern for an object matches, the slice from the
    first opening brace to the last closing brace is the very text that
    was matched, so the third parsing attempt reads what the second one
    has just failed on. The attempts are the direct one and, if it fails,
    the one on the matched text. *)
Theorem parse_attempts_last_resort_repeats (rt : Runtime) (cleaned : string) :
  (forall candidate,
      GoalAnalyzerAgent.match_object cleaned = Some candidate ->
      GoalAnalyzerAgent.slice_braces cleaned = Some candidate) /\
  GoalAnalyzerAgent.parse_attempts rt cleaned
  = match JSON_parse rt cleaned with
    | Some parsed => Some parsed
    | None =>
        match GoalAnalyzerAgent.match_object cleaned with
        | Some candidate => JSON_parse rt candidate
        | None => None
        end
    end.
Proof.
  split; [apply match_object_slice_braces|].
  unfold GoalAnalyzerAgent.parse_attempts.
  destruct (JSON_parse rt cleaned); [reflexivity|].
  destruct (GoalAnalyzerAgent.match_object cleaned) as [candidate|] eqn:E; [|reflexivity].
  rewrite (match_object_slice_braces _ _ E).
  now destruct (JSON_parse rt candidate) eqn:Ec.
Qed.

Lemma index_of_app c prefix rest :
  ~ In c prefix ->
  GoalAnalyzerAgent.index_of c (prefix ++ c :: rest) = Some (List.length prefix).
Proof.
  induction prefix as [|d prefix IH]; intros Hout; simpl.
  - now rewrite Ascii.eqb_refl.
  - destruct (Ascii.eqb c d) eqn:E.
    + apply Ascii.eqb_eq in E. subst. contradiction Hout. now left.
    + rewrite IH; [reflexivity|]. intros H. apply Hout. now right.
Qed.

Lemma last_index_of_none c l :
  ~ In c l -> GoalAnalyzerAgent.last_index_of c l = None.
Proof.
  induction l as [|d l IH]; intros Hout; simpl; [reflexivity|].
  rewrite IH by (intros H; apply Hout; now right).
  destruct (Ascii.eqb c d) eqn:E; [|reflexivity].
  apply Ascii.eqb_eq in E. subst. contradiction Hout. now left.
Qed.

Lemma last_index_of_app c body suffix :
  ~ In c suffix ->
  GoalAnalyzerAgent.last_index_of c (body ++ c :: suffix) = Some (List.length body).
Proof.
  intros Hout. induction body as [|d body IH]; simpl.
  - now rewrite (last_index_of_none c suffix Hout), Ascii.eqb_refl.
  - now rewrite IH.
Qed.

(** X22. What the second attempt recovers: in a response made of some
    text without an opening brace, an object, and some text without a
    closing brace, the text matched is the object, from its opening brace
    to its closing brace. *)
Theorem match_object_strips_commentary (before body after : list ascii) :
  ~ In "{"%char before ->
  ~ In "}"%char after ->
  GoalAnalyzerAgent.match_object (text (before ++ "{"%char :: body ++ "}"%char :: after))
  = Some (text ("{"%char :: body ++ ["}"%char])).
Proof.
  intros Hbefore Hafter. unfold GoalAnalyzerAgent.match_object. cbv zeta.
  unfold chars, text. rewrite list_ascii_of_string_of_list_ascii.
  rewrite (index_of_app _ _ _ Hbefore).
  rewrite skipn_app, Nat.sub_diag, skipn_all. cbn [skipn app].
  pose proof (last_index_of_app "}"%char ("{"%char :: body) after Hafter) as Hlast.
  cbn [app] in Hlast. rewrite Hlast.
  do 2 f_equal. cbn [List.length].
  replace ("{"%char :: body ++ "}"%char :: after)
    with (("{"%char :: body ++ ["}"%char]) ++ after)%list
    by (simpl; now rewrite <- app_assoc).
  rewrite firstn_app.
  replace (S (S (List.length body))) with (List.length ("{"%char :: body ++ ["}"%char]))
    by (simpl; rewrite length_app; simpl; lia).
  now rewrite firstn_all, Nat.sub_diag, app_nil_r.
Qed.

(** An answer with a sentence before the object and one after it. *)
Lemma match_object_strips_commentary_witness :
  GoalAnalyzerAgent.match_object
    (text (chars "Here is the analysis: " ++ "{"%char :: chars " 'complexity': 'low' "
           ++ "}"%char :: chars " I hope it helps."))
  = Some (text ("{"%char :: chars " 'complexity': 'low' " ++ ["}"%char])).
Proof.
  apply match_object_strips_commentary.
  - vm_compute. intuition discriminate.
  - vm_compute. intuition discriminate.
Defined.

(** X23. The descriptor [analyzeGoal] returns, parsed or heuristic: it
    is for the goal given, its complexity is one of the three levels, its
    deadline and its recommended approach are truthy, and so is its
    subject unless the goal is the empty text. *)
Theorem analyzeGoal_descriptor_is_complete (rt : Runtime) (generation : Generation)
  (goalText : string) (descriptor : GoalAnalyzerAgent.GoalDescriptor) :
  GoalAnalyzerAgent.analyzeGoal rt generation goalText = Ok descriptor ->
  GoalAnalyzerAgent.originalGoal descriptor = goalText /\
  In (GoalAnalyzerAgent.complexity descriptor) GoalAnalyzerAgent.valid /\
  truthy (Some (GoalAnalyzerAgent.parsedDeadline descriptor)) = true /\
  truthy (Some (GoalAnalyzerAgent.recommendedApproach descriptor)) = true /\
  (goalText <> "" -> truthy (Some (GoalAnalyzerAgent.subject descriptor)) = true).
Proof.
  intros H. split; [eapply analyzeGoal_originalGoal, H|].
  destruct generation as [response|message]; simpl in H; [|discriminate].
  injection H as <-.
  assert (Hfallback :
            let d := GoalAnalyzerAgent.createFallbackAnalysis goalText in
            In (GoalAnalyzerAgent.complexity d) GoalAnalyzerAgent.valid /\
            truthy (Some (GoalAnalyzerAgent.parsedDeadline d)) = true /\
            truthy (Some (GoalAnalyzerAgent.recommendedApproach d)) = true /\
            (goalText <> "" -> truthy (Some (GoalAnalyzerAgent.subject d)) = true)).
  { cbv zeta. unfold GoalAnalyzerAgent.createFallbackAnalysis. cbv zeta.
    cbn [GoalAnalyzerAgent.complexity GoalAnalyzerAgent.parsedDeadline
         GoalAnalyzerAgent.recommendedApproach GoalAnalyzerAgent.subject].
    split; [|split; [|split]].
    - destruct (Nat.ltb 20 _); [simpl; tauto|]. destruct (Nat.ltb 10 _); simpl; tauto.
    - now destruct (test _ _).
    - reflexivity.
    - intros Hne. destruct goalText as [|c rest]; [congruence|]. reflexivity. }
  unfold GoalAnalyzerAgent.parseResponse.
  destruct (GoalAnalyzerAgent.parse_attempts rt _) as [parsed|]; [|exact Hfallback].
  destruct (GoalAnalyzerAgent.validated parsed goalText) as [d|] eqn:E;
    [|exact Hfallback].
  unfold GoalAnalyzerAgent.validated in E.
  destruct (get parsed "parsedDeadline"); [|discriminate].
  destruct (get parsed "subject"); [|discriminate].
  destruct (get parsed "complexity") as [cx|]; [|discriminate].
  destruct (get parsed "recommendedApproach"); [|discriminate].
  destruct (GoalAnalyzerAgent.validateComplexity cx) as [c|] eqn:Ec; [|discriminate].
  injection E as <-.
  cbn [GoalAnalyzerAgent.complexity GoalAnalyzerAgent.parsedDeadline
       GoalAnalyzerAgent.recommendedApproach GoalAnalyzerAgent.subject].
  split; [apply (validateComplexity_level cx c Ec)|].
  split; [apply or_else_truthy; reflexivity|].
  split; [apply or_else_truthy; reflexivity|].
  intros _. apply or_else_truthy. reflexivity.
Qed.

(** The heuristic descriptor of the goal of the examples. *)
Lemma analyzeGoal_descriptor_is_complete_witness :
  GoalAnalyzerAgent.originalGoal pythonGoal = "Learn Python basics in 2 weeks" /\
  In (GoalAnalyzerAgent.complexity pythonGoal) GoalAnalyzerAgent.valid /\
  truthy (Some (GoalAnalyzerAgent.parsedDeadline pythonGoal)) = true /\
  truthy (Some (GoalAnalyzerAgent.recommendedApproach pythonGoal)) = true /\
  ("Learn Python basics in 2 weeks" <> "" ->
   truthy (Some (GoalAnalyzerAgent.subject pythonGoal)) = true).
Proof.
  apply (analyzeGoal_descriptor_is_complete Example.runtime
           (Responds "Sorry, I cannot help") "Learn Python basics in 2 weeks" pythonGoal).
  reflexivity.
Defined.

(** ** Recommendations *)

Lemma changeOf_texts (texts : list string) :
  forall index,
    map_try (fun _ : nat => ReflectionQueries.changeOf) index (List.map JStr texts)
    = Some (List.map JStr texts).
Proof.
  induction texts as [|t texts IH]; intros index; simpl; [reflexivity|].
  now rewrite IH.
Qed.

(** X24. After the rule-based reflection [getRecommendations] lists
    every insight twice: once as an insight and once as a schedule
    change, the fallback giving the same list for both. *)
Theorem fallback_recommendations_are_doubled {Plan : Type} (currentPlan : Plan)
  (userProgress : list ReflectionAgent.Progress) (userMemory : ReflectionAgent.Memory) :
  ReflectionQueries.getRecommendations
    (ReflectionAgent.createFallbackReflection currentPlan userProgress userMemory)
  = Some (List.map JStr (ReflectionAgent.fallbackInsights userProgress
                         ++ ReflectionAgent.fallbackInsights userProgress)%list).
Proof.
  unfold ReflectionQueries.getRecommendations. cbv zeta.
  cbn [ReflectionAgent.createFallbackReflection ReflectionAgent.insights
       ReflectionAgent.adjustmentsMade ReflectionAgent.scheduleChanges
       truthy ReflectionQueries.spread].
  now rewrite changeOf_texts, map_app.
Qed.

(** ** The time a plan takes *)

Lemma Qsum_range (l : list Q) (hi : Q) :
  Forall (fun q => 0 <= q <= hi)%Q l ->
  (0 <= Qsum l <= hi * inject_Z (Z.of_nat (List.length l)))%Q.
Proof.
  induction 1 as [|q l Hq _ IH].
  { cbn [Qsum fold_right List.length Z.of_nat]. change (inject_Z 0) with 0%Q.
    rewrite Qmult_0_r. split; apply Qle_refl. }
  cbn [Qsum fold_right List.length]. fold (Qsum l).
  rewrite Nat2Z.inj_succ. unfold Z.succ. rewrite inject_Z_plus.
  change (inject_Z 1) with 1%Q.
  set (n := inject_Z (Z.of_nat (List.length l))) in *.
  assert (E : (hi * (n + 1) == hi * n + hi)%Q) by ring.
  rewrite E. set (total := (hi * n)%Q) in *. clearbody total. lra.
Qed.

(** X25. The hours [calculateTotalTime] adds up: for the fallback
    tasks, 20 hours when the complexity is high, 11 when it is medium and
    6 otherwise; for any tasks [decompose] returns, between 0 and 40
    hours for each task. *)
Theorem calculateTotalTime_of_decomposition (rt : Runtime)
  (analyzedGoal : GoalAnalyzerAgent.GoalDescriptor) :
  (TaskDecomposerAgent.calculateTotalTime
     (TaskDecomposerAgent.createFallbackTasks rt analyzedGoal)
   == if String.eqb (GoalAnalyzerAgent.complexity analyzedGoal) "high" then 20
      else if String.eqb (GoalAnalyzerAgent.complexity analyzedGoal) "medium" then 11
      else 6)%Q /\
  (forall generation tasks,
      TaskDecomposerAgent.decompose rt generation analyzedGoal = Ok tasks ->
      (0 <= TaskDecomposerAgent.calculateTotalTime tasks
       <= 40 * inject_Z (Z.of_nat (List.length tasks)))%Q).
Proof.
  split.
  - unfold TaskDecomposerAgent.calculateTotalTime, TaskDecomposerAgent.createFallbackTasks.
    cbv zeta. destruct (String.eqb _ "high"); [reflexivity|].
    destruct (String.eqb _ "medium"); reflexivity.
  - intros generation tasks Hd. unfold TaskDecomposerAgent.calculateTotalTime.
    rewrite fold_left_hours, Qplus_0_l. unfold hoursOf.
    rewrite <- (length_map TaskDecomposerAgent.estimatedHours tasks).
    apply Qsum_range. apply Forall_map.
    eapply Forall_impl; [eapply decompose_fresh, Hd|].
    intros task (_ & _ & (n & Hn & Hh) & _). cbn beta. rewrite Hh. split.
    + apply Qle_shift_div_l; [reflexivity|].
      rewrite Qmult_0_l. change 0%Q with (inject_Z 0). rewrite <- Zle_Qle. lia.
    + apply Qle_shift_div_r; [reflexivity|].
      change (40 * 2)%Q with (inject_Z 80). rewrite <- Zle_Qle. lia.
Qed.

(** The three fallback tasks of the goal of the examples take six hours. *)
Lemma calculateTotalTime_of_decomposition_witness :
  (0 <= TaskDecomposerAgent.calculateTotalTime sampleTasks
   <= 40 * inject_Z (Z.of_nat (List.length sampleTasks)))%Q.
Proof.
  apply (proj2 (calculateTotalTime_of_decomposition Example.runtime pythonGoal)
           (Responds "Sorry, I cannot help") sampleTasks).
  reflexivity.
Defined.
